(** * Itinerary planner agent: revision loop, tool dispatcher, evaluators

    A shallow embedding of the parts of [src/model.py], [src/evals.py] and
    [src/tools.py] that carry the control flow of the program:

    - [ChatAgent] ([__init__], [add_message], [reset], [get_response],
      [chat]), [ItineraryAgent.get_itinerary],
      [ItineraryRevisionAgent.get_observation_string] and
      [ItineraryRevisionAgent.run_react_cycle]   (model.py);
    - the field constraints of [VacationInfo]    (model.py);
    - [get_eval_results] and the seven evaluators (evals.py);
    - the three mocked data sources, [do_chat_completion],
      [get_tool_descriptions_string] and
      [get_activities_by_date_tool]              (tools.py).

    Python exceptions are values of type [exn]; a computation that may raise
    returns [exn + A].  The agent's message list and the record of tool
    invocations are threaded explicitly, and they survive a raise, as the
    attributes of a Python object do.  The built-in [print] only writes to
    the terminal and is left out.  [console.print] of the [rich] library
    reads its text as markup and raises [MarkupError] on a closing tag that
    closes nothing: it is kept wherever the text printed comes from a model
    response, an exception or an evaluator, and left out where the text is
    fixed or holds only a step number or the name of the agent's class.
    Library code the repository imports (the OpenAI client, [json_repair],
    [json.loads], pydantic's [model_validate] and [==], [datetime.strptime],
    [rich]) and the data tables of [utils.data], which is not among the
    sources, are parameters of the sections below.

    A Python string is kept as the bytes of its UTF-8 encoding: equality,
    concatenation, containment, splitting at a separator and the order of
    strings are the same on code points and on these bytes. *)

From Stdlib Require Import String Ascii List ZArith Lia Bool DecimalString.
Import ListNotations.
Set Warnings "-register-all".
Open Scope list_scope.
Open Scope string_scope.

(** ** Python [str] operations used by the sources *)

Module PyStr.

(** [sub in s] *)
Fixpoint contains (sub s : string) : bool :=
  prefix sub s ||
  match s with
  | EmptyString => false
  | String _ s' => contains sub s'
  end.

(** [s.startswith(p)] *)
Definition startswith (s p : string) : bool := prefix p s.

Fixpoint rev_string (acc : list ascii) : string :=
  match acc with
  | [] => EmptyString
  | c :: acc' => rev_string acc' ++ String c EmptyString
  end.

(** [s.split(sep)] for a non-empty separator: a left-to-right scan for
    non-overlapping occurrences.  [skip] counts the characters of a matched
    separator still to be passed over, [cur] holds the current piece in
    reverse. *)
Fixpoint split_go (sep : string) (skip : nat) (cur : list ascii) (s : string)
  : list string :=
  match s with
  | EmptyString => [rev_string cur]
  | String c s' =>
      match skip with
      | S k => split_go sep k cur s'
      | O =>
          if prefix sep s
          then rev_string cur :: split_go sep (String.length sep - 1) [] s'
          else split_go sep 0 (c :: cur) s'
      end
  end.

Definition split (sep s : string) : list string := split_go sep 0 [] s.

(** The white space [str.strip()] removes.  Within ASCII: TAB, LF, VT, FF,
    CR, FS, GS, RS, US and the space. *)
Definition isspace (c : ascii) : bool :=
  let n := nat_of_ascii c in
  ((9 <=? n)%nat && (n <=? 13)%nat) || ((28 <=? n)%nat && (n <=? 32)%nat).

(** Beyond ASCII, as encoded in UTF-8: U+0085 and U+00A0 take two bytes;
    U+1680, U+2000 to U+200A, U+2028, U+2029, U+202F, U+205F and U+3000 take
    three. *)
Definition isspace2 (a b : ascii) : bool :=
  (nat_of_ascii a =? 194)%nat
  && ((nat_of_ascii b =? 133)%nat || (nat_of_ascii b =? 160)%nat).

Definition isspace3 (a b c : ascii) : bool :=
  let x := nat_of_ascii a in
  let y := nat_of_ascii b in
  let z := nat_of_ascii c in
  ((x =? 225)%nat && (y =? 154)%nat && (z =? 128)%nat)
  || ((x =? 226)%nat && (y =? 128)%nat
      && (((128 <=? z)%nat && (z <=? 138)%nat)
          || (z =? 168)%nat || (z =? 169)%nat || (z =? 175)%nat))
  || ((x =? 226)%nat && (y =? 129)%nat && (z =? 159)%nat)
  || ((x =? 227)%nat && (y =? 128)%nat && (z =? 128)%nat).

Fixpoint lstrip (s : string) : string :=
  match s with
  | EmptyString => EmptyString
  | String a s1 =>
      if isspace a then lstrip s1
      else
        match s1 with
        | EmptyString => s
        | String b s2 =>
            if isspace2 a b then lstrip s2
            else
              match s2 with
              | EmptyString => s
              | String c s3 => if isspace3 a b c then lstrip s3 else s
              end
        end
  end.

(** Drops trailing white space: what is left of the string from a position
    on is dropped when it is white space only. *)
Fixpoint rstrip (s : string) : string :=
  match s with
  | EmptyString => EmptyString
  | String c s' =>
      match lstrip s with
      | EmptyString => EmptyString
      | _ => String c (rstrip s')
      end
  end.

Definition strip (s : string) : string := rstrip (lstrip s).

(** [str(n)] for an [int] *)
Definition str_of_Z (z : Z) : string := NilZero.string_of_int (Z.to_int z).

(** [str(x)] where [x] may be [None] *)
Definition str_of_opt (o : option string) : string :=
  match o with
  | Some s => s
  | None => "None"
  end.

(** [x or ''], the empty string standing for a missing response *)
Definition or_empty (o : option string) : string :=
  match o with
  | Some s => s
  | None => EmptyString
  end.

(** Truthiness of a string: [if s:] *)
Definition truthy (s : string) : bool :=
  match s with
  | EmptyString => false
  | _ => true
  end.

End PyStr.

(** ** Exceptions and JSON values *)

(** The exception classes the sources raise or catch.  All of them derive
    from [Exception]; [except Exception] therefore catches every [exn]. *)
Inductive exn_class : Type :=
| ValueError
| KeyError
| IndexError
| TypeError
| AttributeError
| RuntimeError
| ValidationError
| AgentError
| OtherError (name : string).

(** An exception instance: its class and [str(e)]. *)
Record exn : Type := Exn { exn_cls : exn_class; exn_str : string }.

Definition is_AgentError (e : exn) : bool :=
  match exn_cls e with
  | AgentError => true
  | _ => false
  end.

(** A [float] is kept as its literal; nothing in the modelled code computes
    with one. *)
Definition pyfloat : Type := string.

(** What [json.loads] returns.  A [dict] is an association list in insertion
    order, with one binding for each key. *)
Inductive json : Type :=
| JNull
| JBool (b : bool)
| JInt (z : Z)
| JFloat (f : pyfloat)
| JStr (s : string)
| JList (l : list json)
| JDict (kv : list (string * json)).

Definition pydict : Type := list (string * json).

(** [type(v).__name__] *)
Definition type_name (v : json) : string :=
  match v with
  | JNull => "NoneType"
  | JBool _ => "bool"
  | JInt _ => "int"
  | JFloat _ => "float"
  | JStr _ => "str"
  | JList _ => "list"
  | JDict _ => "dict"
  end.

(** [str(type(v))], as an f-string renders [{type(v)}] *)
Definition type_repr (v : json) : string := "<class '" ++ type_name v ++ "'>".

Definition is_dict (v : json) : bool :=
  match v with
  | JDict _ => true
  | _ => false
  end.

Definition is_str (v : json) : bool :=
  match v with
  | JStr _ => true
  | _ => false
  end.

Fixpoint lookup (k : string) (d : pydict) : option json :=
  match d with
  | [] => None
  | (k', v) :: d' => if (k' =? k)%string then Some v else lookup k d'
  end.

(** [k in d] *)
Definition mem (k : string) (d : pydict) : bool :=
  match lookup k d with
  | Some _ => true
  | None => false
  end.

(** [d[k]]: raises [KeyError(k)], whose [str] is the quoted key. *)
Definition getitem (d : pydict) (k : string) : exn + json :=
  match lookup k d with
  | Some v => inr v
  | None => inl (Exn KeyError ("'" ++ k ++ "'"))
  end.

(** [v.get(k, default)]: only a [dict] has the method. *)
Definition get_method (v : json) (k : string) (default : json) : exn + json :=
  match v with
  | JDict d =>
      match lookup k d with
      | Some x => inr x
      | None => inr default
      end
  | _ =>
      inl (Exn AttributeError
             ("'" ++ type_name v ++ "' object has no attribute 'get'"))
  end.

(** [v == s] for a string literal [s] *)
Definition eq_str (v : json) (s : string) : bool :=
  match v with
  | JStr s' => (s' =? s)%string
  | _ => false
  end.

(** ** Data model (model.py) *)

(** [datetime.date]; ordered as the triple (year, month, day). *)
Record date : Type := Date { year : Z; month : Z; day : Z }.

Definition date_compare (a b : date) : comparison :=
  match (year a ?= year b)%Z with
  | Eq =>
      match (month a ?= month b)%Z with
      | Eq => (day a ?= day b)%Z
      | c => c
      end
  | c => c
  end.

Definition date_eqb (a b : date) : bool :=
  match date_compare a b with
  | Eq => true
  | _ => false
  end.

Definition date_ltb (a b : date) : bool :=
  match date_compare a b with
  | Lt => true
  | _ => false
  end.

Definition date_gtb (a b : date) : bool := date_ltb b a.

Definition date_leb (a b : date) : bool := negb (date_gtb a b).

(** [str(d)]: ISO format, zero padded. *)
Definition pad (width : nat) (s : string) : string :=
  string_of_list_ascii (repeat "0"%char (width - String.length s)) ++ s.

Definition date_str (d : date) : string :=
  pad 4 (PyStr.str_of_Z (year d)) ++ "-" ++ pad 2 (PyStr.str_of_Z (month d))
  ++ "-" ++ pad 2 (PyStr.str_of_Z (day d)).

(** [datetime.datetime]; [tzinfo] is the offset from UTC in seconds, [None]
    for a naive value. *)
Record datetime : Type :=
  Datetime
    { dt_date : date;
      hour : Z;
      minute : Z;
      second : Z;
      microsecond : Z;
      tzinfo : option Z }.

(** Modelled from the spec: the enumeration [Interest] of [utils.data] is not
    among the sources; an interest tag is kept as its name. *)
Definition Interest : Type := string.

Record Traveler : Type :=
  { name : string; age : Z; interests : list Interest }.

Record VacationInfo : Type :=
  { travelers : list Traveler;
    destination : string;
    date_of_arrival : date;
    date_of_departure : date;
    budget : Z }.

Record Weather : Type :=
  { temperature : pyfloat; temperature_unit : string; condition : string }.

Record Activity : Type :=
  { activity_id : string;
    activity_name : string;
    start_time : datetime;
    end_time : datetime;
    location : string;
    description : string;
    price : Z;
    related_interests : list Interest }.

Record ActivityRecommendation : Type :=
  { activity : Activity; reasons_for_recommendation : list string }.

Record ItineraryDay : Type :=
  { itinerary_date : date;
    weather : Weather;
    activity_recommendations : list ActivityRecommendation }.

Record TravelPlan : Type :=
  { city : string;
    start_date : date;
    end_date : date;
    total_cost : Z;
    itinerary_days : list ItineraryDay }.

Inductive OpenAIModel : Type := GPT_41 | GPT_41_MINI | GPT_41_NANO.

(** ** External collaborators *)

(** One entry of the conversation: [{"role": ..., "content": ...}].  The
    content of an assistant message is whatever the completion returned,
    possibly [None]. *)
Record message : Type := Message { role : string; content : option string }.

(** What the sources read from a completion object: [str(response.error)]
    when the attribute is present, and [response.choices[0].message.content]. *)
Record completion : Type :=
  { error : option string; choice_content : option string }.

(** Library code and services the repository calls.  [Env] is the state of
    everything outside the agent (the model service, the clock); a call of a
    collaborator that is not a pure function takes and returns it.  A tool
    field stands for [tool_fn( **arguments )] followed by the rendering of the
    response in the f-string of the observation.  [console_print] is
    [console.print] of [rich] on a string: it returns, or raises on markup it
    cannot read; a text without an opening bracket holds no markup and is
    printed as it is. *)
Class Collaborators : Type :=
  { Client : Type;
    Env : Type;
    chat_completions_create :
      Client -> OpenAIModel -> list message -> Env -> (exn + completion) * Env;
    repair_json : string -> string;
    json_loads : string -> option json;
    TravelPlan_model_validate : json -> exn + TravelPlan;
    TravelPlan_model_dump_json : TravelPlan -> string;
    calculator_tool : pydict -> Env -> (exn + string) * Env;
    get_activities_by_date_tool : pydict -> Env -> (exn + string) * Env;
    run_evals_tool : pydict -> Env -> (exn + string) * Env;
    final_answer_tool : pydict -> Env -> (exn + string) * Env;
    console_print : string -> exn + unit;
    console_print_plain :
      forall text,
        PyStr.contains "[" text = false -> console_print text = inr tt }.

(** ** The agents (model.py) *)

Section Agent.

Context `{X : Collaborators}.

(** The attributes of an agent the loop reads or writes, the state of the
    collaborators, and [invoked]: the tool invocations made so far, each with
    the name of the tool and the arguments passed. *)
Record state : Type :=
  { client : option Client;
    model : option OpenAIModel;
    messages : list message;
    invoked : list (string * pydict);
    env : Env }.

Definition set_messages (s : state) (ms : list message) : state :=
  {| client := client s; model := model s; messages := ms;
     invoked := invoked s; env := env s |}.

Definition set_env (s : state) (e : Env) : state :=
  {| client := client s; model := model s; messages := messages s;
     invoked := invoked s; env := e |}.

(** [self.messages.append(m)] *)
Definition appended (s : state) (m : message) : state :=
  set_messages s (messages s ++ [m])%list.

Definition log_invocation (s : state) (tool : string) (arguments : pydict)
  : state :=
  {| client := client s; model := model s; messages := messages s;
     invoked := (invoked s ++ [(tool, arguments)])%list; env := env s |}.

(** A method body: it may raise, and the state it leaves behind is kept
    either way. *)
Definition M (A : Type) : Type := state -> (exn + A) * state.

Definition ret {A} (a : A) : M A := fun s => (inr a, s).

Definition raise {A} (e : exn) : M A := fun s => (inl e, s).

Definition bind {A B} (c : M A) (k : A -> M B) : M B :=
  fun s =>
    match c s with
    | (inr a, s') => k a s'
    | (inl e, s') => (inl e, s')
    end.

Definition lift {A} (r : exn + A) : M A := fun s => (r, s).

(** [try: body  except Exception as e: handler] *)
Definition try_except {A} (body : M A) (handler : exn -> M A) : M A :=
  fun s =>
    match body s with
    | (inr a, s') => (inr a, s')
    | (inl e, s') => handler e s'
    end.

Notation "x <- c ;; k" := (bind c (fun x => k))
  (at level 61, c at next level, right associativity).
Notation "c ;;; k" := (bind c (fun _ => k))
  (at level 61, right associativity).

(** [a or b] on optional arguments whose values are all truthy *)
Definition py_or {A} (a b : option A) : option A :=
  match a with
  | Some x => Some x
  | None => b
  end.

Definition valid_roles : list string := ["system"; "user"; "assistant"].

(** [console.print(content, style=...)] on the content of a message: only a
    string is read as markup. *)
Definition print_content (content : option string) : exn + unit :=
  match content with
  | Some text => console_print text
  | None => inr tt
  end.

(** [ChatAgent.add_message].  The message is appended first; the content of
    an assistant message is then printed.  The header line printed for each
    role holds the name of the agent, the name of its class unless the caller
    gives another. *)
Definition add_message (role : string) (content : option string) : M unit :=
  fun s =>
    if negb (existsb (String.eqb role) valid_roles)
    then (inl (Exn ValueError ("Invalid role: " ++ role)), s)
    else
      let s' := appended s (Message role content) in
      if (role =? "assistant")%string
      then (print_content content, s')
      else (inr tt, s').

(** [tools.do_chat_completion], called without [response_format] *)
Definition do_chat_completion (msgs : list message)
  (model : option OpenAIModel) (client : option Client) : M (option string) :=
  match client with
  | None => raise (Exn ValueError "A valid OpenAI client must be provided.")
  | Some c =>
      match model with
      | None => raise (Exn ValueError "A valid model must be provided.")
      | Some m =>
          fun s =>
            match chat_completions_create c m msgs (env s) with
            | (inl e, w) => (inl e, set_env s w)
            | (inr response, w) =>
                match error response with
                | Some err =>
                    (inl (Exn RuntimeError
                            ("OpenAI API returned an error: " ++ err)),
                     set_env s w)
                | None => (inr (choice_content response), set_env s w)
                end
            end
      end
  end.

(** [ChatAgent.get_response] *)
Definition get_response (add_to_messages : bool)
  (model_arg : option OpenAIModel) (client_arg : option Client)
  : M (option string) :=
  fun s =>
    (response <- do_chat_completion (messages s) (py_or model_arg (model s))
                   (py_or client_arg (client s)) ;;
     (if add_to_messages then add_message "assistant" response else ret tt) ;;;
     ret response) s.

(** The model call [get_response] makes. *)
Definition model_call (model_arg : option OpenAIModel)
  (client_arg : option Client) : M (option string) :=
  fun s =>
    do_chat_completion (messages s) (py_or model_arg (model s))
      (py_or client_arg (client s)) s.

(** A registered tool: [tool.__name__] and the callable. *)
Record tool : Type :=
  { tool_name : string; tool_fn : pydict -> Env -> (exn + string) * Env }.

(** [tools.ALL_TOOLS] *)
Definition ALL_TOOLS : list tool :=
  [ {| tool_name := "calculator_tool"; tool_fn := calculator_tool |};
    {| tool_name := "get_activities_by_date_tool";
       tool_fn := get_activities_by_date_tool |};
    {| tool_name := "run_evals_tool"; tool_fn := run_evals_tool |};
    {| tool_name := "final_answer_tool"; tool_fn := final_answer_tool |} ].

(** The [for tool in self.tools] search: the first tool whose [__name__]
    equals the requested name. *)
Fixpoint find_tool (tools : list tool) (requested : string) : option tool :=
  match tools with
  | [] => None
  | t :: rest =>
      if (tool_name t =? requested)%string then Some t
      else find_tool rest requested
  end.

(** The names under which a tool is registered. *)
Definition registered (n : string) : Prop := In n (map tool_name ALL_TOOLS).

(** [tool_fn( **arguments )] and the rendering of its response *)
Definition call_tool (t : tool) (arguments : pydict) : M string :=
  fun s =>
    match tool_fn t arguments (env s) with
    | (r, w) => (r, set_env (log_invocation s (tool_name t) arguments) w)
    end.

(** [ItineraryRevisionAgent.get_observation_string].  The one call site
    passes an object on which [.get] has succeeded, a [dict].  The
    assignment [self.tools = ALL_TOOLS] is read back at once and is not
    kept in the state. *)
Definition get_observation_string (tool_call_obj : pydict) : M string :=
  if negb (mem "tool_name" tool_call_obj)
  then ret "OBSERVATION: No tool name specified."
  else if negb (mem "arguments" tool_call_obj)
  then ret "OBSERVATION: No arguments specified."
  else
    a <- lift (getitem tool_call_obj "arguments") ;;
    match a with
    | JDict arguments =>
        t <- lift (getitem tool_call_obj "tool_name") ;;
        match t with
        | JStr tool_name =>
            match find_tool ALL_TOOLS tool_name with
            | None =>
                ret ("OBSERVATION: Unknown tool name '" ++ tool_name
                     ++ "' in action string.")
            | Some tool_fn =>
                try_except
                  (tool_response <- call_tool tool_fn arguments ;;
                   ret ("OBSERVATION: Tool " ++ tool_name
                        ++ " called successfully with response: "
                        ++ tool_response))
                  (fun e =>
                     ret ("OBSERVATION: Error occurred while calling tool "
                          ++ tool_name ++ ": " ++ exn_str e))
            end
        | _ =>
            ret ("OBSERVATION: Tool name should be a string, got "
                 ++ type_repr t ++ " instead.")
        end
    | _ =>
        ret ("OBSERVATION: Arguments should be a dictionary, got "
             ++ type_repr a ++ " instead.")
    end.

Definition nl : string := String (ascii_of_nat 10) EmptyString.

(** [l[i]] *)
Definition index {A} (l : list A) (i : nat) : exn + A :=
  match nth_error l i with
  | Some a => inr a
  | None => inl (Exn IndexError "list index out of range")
  end.

(** The body of the [for] loop of [run_react_cycle] is modelled in three
    pieces.  Each yields the value assigned to [resp] and, when the body
    executes [return], the plan returned; [None] stands for reaching
    [continue] or the end of the body. *)

(** [obj.get("tool_name", None)] on a mapping *)
Definition requested_tool (obj : pydict) : json :=
  match lookup "tool_name" obj with
  | Some v => v
  | None => JNull
  end.

(** From [tool_name = tool_call_obj.get("tool_name", None)] to the end of the
    body.  The handler of a final answer that does not validate appends the
    observation and then prints the error, outside any [try]. *)
Definition dispatch_action (resp : string) (tool_call_obj : json)
  : M (string * option TravelPlan) :=
  match tool_call_obj with
  | JDict obj =>
      let tool_name := requested_tool obj in
      if eq_str tool_name "final_answer_tool"
      then
        try_except
          (arguments <- lift (getitem obj "arguments") ;;
           payload <- lift (get_method arguments "final_output" arguments) ;;
           new_travel_plan <- lift (TravelPlan_model_validate payload) ;;
           ret (resp, Some new_travel_plan))
          (fun e =>
             add_message "user"
               (Some ("Error validating final answer: " ++ exn_str e)) ;;;
             lift (console_print
                     ("!!! final itinerary Validation failed: " ++ exn_str e)) ;;;
             ret (resp, None))
      else
        observation_string <- get_observation_string obj ;;
        add_message "user" (Some observation_string) ;;;
        ret (resp, None)
  | other =>
      (* [.get] on a value that is not a [dict] *)
      raise (Exn AttributeError
               ("'" ++ type_name other ++ "' object has no attribute 'get'"))
  end.

(** From the test for the marker to the end of the body. *)
Definition handle_response (resp : string) : M (string * option TravelPlan) :=
  if negb (PyStr.contains "ACTION:" resp)
  then
    add_message "user" (Some "No action found in response.") ;;;
    ret (resp, None)
  else
    chunk <- lift (index (PyStr.split "ACTION:" resp) 1) ;;
    let action_string := repair_json (PyStr.strip chunk) in
    match json_loads action_string with
    | None =>
        add_message "user"
          (Some ("Invalid JSON in action string: " ++ action_string)) ;;;
        ret (resp, None)
    | Some tool_call_obj => dispatch_action resp tool_call_obj
    end.

(** One pass through the body. *)
Definition react_step (model_arg : option OpenAIModel)
  (client_arg : option Client) : M (string * option TravelPlan) :=
  r <- get_response true model_arg client_arg ;;
  handle_response (PyStr.or_empty r).

(** The text the loop decodes: the piece after the first marker, stripped
    and repaired. *)
Definition action_string (resp : string) : string :=
  repair_json (PyStr.strip (nth 1 (PyStr.split "ACTION:" resp) EmptyString)).

(** The payload of a final answer: the value under ["final_output"], or the
    whole mapping of arguments when the key is absent. *)
Definition final_payload (arguments : pydict) : json :=
  match lookup "final_output" arguments with
  | Some v => v
  | None => JDict arguments
  end.

(** What one pass may append to the conversation after the assistant
    message: nothing, or one user message. *)
Definition at_most_one_observation (tail : list message) : Prop :=
  tail = [] \/ exists obs, tail = [Message "user" (Some obs)].

(** A sequence of passes as seen in the conversation: each model response is
    one assistant message, followed by at most one user message. *)
Inductive turns : list message -> Prop :=
| turns_nil : turns []
| turns_cons (r : option string) (tail rest : list message) :
    at_most_one_observation tail ->
    turns rest ->
    turns (Message "assistant" r :: tail ++ rest)%list.

(** The [for step in range(max_steps)] loop: [inl plan] when a pass returns,
    [inr resp] with the last value of [resp] when the range is used up. *)
Fixpoint react_for (steps : nat) (model_arg : option OpenAIModel)
  (client_arg : option Client) (resp : option string)
  : M (TravelPlan + option string) :=
  match steps with
  | O => ret (inr resp)
  | S steps' =>
      r <- react_step model_arg client_arg ;;
      match r with
      | (_, Some plan) => ret (inl plan)
      | (resp', None) => react_for steps' model_arg client_arg (Some resp')
      end
  end.

(** A run of passes none of which returns or raises, with the value each
    assigns to [resp], in order. *)
Inductive elapses (model_arg : option OpenAIModel)
  (client_arg : option Client) : state -> list string -> state -> Prop :=
| elapses_nil (s : state) : elapses model_arg client_arg s [] s
| elapses_cons (s s1 s' : state) (resp : string) (resps : list string) :
    react_step model_arg client_arg s = (inr (resp, None), s1) ->
    elapses model_arg client_arg s1 resps s' ->
    elapses model_arg client_arg s (resp :: resps) s'.

Definition exhausted (max_steps : Z) (resp : option string) : exn :=
  Exn RuntimeError
    ("ReAct cycle did not complete within " ++ PyStr.str_of_Z max_steps
     ++ " steps. Last response: " ++ PyStr.str_of_opt resp).

(** The message [run_react_cycle] opens with. *)
Definition revision_request (original_travel_plan : TravelPlan) : message :=
  Message "user"
    (Some ("Here is the itinerary for revision:" ++ nl
           ++ TravelPlan_model_dump_json original_travel_plan)).

(** [ItineraryRevisionAgent.run_react_cycle] *)
Definition run_react_cycle (original_travel_plan : TravelPlan)
  (max_steps : Z) (model_arg : option OpenAIModel)
  (client_arg : option Client) : M TravelPlan :=
  add_message "user"
    (Some ("Here is the itinerary for revision:" ++ nl
           ++ TravelPlan_model_dump_json original_travel_plan)) ;;;
  r <- react_for (Z.to_nat max_steps) model_arg client_arg None ;;
  match r with
  | inl plan => ret plan
  | inr resp => raise (exhausted max_steps resp)
  end.

End Agent.

(** ** Evaluation suite (evals.py) *)

Record EvaluationResults : Type :=
  { success : bool; failures : list string; eval_functions : list string }.

Section Evals.

Context `{X : Collaborators}.

(** The state of what an evaluator may consult besides its arguments (two of
    the evaluators of the repository ask a language model). *)
Variable World : Type.

(** An evaluation function: the callable, which returns [None] or raises,
    and what reading [fn.__name__] gives: a function has a name, for another
    callable the attribute may be missing and reading it raises. *)
Record evaluator : Type :=
  { fn_name : exn + string;
    eval_fn :
      VacationInfo -> TravelPlan -> option string -> World
      -> (exn + unit) * World }.

(** The world, and [evaluated]: the evaluators invoked so far, each with its
    name and how the call ended. *)
Record eval_state : Type :=
  { world : World; evaluated : list ((exn + string) * (exn + unit)) }.

(** The [for eval_fn in eval_functions] loop with its
    [try ... except AgentError]: the message of an [AgentError] is printed
    and recorded and the loop goes on; any other exception, and an exception
    of the printing, leaves the function. *)
Fixpoint eval_for (fns : list evaluator) (vacation_info : VacationInfo)
  (final_output : TravelPlan) (traveler_feedback : option string)
  (eval_results : list string) (s : eval_state)
  : (exn + list string) * eval_state :=
  match fns with
  | [] => (inr eval_results, s)
  | f :: rest =>
      match eval_fn f vacation_info final_output traveler_feedback (world s)
      with
      | (r, w) =>
          let s' :=
            {| world := w;
               evaluated := (evaluated s ++ [(fn_name f, r)])%list |} in
          match r with
          | inr _ =>
              eval_for rest vacation_info final_output traveler_feedback
                eval_results s'
          | inl e =>
              if is_AgentError e
              then
                let error_msg := exn_str e in
                match console_print error_msg with
                | inl e' => (inl e', s')
                | inr _ =>
                    eval_for rest vacation_info final_output traveler_feedback
                      (eval_results ++ [error_msg])%list s'
                end
              else (inl e, s')
          end
      end
  end.

(** [[fn.__name__ for fn in eval_functions]]: the first name that cannot be
    read ends the comprehension. *)
Fixpoint names_of (fns : list evaluator) : exn + list string :=
  match fns with
  | [] => inr []
  | fn :: rest =>
      match fn_name fn with
      | inl e => inl e
      | inr n =>
          match names_of rest with
          | inl e => inl e
          | inr ns => inr (n :: ns)
          end
      end
  end.

(** [get_eval_results].  The three [isinstance] guards at its head hold by
    typing. *)
Definition get_eval_results (vacation_info : VacationInfo)
  (final_output : TravelPlan) (eval_functions : list evaluator)
  (traveler_feedback : option string) (s : eval_state)
  : (exn + EvaluationResults) * eval_state :=
  match
    eval_for eval_functions vacation_info final_output traveler_feedback [] s
  with
  | (inr eval_results, s') =>
      match names_of eval_functions with
      | inr names =>
          (inr {| success := (List.length eval_results =? 0)%nat;
                  failures := eval_results;
                  eval_functions := names |}, s')
      | inl e => (inl e, s')
      end
  | (inl e, s') => (inl e, s')
  end.

(** An evaluator that is a function of the repository and consults nothing
    but its arguments. *)
Definition pure_evaluator (fn_name : string)
  (f : VacationInfo -> TravelPlan -> option string -> exn + unit)
  : evaluator :=
  {| fn_name := inr fn_name; eval_fn := fun vi out fb w => (f vi out fb, w) |}.

End Evals.

Arguments fn_name {World} _.
Arguments eval_fn {World} _ _ _ _ _.
Arguments world {World} _.
Arguments evaluated {World} _.
Arguments eval_for {X World} _ _ _ _ _ _.
Arguments names_of {World} _.
Arguments get_eval_results {X World} _ _ _ _ _.
Arguments pure_evaluator {World} _ _.

(** [eval_start_end_dates_match] *)
Definition eval_start_end_dates_match (vacation_info : VacationInfo)
  (final_output : TravelPlan) (traveler_feedback : option string)
  : exn + unit :=
  if negb (date_eqb (date_of_arrival vacation_info) (start_date final_output))
     || negb (date_eqb (date_of_departure vacation_info)
                (end_date final_output))
  then
    inl (Exn AgentError
           ("Dates do not match: " ++ date_str (date_of_arrival vacation_info)
            ++ " != " ++ date_str (start_date final_output) ++ " or "
            ++ date_str (date_of_departure vacation_info) ++ " != "
            ++ date_str (end_date final_output)))
  else if date_gtb (start_date final_output) (end_date final_output)
  then
    inl (Exn AgentError
           ("Start date is after end date: "
            ++ date_str (start_date final_output) ++ " > "
            ++ date_str (end_date final_output)))
  else inr tt.

(** The two nested [for] loops of [eval_total_cost_is_accurate], which add
    each price to the running total. *)
Definition actual_total_cost (final_output : TravelPlan) : Z :=
  fold_left
    (fun acc itinerary_day =>
       fold_left
         (fun acc activity_recommendation =>
            (acc + price (activity activity_recommendation))%Z)
         (activity_recommendations itinerary_day) acc)
    (itinerary_days final_output) 0%Z.

(** [eval_total_cost_is_accurate]; [total_cost] is an [int], on which [int()]
    is the identity. *)
Definition eval_total_cost_is_accurate (vacation_info : VacationInfo)
  (final_output : TravelPlan) (traveler_feedback : option string)
  : exn + unit :=
  let stated_total_cost := total_cost final_output in
  if negb (actual_total_cost final_output =? stated_total_cost)%Z
  then
    inl (Exn AgentError
           ("Stated total cost does not match calculated total cost: "
            ++ PyStr.str_of_Z (actual_total_cost final_output) ++ " != "
            ++ PyStr.str_of_Z stated_total_cost))
  else inr tt.

(** The activities a plan schedules, day by day, and the sum of a list of
    prices: the words of the cost-accuracy rule, against which
    [actual_total_cost] is compared. *)
Definition scheduled_activities (p : TravelPlan) : list Activity :=
  flat_map (fun d => map activity (activity_recommendations d))
    (itinerary_days p).

Definition sum_Z (l : list Z) : Z := fold_right Z.add 0%Z l.

(** ** Field constraints of [VacationInfo] (model.py) *)

(** The input of the validation once pydantic has coerced each field to its
    declared type: the five fields as typed values. *)
Definition VacationInfo_fields : Type := VacationInfo.

(** The constraints the [Field] declarations carry, in the order of the
    fields: [min_items=1], [gt=date(2025,6,9)], [lt=date(2025,6,16)],
    [gt=0].  [destination] has none.  The result lists the fields whose
    constraint fails, as a [ValidationError] does. *)
Definition VacationInfo_errors (v : VacationInfo_fields) : list string :=
  ((if (1 <=? List.length (travelers v))%nat then [] else ["travelers"])
   ++ (if date_gtb (date_of_arrival v) (Date 2025 6 9) then []
       else ["date_of_arrival"])
   ++ (if date_ltb (date_of_departure v) (Date 2025 6 16) then []
       else ["date_of_departure"])
   ++ (if (0 <? budget v)%Z then [] else ["budget"]))%list.

(** [VacationInfo.model_validate] on typed fields: the value itself when no
    constraint fails. *)
Definition VacationInfo_model_validate (v : VacationInfo_fields)
  : list string + VacationInfo :=
  match VacationInfo_errors v with
  | [] => inr v
  | errs => inl errs
  end.

(** ** Mocked data sources (tools.py) *)

(** Modelled from the spec: the tables [ACTIVITY_CALENDAR] and
    [WEATHER_FORECAST] of [utils.data] are not among the sources.  An entry
    of the calendar is a mapping with the fields of an [Activity], its times
    kept as the strings the sources compare; an entry of the forecast is a
    mapping with a ["date"] and further fields. *)
Record event : Type :=
  { event_activity_id : string;
    event_name : string;
    event_start_time : string;
    event_end_time : string;
    event_location : string;
    event_description : string;
    event_price : Z;
    event_related_interests : list Interest }.

Record forecast : Type :=
  { forecast_date : string; forecast_fields : pydict }.

(** The mapping a forecast entry is. *)
Definition forecast_dict (f : forecast) : pydict :=
  ("date", JStr (forecast_date f)) :: forecast_fields f.

Section Tools.

Variable ACTIVITY_CALENDAR : list event.
Variable WEATHER_FORECAST : list forecast.

(** Whether [datetime.datetime.strptime(date, "%Y-%m-%d")] returns rather
    than raising [ValueError]. *)
Variable strptime_Ymd : string -> bool.

(** Truthiness of an optional string argument: [None] and the empty string are false. *)
Definition given (o : option string) : bool :=
  match o with
  | Some s => PyStr.truthy s
  | None => false
  end.

Definition given_ids (o : option (list string)) : bool :=
  match o with
  | Some (_ :: _) => true
  | _ => false
  end.

(** [date < "2025-06-10" or date > "2025-06-15"], on strings *)
Definition outside_range (date : string) : bool :=
  String.ltb date "2025-06-10" || String.ltb "2025-06-15" date.

(** [call_activities_api_mocked] *)
Definition call_activities_api_mocked (date city : option string)
  (activity_ids : option (list string)) : list event :=
  if given city
     && negb (PyStr.or_empty city =? "AgentsVille")%string
  then []
  else if given date && negb (strptime_Ymd (PyStr.or_empty date))
  then []
  else if given date && outside_range (PyStr.or_empty date)
  then []
  else
    let activities := ACTIVITY_CALENDAR in
    let activities :=
      if given date
      then filter
             (fun event =>
                PyStr.startswith (event_start_time event)
                  (PyStr.or_empty date))
             activities
      else activities in
    let activities :=
      if given_ids activity_ids
      then filter
             (fun event =>
                existsb (String.eqb (event_activity_id event))
                  (match activity_ids with Some ids => ids | None => [] end))
             activities
      else activities in
    activities.

(** [call_activity_by_id_api_mocked]: the first entry with the id, or
    [None]. *)
Definition call_activity_by_id_api_mocked (activity_id : string)
  : option event :=
  find (fun event => (event_activity_id event =? activity_id)%string)
    ACTIVITY_CALENDAR.

(** [call_weather_api_mocked]; the empty mapping is [[]]. *)
Definition call_weather_api_mocked (date city : string) : pydict :=
  if negb (city =? "AgentsVille")%string then []
  else if negb (strptime_Ymd date) then []
  else if outside_range date then []
  else
    match
      find (fun forecast => (forecast_date forecast =? date)%string)
        WEATHER_FORECAST
    with
    | Some forecast => forecast_dict forecast
    | None => []
    end.

End Tools.

(** ** Scripted collaborators and sample data *)

(** A deterministic stand-in for the collaborators, for running the
    embedding on concrete inputs: the model service plays back a script, one
    completion per call, and fails once the script is used up. *)
Module Scripted.

Definition script : Type := list (option string).

Definition create (c : unit) (m : OpenAIModel) (msgs : list message)
  (w : script) : (exn + completion) * script :=
  match w with
  | [] => (inl (Exn (OtherError "APIConnectionError") "Connection error."), [])
  | r :: rest => (inr {| error := None; choice_content := r |}, rest)
  end.

(** The double quote, and a quoted JSON string. *)
Definition dq : string := String (ascii_of_nat 34) EmptyString.

Definition q (s : string) : string := dq ++ s ++ dq.

Definition text_list : string := "[1, 2]".

Definition text_unknown_tool : string :=
  "{" ++ q "tool_name" ++ ": " ++ q "nonexistent_tool" ++ ", "
  ++ q "arguments" ++ ": {}}".

Definition text_calculator : string :=
  "{" ++ q "tool_name" ++ ": " ++ q "calculator_tool" ++ ", "
  ++ q "arguments" ++ ": {" ++ q "input_expression" ++ ": " ++ q "1+1" ++ "}}".

Definition text_final : string :=
  "{" ++ q "tool_name" ++ ": " ++ q "final_answer_tool" ++ ", "
  ++ q "arguments" ++ ": {" ++ q "final_output" ++ ": {" ++ q "city" ++ ": "
  ++ q "AgentsVille" ++ "}}}".

Definition text_bad_final : string :=
  "{" ++ q "tool_name" ++ ": " ++ q "final_answer_tool" ++ ", "
  ++ q "arguments" ++ ": {" ++ q "total_cost" ++ ": 0}}".

(** A final answer whose [total_cost] is the string [[/b]], its slash
    written with the escape JSON allows. *)
Definition text_tag_final : string :=
  "{" ++ q "tool_name" ++ ": " ++ q "final_answer_tool" ++ ", "
  ++ q "arguments" ++ ": {" ++ q "total_cost" ++ ": " ++ q "[\/b]" ++ "}}".

(** [json.loads] on the action texts above; its value on any other text is
    not needed and reads as a decoding failure. *)
Definition loads (s : string) : option json :=
  if (s =? text_list)%string then Some (JList [JInt 1; JInt 2])
  else if (s =? text_unknown_tool)%string
  then Some (JDict [("tool_name", JStr "nonexistent_tool");
                    ("arguments", JDict [])])
  else if (s =? text_calculator)%string
  then Some (JDict [("tool_name", JStr "calculator_tool");
                    ("arguments",
                     JDict [("input_expression", JStr "1+1")])])
  else if (s =? text_final)%string
  then Some (JDict [("tool_name", JStr "final_answer_tool");
                    ("arguments",
                     JDict [("final_output",
                             JDict [("city", JStr "AgentsVille")])])])
  else if (s =? text_bad_final)%string
  then Some (JDict [("tool_name", JStr "final_answer_tool");
                    ("arguments", JDict [("total_cost", JInt 0)])])
  else if (s =? text_tag_final)%string
  then Some (JDict [("tool_name", JStr "final_answer_tool");
                    ("arguments", JDict [("total_cost", JStr "[/b]")])])
  else None.

Definition empty_plan (city : string) : TravelPlan :=
  {| city := city; start_date := Date 2025 6 10; end_date := Date 2025 6 10;
     total_cost := 0; itinerary_days := [] |}.

(** A validator that accepts a mapping with a ["city"] and nothing else; the
    error for a ["total_cost"] that is a string quotes the input, as
    pydantic's does. *)
Definition validate (j : json) : exn + TravelPlan :=
  match j with
  | JDict [("city", JStr c)] => inr (empty_plan c)
  | JDict [("total_cost", JStr v)] =>
      inl (Exn ValidationError
             ("1 validation error for TravelPlan: total_cost, input_value='"
              ++ v ++ "'"))
  | _ => inl (Exn ValidationError "1 validation error for TravelPlan")
  end.

Definition calculator (arguments : pydict) (w : script)
  : (exn + string) * script :=
  match arguments with
  | [("input_expression", JStr "1+1")] => (inr "2.0", w)
  | _ => (inl (Exn TypeError "unsupported expression"), w)
  end.

Definition no_tool (arguments : pydict) (w : script)
  : (exn + string) * script :=
  (inl (Exn RuntimeError "not available"), w).

(** A console that refuses every text with a closing tag. *)
Definition print (text : string) : exn + unit :=
  if PyStr.contains "[" text && PyStr.contains "[/" text
  then inl (Exn (OtherError "MarkupError")
              "closing tag doesn't match any open tag")
  else inr tt.

Definition print_plain (text : string)
  (H : PyStr.contains "[" text = false) : print text = inr tt.
Proof. unfold print. rewrite H. reflexivity. Defined.

Definition collaborators : Collaborators :=
  {| Client := unit;
     Env := script;
     chat_completions_create := create;
     repair_json := fun s => s;
     json_loads := loads;
     TravelPlan_model_validate := validate;
     TravelPlan_model_dump_json := fun _ => "{}";
     calculator_tool := calculator;
     get_activities_by_date_tool := no_tool;
     run_evals_tool := no_tool;
     final_answer_tool := no_tool;
     console_print := print;
     console_print_plain := print_plain |}.

(** An agent after [reset()]: the system prompt is the only message. *)
Definition agent (w : script) : @state collaborators :=
  @Build_state collaborators (Some tt) (Some GPT_41_MINI)
    [Message "system" (Some "You are a helpful assistant.")] [] w.

Definition response_list : string := "THOUGHT: none. ACTION: " ++ text_list.

Definition response_no_action : string := "THOUGHT: still thinking.".

Definition response_unknown_tool : string :=
  "THOUGHT: try. ACTION: " ++ text_unknown_tool.

Definition response_calculator : string :=
  "THOUGHT: add. ACTION: " ++ text_calculator.

Definition response_final : string := "THOUGHT: done. ACTION: " ++ text_final.

Definition response_bad_final : string :=
  "THOUGHT: done. ACTION: " ++ text_bad_final.

Definition response_tag_final : string :=
  "THOUGHT: done. ACTION: " ++ text_tag_final.

End Scripted.

(** ** Notions the statements below use *)

(** The messages of the [AgentError]s among the outcomes of a sequence of
    calls, in order. *)
Definition agent_error_messages (outcomes : list (exn + unit)) : list string :=
  flat_map
    (fun r =>
       match r with
       | inl e => if is_AgentError e then [exn_str e] else []
       | inr _ => []
       end)
    outcomes.

(** Every evaluator of a list is called once, in the order of the list, each
    in the world the previous call left, whatever the outcomes. *)
Inductive called_in_order {World : Type} (vacation_info : VacationInfo)
  (final_output : TravelPlan) (traveler_feedback : option string)
  : World -> list (evaluator World)
    -> list ((exn + string) * (exn + unit)) -> World -> Prop :=
| called_nil (w : World) :
    called_in_order vacation_info final_output traveler_feedback w [] [] w
| called_cons (w w1 w' : World) (f : evaluator World)
    (fns : list (evaluator World)) (r : exn + unit)
    (entries : list ((exn + string) * (exn + unit))) :
    eval_fn f vacation_info final_output traveler_feedback w = (r, w1) ->
    called_in_order vacation_info final_output traveler_feedback w1 fns
      entries w' ->
    called_in_order vacation_info final_output traveler_feedback w (f :: fns)
      ((fn_name f, r) :: entries) w'.

(** The constraints [VacationInfo] declares, as propositions. *)
Definition VacationInfo_constraints (v : VacationInfo) : Prop :=
  travelers v <> []
  /\ date_gtb (date_of_arrival v) (Date 2025 6 9) = true
  /\ date_ltb (date_of_departure v) (Date 2025 6 16) = true
  /\ (0 < budget v)%Z.

(** ** Sample data *)

Module Sample.

Definition alice : Traveler :=
  {| name := "Alice"; age := 30; interests := ["art"] |}.

Definition vacation : VacationInfo :=
  {| travelers := [alice]; destination := "AgentsVille";
     date_of_arrival := Date 2025 6 10; date_of_departure := Date 2025 6 12;
     budget := 130 |}.

(** Arrival after departure, both inside the declared window. *)
Definition reversed_dates : VacationInfo :=
  {| travelers := [alice]; destination := "AgentsVille";
     date_of_arrival := Date 2025 6 15; date_of_departure := Date 2025 6 10;
     budget := 130 |}.

Definition museum : Activity :=
  {| activity_id := "event-1"; activity_name := "Museum tour";
     start_time := Datetime (Date 2025 6 10) 10 0 0 0 None;
     end_time := Datetime (Date 2025 6 10) 12 0 0 0 None;
     location := "AgentsVille"; description := "Indoor tour.";
     price := 20; related_interests := ["art"] |}.

Definition concert : Activity :=
  {| activity_id := "event-2"; activity_name := "Concert";
     start_time := Datetime (Date 2025 6 11) 19 0 0 0 None;
     end_time := Datetime (Date 2025 6 11) 21 0 0 0 None;
     location := "AgentsVille"; description := "Indoor concert.";
     price := 35; related_interests := ["music"] |}.

Definition sunny : Weather :=
  {| temperature := "25.0"; temperature_unit := "Celsius";
     condition := "sunny" |}.

Definition day (d : date) (acts : list Activity) : ItineraryDay :=
  {| itinerary_date := d; weather := sunny;
     activity_recommendations :=
       map (fun a => {| activity := a; reasons_for_recommendation := [] |})
         acts |}.

(** A plan whose activities cost 55 and which states [stated]. *)
Definition plan (stated : Z) : TravelPlan :=
  {| city := "AgentsVille"; start_date := Date 2025 6 10;
     end_date := Date 2025 6 12; total_cost := stated;
     itinerary_days :=
       [day (Date 2025 6 10) [museum]; day (Date 2025 6 11) [concert];
        day (Date 2025 6 12) []] |}.

(** A plan that ends before it starts, with the dates of [reversed_dates]. *)
Definition backwards_plan : TravelPlan :=
  {| city := "AgentsVille"; start_date := Date 2025 6 15;
     end_date := Date 2025 6 10; total_cost := 0; itinerary_days := [] |}.

(** A vacation without a budget. *)
Definition no_budget : VacationInfo :=
  {| travelers := [alice]; destination := "AgentsVille";
     date_of_arrival := Date 2025 6 10; date_of_departure := Date 2025 6 12;
     budget := 0 |}.

(** An evaluator that fails with a fixed message. *)
Definition always_fails (msg : string) (vi : VacationInfo) (p : TravelPlan)
  (fb : option string) : exn + unit :=
  inl (Exn AgentError msg).

Definition suite : list (evaluator unit) :=
  [ pure_evaluator "eval_start_end_dates_match" eval_start_end_dates_match;
    pure_evaluator "always_fails" (always_fails "no");
    pure_evaluator "eval_total_cost_is_accurate" eval_total_cost_is_accurate ].

Definition fresh : eval_state unit := {| world := tt; evaluated := [] |}.

Definition calendar : list event :=
  [ {| event_activity_id := "event-1"; event_name := "Museum tour";
       event_start_time := "2025-06-10 10:00";
       event_end_time := "2025-06-10 12:00";
       event_location := "AgentsVille"; event_description := "Indoor tour.";
       event_price := 20; event_related_interests := ["art"] |} ].

Definition forecasts : list forecast :=
  [ {| forecast_date := "2025-06-10";
       forecast_fields := [("condition", JStr "sunny")] |} ].

(** [strptime] on the date strings of the examples: the listed ones parse;
    the others used below (the empty string, a word) do not. *)
Definition strptime (s : string) : bool :=
  existsb (String.eqb s) ["2025-06-09"; "2025-06-10"; "2025-06-15"; "2025-06-16"].

End Sample.

(** * Further code *)

(** ** Dictionaries and strings *)

(** Whether an occurrence of [sep] in [pre ++ tail] begins inside [pre]. *)
Fixpoint starts_within (sep pre tail : string) : bool :=
  match pre with
  | EmptyString => false
  | String _ pre' => prefix sep (pre ++ tail) || starts_within sep pre' tail
  end.

(** [d[k] = v] on a dictionary kept in insertion order: a key already
    present keeps its place. *)
Fixpoint dict_set {V : Type} (k : string) (v : V) (d : list (string * V))
  : list (string * V) :=
  match d with
  | [] => [(k, v)]
  | (k', v') :: d' =>
      if (k' =? k)%string then (k', v) :: d' else (k', v') :: dict_set k v d'
  end.

Fixpoint dict_get {V : Type} (k : string) (d : list (string * V))
  : option V :=
  match d with
  | [] => None
  | (k', v) :: d' => if (k' =? k)%string then Some v else dict_get k d'
  end.

(** [bool(set(a) & set(b))] *)
Definition intersects (a b : list Interest) : bool :=
  existsb (fun x => existsb (String.eqb x) b) a.

(** ** The other evaluators (evals.py) *)

(** [eval_total_cost_is_within_budget] *)
Definition eval_total_cost_is_within_budget (vacation_info : VacationInfo)
  (final_output : TravelPlan) (traveler_feedback : option string)
  : exn + unit :=
  let stated_total_cost := total_cost final_output in
  if (budget vacation_info <? stated_total_cost)%Z
  then
    inl (Exn AgentError
           ("Total cost exceeds budget: " ++ PyStr.str_of_Z stated_total_cost
            ++ " > " ++ PyStr.str_of_Z (budget vacation_info)))
  else inr tt.

Fixpoint strings_eqb (a b : list string) : bool :=
  match a, b with
  | [], [] => true
  | x :: a', y :: b' => (x =? y)%string && strings_eqb a' b'
  | _, _ => false
  end.

(** [a == b] on activities: pydantic compares the fields, the two times
    with [==] of [datetime], given as [datetime_eq]. *)
Definition Activity_eqb (datetime_eq : datetime -> datetime -> bool)
  (a b : Activity) : bool :=
  (activity_id a =? activity_id b)%string
  && (activity_name a =? activity_name b)%string
  && datetime_eq (start_time a) (start_time b)
  && datetime_eq (end_time a) (end_time b)
  && (location a =? location b)%string
  && (description a =? description b)%string
  && (price a =? price b)%Z
  && strings_eqb (related_interests a) (related_interests b).

Section Reports.

(** [str(l)] for a list of strings, as an f-string renders it. *)
Variable str_of_list : list string -> string.

(** The first loop of [eval_itinerary_satisfies_interests]: the two
    dictionaries keyed by the name of the traveler. *)
Definition traveler_dicts (ts : list Traveler)
  : list (string * list Interest) * list (string * nat) :=
  fold_left
    (fun d traveler =>
       (dict_set (name traveler) (interests traveler) (fst d),
        dict_set (name traveler) 0%nat (snd d)))
    ts ([], []).

(** [counts[traveler_name] += 1] *)
Definition dict_incr (k : string) (d : list (string * nat))
  : list (string * nat) :=
  match dict_get k d with
  | Some n => dict_set k (S n) d
  | None => d
  end.

(** The second loop: for every entry of [traveler_to_interests], every day
    and every recommendation, one more hit when the interests meet. *)
Definition count_hits (traveler_to_interests : list (string * list Interest))
  (final_output : TravelPlan) (counts : list (string * nat))
  : list (string * nat) :=
  fold_left
    (fun counts entry =>
       let traveler_name := fst entry in
       fold_left
         (fun counts itinerary_day =>
            fold_left
              (fun counts activity_recommendation =>
                 if intersects
                      (match dict_get traveler_name traveler_to_interests with
                       | Some interests => interests
                       | None => []
                       end)
                      (related_interests (activity activity_recommendation))
                 then dict_incr traveler_name counts
                 else counts)
              (activity_recommendations itinerary_day) counts)
         (itinerary_days final_output) counts)
    traveler_to_interests counts.

(** [eval_itinerary_satisfies_interests] *)
Definition eval_itinerary_satisfies_interests (vacation_info : VacationInfo)
  (final_output : TravelPlan) (traveler_feedback : option string)
  : exn + unit :=
  let d := traveler_dicts (travelers vacation_info) in
  let traveler_to_interest_hit_counts :=
    count_hits (fst d) final_output (snd d) in
  let travelers_with_no_interest_hits :=
    map fst
      (filter (fun entry => (snd entry =? 0)%nat)
         traveler_to_interest_hit_counts) in
  match travelers_with_no_interest_hits with
  | [] => inr tt
  | _ :: _ =>
      inl (Exn AgentError
             ("Travelers " ++ str_of_list travelers_with_no_interest_hits
              ++ " has no matches with the itinerary."))
  end.

Variable ACTIVITY_CALENDAR : list event.

(** [Activity( **reference_event )]: pydantic builds the activity or raises. *)
Variable Activity_of_event : event -> exn + Activity.

(** [==] of [datetime.datetime]: a naive and an aware value are unequal, two
    aware values are compared as instants. *)
Variable datetime_eq : datetime -> datetime -> bool.

(** The loop of [eval_itinerary_events_match_actual_events] over the
    recommendations of one day; [acc] holds the two lists of ids. *)
Fixpoint match_events (recs : list ActivityRecommendation)
  (acc : list string * list string) : exn + (list string * list string) :=
  match recs with
  | [] => inr acc
  | activity_recommendation :: rest =>
      let event_id := activity_id (activity activity_recommendation) in
      match call_activity_by_id_api_mocked ACTIVITY_CALENDAR event_id with
      | None => match_events rest ((fst acc ++ [event_id])%list, snd acc)
      | Some reference_event =>
          match Activity_of_event reference_event with
          | inl e => inl e
          | inr reference =>
              if negb (Activity_eqb datetime_eq reference
                         (activity activity_recommendation))
              then match_events rest (fst acc, (snd acc ++ [event_id])%list)
              else match_events rest acc
          end
      end
  end.

Fixpoint match_days (days : list ItineraryDay)
  (acc : list string * list string) : exn + (list string * list string) :=
  match days with
  | [] => inr acc
  | itinerary_day :: rest =>
      match match_events (activity_recommendations itinerary_day) acc with
      | inl e => inl e
      | inr acc' => match_days rest acc'
      end
  end.

(** [eval_itinerary_events_match_actual_events]; [fst] of the pair is
    [event_ids_missing], [snd] is [event_ids_not_matching]. *)
Definition eval_itinerary_events_match_actual_events
  (vacation_info : VacationInfo) (final_output : TravelPlan)
  (traveler_feedback : option string) : exn + unit :=
  match match_days (itinerary_days final_output) ([], []) with
  | inl e => inl e
  | inr (event_ids_missing, event_ids_not_matching) =>
      match event_ids_missing, event_ids_not_matching with
      | [], [] => inr tt
      | _, _ =>
          inl (Exn AgentError
                 ("Event IDs missing: " ++ str_of_list event_ids_missing
                  ++ nl ++ "Event IDs not matching: "
                  ++ str_of_list event_ids_not_matching))
      end
  end.

End Reports.

(** ** The rest of the agents (model.py) and the evaluators that ask a model *)

Section MoreAgents.

Context `{X : Collaborators}.

(** [textwrap.dedent] *)
Variable dedent : string -> string.

(** [VacationInfo.model_dump_json(indent=2)] and
    [TravelPlan.model_validate_json] *)
Variable VacationInfo_model_dump_json : VacationInfo -> string.
Variable TravelPlan_model_validate_json : string -> exn + TravelPlan.

(** The module-level [client] of model.py, and the two system prompts of
    evals.py. *)
Variable module_client : Client.
Variable ACTIVITY_AND_WEATHER_ARE_COMPATIBLE_SYSTEM_PROMPT : string.
Variable FEEDBACK_SYSTEM_PROMPT : string.

(** [str(l)] for a list of strings, as an f-string renders it. *)
Variable str_of_list : list string -> string.

Local Notation "x <- c ;; k" := (bind c (fun x => k))
  (at level 61, c at next level, right associativity).
Local Notation "c ;;; k" := (bind c (fun _ => k))
  (at level 61, right associativity).

(** [ChatAgent.reset], for an agent whose [system_prompt] attribute is
    [system_prompt] *)
Definition reset (system_prompt : string) : M unit :=
  fun s =>
    add_message "system" (Some (PyStr.strip (dedent system_prompt)))
      (set_messages s []).

(** [ChatAgent.__init__]: the attributes are set, then [reset()] runs.  A
    missing or empty [system_prompt] leaves the default of the class. *)
Definition ChatAgent_init (system_prompt : option string)
  (client : option Client) (model : option OpenAIModel) (w : Env)
  : (exn + unit) * state :=
  reset
    (if given system_prompt then PyStr.or_empty system_prompt
     else "You are a helpful assistant.")
    {| client := client; model := model; messages := []; invoked := [];
       env := w |}.

(** [ChatAgent.chat] *)
Definition chat (user_message : string) (add_to_messages : bool)
  (model_arg : option OpenAIModel) : M (option string) :=
  add_message "user" (Some user_message) ;;;
  get_response add_to_messages model_arg None.

Definition fence : string := "```json".

(** The [if] of [get_itinerary] that cuts a fenced block out of the
    response. *)
Definition fenced (json_text : string) : exn + string :=
  if PyStr.contains fence json_text
  then
    match index (PyStr.split fence json_text) 1 with
    | inl e => inl e
    | inr after =>
        match index (PyStr.split "```" after) 0 with
        | inl e => inl e
        | inr inside => inr (PyStr.strip inside)
        end
    end
  else inr json_text.

(** [ItineraryAgent.get_itinerary]; the response is printed before it is
    parsed. *)
Definition get_itinerary (vacation_info : VacationInfo)
  (model_arg : option OpenAIModel) : M TravelPlan :=
  fun s =>
    (r <- chat (VacationInfo_model_dump_json vacation_info) false
            (py_or model_arg (model s)) ;;
     let response := PyStr.strip (PyStr.or_empty r) in
     lift (console_print response) ;;;
     let json_text := PyStr.strip response in
     json_text <- lift (fenced json_text) ;;
     lift (TravelPlan_model_validate_json json_text)) s.

(** The reading of one judgement in
    [eval_activities_and_weather_are_compatible]. *)
Definition is_compatible (resp : option string) : exn + bool :=
  let text := PyStr.or_empty resp in
  if PyStr.contains "IS_COMPATIBLE" text
     || PyStr.contains "IS_COMPATIBILE" text
  then inr true
  else if PyStr.contains "IS_INCOMPATIBLE" text
          || PyStr.contains "IS_INCOMPATIBILE" text
  then inr false
  else
    inl (Exn RuntimeError
           ("Unexpected response from the model: " ++ PyStr.str_of_opt resp
            ++ ". Expected 'IS_COMPATIBLE' or 'IS_INCOMPATIBLE'.")).

(** The inner loop of [eval_activities_and_weather_are_compatible]: one model
    call for each recommendation of a day. *)
Fixpoint judge_recommendations (weather_condition : string)
  (recs : list ActivityRecommendation) (incompatible : list string)
  : M (list string) :=
  match recs with
  | [] => ret incompatible
  | activity_recommendation :: rest =>
      let a := activity activity_recommendation in
      resp <- do_chat_completion
                [ Message "system"
                    (Some ACTIVITY_AND_WEATHER_ARE_COMPATIBLE_SYSTEM_PROMPT);
                  Message "user"
                    (Some ("Activity: " ++ activity_name a ++ nl
                           ++ "Description: " ++ description a ++ nl
                           ++ "Weather Condition: " ++ weather_condition)) ]
                (Some GPT_41_NANO) (Some module_client) ;;
      verdict <- lift (is_compatible resp) ;;
      judge_recommendations weather_condition rest
        (if verdict : bool then incompatible
         else (incompatible ++ [activity_name a])%list)
  end.

Fixpoint judge_days (days : list ItineraryDay) (incompatible : list string)
  : M (list string) :=
  match days with
  | [] => ret incompatible
  | itinerary_day :: rest =>
      incompatible' <-
        judge_recommendations (condition (weather itinerary_day))
          (activity_recommendations itinerary_day) incompatible ;;
      judge_days rest incompatible'
  end.

(** [eval_activities_and_weather_are_compatible] *)
Definition eval_activities_and_weather_are_compatible
  (vacation_info : VacationInfo) (final_output : TravelPlan)
  (traveler_feedback : option string) : M unit :=
  activities_that_are_incompatible <-
    judge_days (itinerary_days final_output) [] ;;
  match activities_that_are_incompatible with
  | [] => ret tt
  | _ :: _ =>
      raise (Exn AgentError
               ("Activities that may be ruined by inclement weather: "
                ++ str_of_list activities_that_are_incompatible))
  end.

(** [eval_traveler_feedback_is_incorporated].  The agent it builds lives
    for the call only; what the caller keeps is the state of the
    collaborators. *)
Definition eval_traveler_feedback_is_incorporated
  (vacation_info : VacationInfo) (final_output : TravelPlan)
  (traveler_feedback : option string) : M unit :=
  fun s =>
    match
      ChatAgent_init (Some FEEDBACK_SYSTEM_PROMPT) (Some module_client)
        (Some GPT_41) (env s)
    with
    | (inl e, agent) => (inl e, set_env s (env agent))
    | (inr _, agent) =>
        match
          chat
            ("Traveler Feedback: " ++ PyStr.str_of_opt traveler_feedback ++ nl
             ++ "    Revised Travel Plan: "
             ++ TravelPlan_model_dump_json final_output ++ nl ++ "    ")
            true None agent
        with
        | (inl e, agent') => (inl e, set_env s (env agent'))
        | (inr None, agent') =>
            (inl (Exn TypeError "argument of type 'NoneType' is not iterable"),
             set_env s (env agent'))
        | (inr (Some resp), agent') =>
            if negb (PyStr.contains "FINAL OUTPUT:" resp)
            then
              (inl (Exn RuntimeError
                      ("Unexpected response from the model: " ++ resp
                       ++ ". Expected 'FINAL OUTPUT:'.")),
               set_env s (env agent'))
            else if negb (PyStr.contains "FULLY_INCORPORATED" resp)
            then
              (inl (Exn AgentError
                      ("Traveler feedback was not successfully incorporated "
                       ++ "into the revised travel plan. Response: "
                       ++ PyStr.strip
                            (List.last (PyStr.split "FINAL OUTPUT:" resp)
                               EmptyString))),
               set_env s (env agent'))
            else (inr tt, set_env s (env agent'))
        end
    end.

End MoreAgents.

(** ** The tools (tools.py) *)

Module ToolBodies.

(** [get_tool_descriptions_string]; a function is given by its [__name__]
    and its [__doc__]. *)
Definition get_tool_descriptions_string (fns : list (string * option string))
  : string :=
  fold_left
    (fun resp fn =>
       resp ++ "* `" ++ fst fn ++ "`: "
       ++ (if given (snd fn) then PyStr.or_empty (snd fn)
           else "No description provided.")
       ++ nl)
    fns EmptyString.

Section Bodies.

Variable ACTIVITY_CALENDAR : list event.
Variable strptime_Ymd : string -> bool.

(** [Activity.model_validate] on an entry of the calendar, and
    [model_dump]. *)
Variable Activity_model_validate : event -> exn + Activity.
Variable Activity_model_dump : Activity -> pydict.

(** The list comprehension of [get_activities_by_date_tool]: the first entry
    that does not validate ends it. *)
Fixpoint dump_all (resp : list event) : exn + list pydict :=
  match resp with
  | [] => inr []
  | activity :: rest =>
      match Activity_model_validate activity with
      | inl e => inl e
      | inr a =>
          match dump_all rest with
          | inl e => inl e
          | inr ds => inr (Activity_model_dump a :: ds)
          end
      end
  end.

(** [get_activities_by_date_tool] *)
Definition get_activities_by_date_tool (date city : string)
  : exn + list pydict :=
  dump_all
    (call_activities_api_mocked ACTIVITY_CALENDAR strptime_Ymd (Some date)
       (Some city) None).

End Bodies.

End ToolBodies.

(** ** Notions the further statements use *)

(** The number of assistant messages in a stretch of conversation. *)
Definition assistant_count (l : list message) : nat :=
  List.length (filter (fun msg => (role msg =? "assistant")%string) l).

Section Effects.

Context `{X : Collaborators}.

(** What a method may change in the agent: it appends [rest] to the
    conversation and [new] to the invocations, and leaves the client and the
    model as they are. *)
Definition extends (s s' : state) (rest : list message)
  (new : list (string * pydict)) : Prop :=
  messages s' = (messages s ++ rest)%list
  /\ invoked s' = (invoked s ++ new)%list
  /\ client s' = client s
  /\ model s' = model s.

(** An invocation the loop may make: of a registered tool other than the
    final answer. *)
Definition dispatched (entry : string * pydict) : Prop :=
  registered (fst entry) /\ fst entry <> "final_answer_tool".

End Effects.

(** [d[k] += n] on every binding of [k]. *)
Definition bump (k : string) (n : nat) (d : list (string * nat))
  : list (string * nat) :=
  map (fun e => if (fst e =? k)%string then (fst e, (snd e + n)%nat) else e) d.

(** The scheduled activities that share an interest with [interests]. *)
Definition matching_activities (interests : list Interest) (p : TravelPlan)
  : list Activity :=
  filter (fun a => intersects interests (related_interests a))
    (scheduled_activities p).

(** The travelers none of whose interests is met by the plan. *)
Definition unmatched (vi : VacationInfo) (p : TravelPlan) : list Traveler :=
  filter
    (fun t =>
       match matching_activities (interests t) p with
       | [] => true
       | _ :: _ => false
       end)
    (travelers vi).

Section References.

Variable ACTIVITY_CALENDAR : list event.
Variable Activity_of_event : event -> exn + Activity.
Variable datetime_eq : datetime -> datetime -> bool.

(** An activity whose id no entry of the calendar carries. *)
Definition is_missing (a : Activity) : bool :=
  match call_activity_by_id_api_mocked ACTIVITY_CALENDAR (activity_id a) with
  | None => true
  | Some _ => false
  end.

(** An activity whose id resolves to an entry that reads as another
    activity. *)
Definition is_mismatching (a : Activity) : bool :=
  match call_activity_by_id_api_mocked ACTIVITY_CALENDAR (activity_id a) with
  | Some reference_event =>
      match Activity_of_event reference_event with
      | inr reference => negb (Activity_eqb datetime_eq reference a)
      | inl _ => false
      end
  | None => false
  end.

End References.

(** ** Further sample data *)

(** A model service without state: the reply is a function of the
    conversation sent. *)
Module Oracle.

Definition unavailable (arguments : pydict) (w : unit)
  : (exn + string) * unit :=
  (inl (Exn RuntimeError "not available"), w).

Definition collaborators (answer : list message -> option string)
  : Collaborators :=
  {| Client := unit;
     Env := unit;
     chat_completions_create :=
       fun _ _ msgs w =>
         (inr {| error := None; choice_content := answer msgs |}, w);
     repair_json := fun s => s;
     json_loads := Scripted.loads;
     TravelPlan_model_validate := Scripted.validate;
     TravelPlan_model_dump_json := fun _ => "{}";
     calculator_tool := unavailable;
     get_activities_by_date_tool := unavailable;
     run_evals_tool := unavailable;
     final_answer_tool := unavailable;
     console_print := Scripted.print;
     console_print_plain := Scripted.print_plain |}.

(** A judge that rejects whatever is asked about rain. *)
Definition weather_judge (msgs : list message) : option string :=
  match content (List.last msgs (Message "user" None)) with
  | Some text =>
      if PyStr.contains "rain" text
      then Some "FINAL ANSWER: IS_INCOMPATIBLE"
      else Some "FINAL ANSWER: IS_COMPATIBLE"
  | None => None
  end.

(** A service whose replies carry no content. *)
Definition silent (msgs : list message) : option string := None.

Definition agent (answer : list message -> option string)
  : @state (collaborators answer) :=
  @Build_state (collaborators answer) None None [] [] tt.

End Oracle.

Module Trip.

(** [str(l)] for a list of strings without quotes or backslashes. *)
Definition str_of_list (l : list string) : string :=
  "[" ++ String.concat ", " (map (fun s => "'" ++ s ++ "'") l) ++ "]".

Definition bob : Traveler :=
  {| name := "Bob"; age := 41; interests := ["sports"] |}.

(** The sample vacation with a second traveler. *)
Definition vacation : VacationInfo :=
  {| travelers := [Sample.alice; bob]; destination := "AgentsVille";
     date_of_arrival := Date 2025 6 10; date_of_departure := Date 2025 6 12;
     budget := 130 |}.

Definition picnic : Activity :=
  {| activity_id := "event-3"; activity_name := "Picnic";
     start_time := Datetime (Date 2025 6 11) 12 0 0 0 None;
     end_time := Datetime (Date 2025 6 11) 14 0 0 0 None;
     location := "AgentsVille"; description := "Outdoor lunch.";
     price := 10; related_interests := ["food"] |}.

Definition rainy : Weather :=
  {| temperature := "17.0"; temperature_unit := "Celsius";
     condition := "rainy" |}.

(** A museum tour on a sunny day and a picnic on a rainy one. *)
Definition plan : TravelPlan :=
  {| city := "AgentsVille"; start_date := Date 2025 6 10;
     end_date := Date 2025 6 12; total_cost := 30;
     itinerary_days :=
       [ Sample.day (Date 2025 6 10) [Sample.museum];
         {| itinerary_date := Date 2025 6 11; weather := rainy;
            activity_recommendations :=
              [ {| activity := picnic; reasons_for_recommendation := [] |} ] |} ] |}.

(** The museum tour with its times in UTC, and a plan that schedules it. *)
Definition museum_utc : Activity :=
  {| activity_id := "event-1"; activity_name := "Museum tour";
     start_time := Datetime (Date 2025 6 10) 10 0 0 0 (Some 0%Z);
     end_time := Datetime (Date 2025 6 10) 12 0 0 0 (Some 0%Z);
     location := "AgentsVille"; description := "Indoor tour.";
     price := 20; related_interests := ["art"] |}.

Definition plan_utc : TravelPlan :=
  {| city := "AgentsVille"; start_date := Date 2025 6 10;
     end_date := Date 2025 6 12; total_cost := 20;
     itinerary_days := [Sample.day (Date 2025 6 10) [museum_utc]] |}.

(** A stand-in for [==] of [datetime], exact where the samples use it: two
    naive values are compared field by field, and a naive value is not equal
    to an aware one.  The samples compare no two aware values. *)
Definition datetime_eq (a b : datetime) : bool :=
  match tzinfo a, tzinfo b with
  | None, None =>
      date_eqb (dt_date a) (dt_date b) && (hour a =? hour b)%Z
      && (minute a =? minute b)%Z && (second a =? second b)%Z
      && (microsecond a =? microsecond b)%Z
  | _, _ => false
  end.

(** The reading of the one entry of the sample calendar as an activity. *)
Definition Activity_of_event (ev : event) : exn + Activity :=
  if (event_activity_id ev =? "event-1")%string then inr Sample.museum
  else inl (Exn ValidationError "1 validation error for Activity").

(** A reply that wraps its JSON in a fenced block, and a reading of JSON
    texts that knows the empty object only. *)
Definition fenced_reply : string :=
  "Here is the plan:" ++ nl ++ fence ++ nl ++ "{}" ++ nl ++ "```" ++ nl.

Definition validate_json (text : string) : exn + TravelPlan :=
  if (text =? "{}")%string then inr (Scripted.empty_plan "AgentsVille")
  else inl (Exn ValidationError "1 validation error for TravelPlan").

(** An evaluator that fails with an error of another class. *)
Definition breaks (vi : VacationInfo) (p : TravelPlan) (fb : option string)
  : exn + unit :=
  inl (Exn RuntimeError "Unexpected response from the model").

End Trip.

(** * Facts *)

(** ** Strings *)

Lemma prefix_app (p s : string) : prefix p (p ++ s) = true.
Proof.
  induction p as [|c p IH]; simpl.
  - destruct s; reflexivity.
  - destruct (ascii_dec c c) as [_|n]; [exact IH | contradiction].
Qed.

Lemma contains_app_r (sub a b : string) :
  PyStr.contains sub b = true -> PyStr.contains sub (a ++ b) = true.
Proof.
  intros H. induction a as [|c a IH]; simpl; [exact H|].
  rewrite IH. apply orb_true_r.
Qed.

Lemma contains_of_prefix (sub s : string) :
  prefix sub s = true -> PyStr.contains sub s = true.
Proof. intros H. destruct s; cbn [PyStr.contains]; rewrite H; reflexivity. Qed.

Lemma contains_middle (sub a b : string) : PyStr.contains sub (a ++ sub ++ b) = true.
Proof. apply contains_app_r, contains_of_prefix, prefix_app. Qed.

Lemma split_go_nonempty (sep : string) (s : string) :
  forall skip cur, PyStr.split_go sep skip cur s <> [].
Proof.
  induction s as [|c s IH]; intros skip cur; cbn [PyStr.split_go].
  - discriminate.
  - destruct skip; [destruct (prefix sep (String c s))|]; try discriminate;
      apply IH.
Qed.

Lemma prefix_nonempty_of_empty (sep : string) :
  sep <> EmptyString -> prefix sep EmptyString = false.
Proof. destruct sep; [contradiction | reflexivity]. Qed.

(** When the separator occurs, [PyStr.split] yields at least two pieces, so the
    index [1] is in range. *)
Lemma split_go_second (sep : string) (s : string) :
  sep <> EmptyString ->
  PyStr.contains sep s = true ->
  forall cur, exists a b rest, PyStr.split_go sep 0 cur s = a :: b :: rest.
Proof.
  intros Hsep. induction s as [|c s IH]; intros H cur.
  - cbn [PyStr.contains] in H. rewrite prefix_nonempty_of_empty in H by assumption.
    discriminate.
  - cbn [PyStr.split_go]. cbn [PyStr.contains] in H.
    destruct (prefix sep (String c s)) eqn:P.
    + destruct (PyStr.split_go sep (String.length sep - 1) [] s) as [|b rest] eqn:E.
      * exfalso. exact (split_go_nonempty _ _ _ _ E).
      * eauto.
    + cbn [orb] in H. apply IH. exact H.
Qed.

Lemma split_second (sep s : string) :
  sep <> EmptyString ->
  PyStr.contains sep s = true ->
  exists chunk, nth_error (PyStr.split sep s) 1 = Some chunk.
Proof.
  intros Hsep H.
  destruct (split_go_second sep s Hsep H []) as (a & b & rest & E).
  unfold PyStr.split. rewrite E. exists b. reflexivity.
Qed.

Example split_two_markers :
  PyStr.split "ACTION:" "THOUGHT: a ACTION: b ACTION: c"
  = ["THOUGHT: a "; " b "; " c"].
Proof. reflexivity. Qed.

Example split_marker_at_end : PyStr.split "ACTION:" "xACTION:" = ["x"; EmptyString].
Proof. reflexivity. Qed.

Example strip_both_sides :
  PyStr.strip (String (ascii_of_nat 10) "  {} " ++ String (ascii_of_nat 9) EmptyString)
  = "{}".
Proof. reflexivity. Qed.

(** A no-break space (U+00A0) in front and a thin space (U+2009) behind, in
    UTF-8. *)
Example strip_unicode_space :
  PyStr.strip
    (String (ascii_of_nat 194) (String (ascii_of_nat 160)
       ("a b" ++ String (ascii_of_nat 226) (String (ascii_of_nat 128)
                   (String (ascii_of_nat 137) EmptyString)))))
  = "a b".
Proof. reflexivity. Qed.

Example str_of_Z_samples :
  (PyStr.str_of_Z 0, PyStr.str_of_Z 120, PyStr.str_of_Z (-7)) = ("0", "120", "-7").
Proof. reflexivity. Qed.

Example date_str_sample : date_str (Date 2025 6 9) = "2025-06-09".
Proof. reflexivity. Qed.

Example get_on_list :
  get_method (JList []) "tool_name" JNull
  = inl (Exn AttributeError "'list' object has no attribute 'get'").
Proof. reflexivity. Qed.

Lemma prefix_refl (s : string) : prefix s s = true.
Proof.
  induction s as [|c s IH]; [reflexivity|]. simpl.
  destruct (ascii_dec c c); [exact IH | contradiction].
Qed.

Lemma contains_refl (s : string) : PyStr.contains s s = true.
Proof. apply contains_of_prefix, prefix_refl. Qed.

Section AgentFacts.

Context `{X : Collaborators}.

Lemma add_message_user (c : option string) (s : state) :
  add_message "user" c s = (inr tt, appended s (Message "user" c)).
Proof. reflexivity. Qed.

Lemma add_message_assistant (c : option string) (s : state) :
  add_message "assistant" c s
  = (print_content c, appended s (Message "assistant" c)).
Proof. reflexivity. Qed.

Lemma find_tool_some (tools : list tool) (n : string) (t : tool) :
  find_tool tools n = Some t -> In t tools /\ tool_name t = n.
Proof.
  induction tools as [|t0 tools IH]; simpl; [discriminate|].
  destruct (String.eqb_spec (tool_name t0) n) as [E|E]; intros H.
  - injection H as <-. auto.
  - destruct (IH H). auto.
Qed.

Lemma find_tool_none (tools : list tool) (n : string) :
  find_tool tools n = None <-> ~ In n (map tool_name tools).
Proof.
  induction tools as [|t0 tools IH]; simpl; [tauto|].
  destruct (String.eqb_spec (tool_name t0) n) as [E|E].
  - split; [discriminate | tauto].
  - rewrite IH. tauto.
Qed.

Lemma violation_observations_distinct (a t : json) (n : string) :
  NoDup
    [ "OBSERVATION: No tool name specified.";
      "OBSERVATION: No arguments specified.";
      "OBSERVATION: Arguments should be a dictionary, got " ++ type_repr a
      ++ " instead.";
      "OBSERVATION: Tool name should be a string, got " ++ type_repr t
      ++ " instead.";
      "OBSERVATION: Unknown tool name '" ++ n ++ "' in action string." ].
Proof.
  repeat constructor; simpl; intuition discriminate.
Qed.

Lemma get_observation_string_returns (obj : pydict) (s : state) :
  exists obs s',
    get_observation_string obj s = (inr obs, s') /\ messages s' = messages s.
Proof.
  unfold get_observation_string, mem, getitem, lift, bind, ret.
  destruct (lookup "tool_name" obj) as [t|]; cbn [negb]; [|eauto].
  destruct (lookup "arguments" obj) as [a|]; cbn [negb]; [|eauto].
  destruct a; eauto. destruct t; eauto.
  destruct (find_tool ALL_TOOLS s0) as [tl|]; [|eauto].
  unfold try_except, call_tool, bind.
  destruct (tool_fn tl kv (env s)) as [[e|r] w]; eauto.
Qed.

Lemma model_call_messages (m : option OpenAIModel) (c : option Client)
  (s : state) : messages (snd (model_call m c s)) = messages s.
Proof.
  unfold model_call, do_chat_completion, raise.
  destruct (py_or c (client s)); [|reflexivity].
  destruct (py_or m (model s)); [|reflexivity].
  destruct (chat_completions_create _ _ _ _) as [[e|resp] w]; [reflexivity|].
  destruct (error resp); reflexivity.
Qed.

(** [get_response] by the outcome of the model call: an error of the call
    leaves the conversation as it was; a response is appended and then
    printed, and an error of the printing is raised after the append. *)
Lemma get_response_unfold (m : option OpenAIModel) (c : option Client)
  (s : state) :
  get_response true m c s
  = match model_call m c s with
    | (inl e, s1) => (inl e, s1)
    | (inr r, s1) =>
        (match print_content r with
         | inl e => inl e
         | inr _ => inr r
         end, appended s1 (Message "assistant" r))
    end.
Proof.
  unfold get_response, bind, model_call.
  destruct (do_chat_completion _ _ _ s) as [[e|r] s1]; [reflexivity|].
  rewrite add_message_assistant. destruct (print_content r); reflexivity.
Qed.

Lemma get_response_messages (m : option OpenAIModel) (c : option Client)
  (s : state) :
  match model_call m c s with
  | (inl _, _) => messages (snd (get_response true m c s)) = messages s
  | (inr r, _) =>
      messages (snd (get_response true m c s))
      = (messages s ++ [Message "assistant" r])%list
  end.
Proof.
  rewrite get_response_unfold. pose proof (model_call_messages m c s) as G.
  destruct (model_call m c s) as [[e|r] s1]; cbn [snd] in *; [exact G|].
  rewrite <- G. reflexivity.
Qed.

(** When [get_response] returns, the model call returned that response and
    the response was printed. *)
Lemma get_response_inv (m : option OpenAIModel) (c : option Client)
  (s s' : state) (r : option string) :
  get_response true m c s = (inr r, s') ->
  exists s1,
    model_call m c s = (inr r, s1)
    /\ print_content r = inr tt
    /\ s' = appended s1 (Message "assistant" r).
Proof.
  rewrite get_response_unfold.
  destruct (model_call m c s) as [[e|r'] s1]; [discriminate|].
  destruct (print_content r') as [e|[]] eqn:P; [discriminate|].
  intros [= <- <-]. eauto.
Qed.

Lemma handle_no_action (resp : string) (s : state) :
  PyStr.contains "ACTION:" resp = false ->
  handle_response resp s
  = (inr (resp, None),
     appended s (Message "user" (Some "No action found in response."))).
Proof. intros H. unfold handle_response. rewrite H. reflexivity. Qed.

Lemma handle_marker (resp : string) (s : state) :
  PyStr.contains "ACTION:" resp = true ->
  handle_response resp s
  = match json_loads (action_string resp) with
    | None =>
        (inr (resp, None),
         appended s
           (Message "user"
              (Some ("Invalid JSON in action string: " ++ action_string resp))))
    | Some tool_call_obj => dispatch_action resp tool_call_obj s
    end.
Proof.
  intros H. unfold handle_response, action_string. rewrite H. cbn [negb].
  destruct (split_second "ACTION:" resp) as [chunk E];
    [discriminate | exact H |].
  unfold bind, lift, index. rewrite E.
  rewrite (nth_error_nth _ _ EmptyString E).
  destruct (json_loads _); reflexivity.
Qed.

Lemma dispatch_non_mapping (resp : string) (v : json) (s : state) :
  is_dict v = false ->
  dispatch_action resp v s
  = (inl (Exn AttributeError
            ("'" ++ type_name v ++ "' object has no attribute 'get'")), s).
Proof. destruct v; try discriminate; reflexivity. Qed.

Lemma dispatch_other_tool (resp : string) (obj : pydict) (s : state) :
  eq_str (requested_tool obj) "final_answer_tool" = false ->
  exists obs s',
    get_observation_string obj s = (inr obs, s')
    /\ messages s' = messages s
    /\ dispatch_action resp (JDict obj) s
       = (inr (resp, None), appended s' (Message "user" (Some obs))).
Proof.
  intros H.
  destruct (get_observation_string_returns obj s) as (obs & s' & E & Hm).
  exists obs, s'. repeat split; try assumption.
  unfold dispatch_action. rewrite H.
  unfold bind. rewrite E. reflexivity.
Qed.

Lemma dispatch_final_answer (resp : string) (obj arguments : pydict)
  (s : state) :
  eq_str (requested_tool obj) "final_answer_tool" = true ->
  lookup "arguments" obj = Some (JDict arguments) ->
  dispatch_action resp (JDict obj) s
  = match TravelPlan_model_validate (final_payload arguments) with
    | inr plan => (inr (resp, Some plan), s)
    | inl e =>
        (match
           console_print
             ("!!! final itinerary Validation failed: " ++ exn_str e)
         with
         | inl e' => inl e'
         | inr _ => inr (resp, None)
         end,
         appended s
           (Message "user"
              (Some ("Error validating final answer: " ++ exn_str e))))
    end.
Proof.
  intros H Ha.
  unfold dispatch_action. rewrite H.
  unfold try_except, bind, lift, getitem, get_method, final_payload.
  rewrite Ha.
  destruct (lookup "final_output" arguments);
    destruct (TravelPlan_model_validate _); try reflexivity;
    rewrite add_message_user; destruct (console_print _); reflexivity.
Qed.

(** A final answer whose arguments are missing or are not a mapping: the
    text of the error holds no bracket, so it is printed. *)
Lemma dispatch_final_answer_bad_arguments (resp : string) (obj : pydict)
  (s : state) :
  eq_str (requested_tool obj) "final_answer_tool" = true ->
  (forall arguments, lookup "arguments" obj <> Some (JDict arguments)) ->
  exists obs,
    dispatch_action resp (JDict obj) s
    = (inr (resp, None), appended s (Message "user" (Some obs))).
Proof.
  intros H Ha.
  unfold dispatch_action. rewrite H.
  unfold try_except, bind, lift, getitem, get_method.
  destruct (lookup "arguments" obj) as [a|].
  - destruct a; try (exfalso; eapply Ha; reflexivity);
      rewrite add_message_user;
      rewrite console_print_plain by reflexivity; eexists; reflexivity.
  - rewrite add_message_user.
    rewrite console_print_plain by reflexivity. eexists; reflexivity.
Qed.

Lemma eq_str_true (v : json) (n : string) : eq_str v n = true -> v = JStr n.
Proof.
  destruct v; try discriminate. simpl. intros H.
  apply String.eqb_eq in H. congruence.
Qed.

Lemma messages_appended (s : state) (m : message) :
  messages (appended s m) = (messages s ++ [m])%list.
Proof. reflexivity. Qed.

Lemma dispatch_action_messages (resp : string) (v : json) (s : state) :
  exists tail,
    messages (snd (dispatch_action resp v s)) = (messages s ++ tail)%list
    /\ at_most_one_observation tail.
Proof.
  destruct (is_dict v) eqn:D.
  2:{ rewrite dispatch_non_mapping by assumption. exists [].
      split; [symmetry; apply app_nil_r | left; reflexivity]. }
  destruct v as [ | | | | | |obj]; try discriminate.
  destruct (eq_str (requested_tool obj) "final_answer_tool") eqn:F.
  - destruct (lookup "arguments" obj) as [[ | | | | | |arguments]|] eqn:A.
    7:{ rewrite (dispatch_final_answer resp obj arguments s F A).
        destruct (TravelPlan_model_validate _).
        - eexists. split; [reflexivity | right; eauto].
        - exists []. split; [symmetry; apply app_nil_r | left; reflexivity]. }
    all: destruct (dispatch_final_answer_bad_arguments resp obj s F) as [obs E];
      [intros arguments; rewrite A; discriminate|];
      rewrite E; eexists; split; [reflexivity | right; eauto].
  - destruct (dispatch_other_tool resp obj s F) as (obs & s' & _ & Hm & E).
    rewrite E. cbn [snd]. rewrite messages_appended, Hm.
    eexists. split; [reflexivity | right; eauto].
Qed.

Lemma handle_response_messages (resp : string) (s : state) :
  exists tail,
    messages (snd (handle_response resp s)) = (messages s ++ tail)%list
    /\ at_most_one_observation tail.
Proof.
  destruct (PyStr.contains "ACTION:" resp) eqn:C.
  - rewrite handle_marker by assumption.
    destruct (json_loads (action_string resp)) as [v|].
    + apply dispatch_action_messages.
    + eexists. split; [reflexivity | right; eauto].
  - rewrite handle_no_action by assumption.
    eexists. split; [reflexivity | right; eauto].
Qed.

Lemma handle_response_resp (resp resp' : string) (o : option TravelPlan)
  (s s' : state) :
  handle_response resp s = (inr (resp', o), s') -> resp' = resp.
Proof.
  destruct (PyStr.contains "ACTION:" resp) eqn:C.
  - rewrite handle_marker by assumption.
    destruct (json_loads (action_string resp)) as [v|]; [|congruence].
    destruct (is_dict v) eqn:D;
      [|rewrite dispatch_non_mapping by assumption; discriminate].
    destruct v as [ | | | | | |obj]; try discriminate.
    destruct (eq_str (requested_tool obj) "final_answer_tool") eqn:F.
    + destruct (lookup "arguments" obj) as [[ | | | | | |arguments]|] eqn:A.
      7:{ rewrite (dispatch_final_answer resp obj arguments s F A).
          destruct (TravelPlan_model_validate _);
            [destruct (console_print _)|]; congruence. }
      all: destruct (dispatch_final_answer_bad_arguments resp obj s F)
        as [obs E]; [intros arguments; rewrite A; discriminate|];
        rewrite E; congruence.
    + destruct (dispatch_other_tool resp obj s F) as (obs & s1 & _ & _ & E).
      rewrite E. congruence.
  - rewrite handle_no_action by assumption. congruence.
Qed.

(** A pass returns a plan only through a validated final answer. *)
Lemma handle_response_returns (resp resp' : string) (plan : TravelPlan)
  (s s' : state) :
  handle_response resp s = (inr (resp', Some plan), s') ->
  s' = s
  /\ PyStr.contains "ACTION:" resp = true
  /\ exists obj arguments,
       json_loads (action_string resp) = Some (JDict obj)
       /\ requested_tool obj = JStr "final_answer_tool"
       /\ lookup "arguments" obj = Some (JDict arguments)
       /\ TravelPlan_model_validate (final_payload arguments) = inr plan.
Proof.
  destruct (PyStr.contains "ACTION:" resp) eqn:C.
  - rewrite handle_marker by assumption.
    destruct (json_loads (action_string resp)) as [v|]; [|discriminate].
    destruct (is_dict v) eqn:D;
      [|rewrite dispatch_non_mapping by assumption; discriminate].
    destruct v as [ | | | | | |obj]; try discriminate.
    destruct (eq_str (requested_tool obj) "final_answer_tool") eqn:F.
    + destruct (lookup "arguments" obj) as [[ | | | | | |arguments]|] eqn:A.
      7:{ rewrite (dispatch_final_answer resp obj arguments s F A).
          destruct (TravelPlan_model_validate _) as [e|plan'] eqn:V;
            [destruct (console_print _); discriminate|].
          intros H. injection H as _ <- <-.
          repeat split. exists obj, arguments.
          auto using eq_str_true. }
      all: destruct (dispatch_final_answer_bad_arguments resp obj s F)
        as [obs E]; [intros arguments; rewrite A; discriminate|];
        rewrite E; discriminate.
    + destruct (dispatch_other_tool resp obj s F) as (obs & s1 & _ & _ & E).
      rewrite E. discriminate.
  - rewrite handle_no_action by assumption. discriminate.
Qed.

(** A pass elapses when the decoded action, if any, is a mapping and is not
    a final answer that validates or whose validation error is not
    printed. *)
Lemma handle_response_elapses (resp : string) (s : state) :
  (forall v,
      PyStr.contains "ACTION:" resp = true ->
      json_loads (action_string resp) = Some v -> is_dict v = true) ->
  (forall obj arguments,
      PyStr.contains "ACTION:" resp = true ->
      json_loads (action_string resp) = Some (JDict obj) ->
      requested_tool obj = JStr "final_answer_tool" ->
      lookup "arguments" obj = Some (JDict arguments) ->
      exists e,
        TravelPlan_model_validate (final_payload arguments) = inl e
        /\ console_print
             ("!!! final itinerary Validation failed: " ++ exn_str e)
           = inr tt) ->
  exists s', handle_response resp s = (inr (resp, None), s').
Proof.
  intros Hmap Hfinal.
  destruct (PyStr.contains "ACTION:" resp) eqn:C.
  - rewrite handle_marker by assumption.
    destruct (json_loads (action_string resp)) as [v|] eqn:J; [|eauto].
    pose proof (Hmap v eq_refl eq_refl) as D.
    destruct v as [ | | | | | |obj]; try discriminate.
    destruct (eq_str (requested_tool obj) "final_answer_tool") eqn:F.
    + destruct (lookup "arguments" obj) as [[ | | | | | |arguments]|] eqn:A.
      7:{ rewrite (dispatch_final_answer resp obj arguments s F A).
          destruct (Hfinal obj arguments eq_refl eq_refl
                      (eq_str_true _ _ F) A) as (e & -> & ->).
          eauto. }
      all: destruct (dispatch_final_answer_bad_arguments resp obj s F)
        as [obs E]; [intros arguments; rewrite A; discriminate|];
        rewrite E; eauto.
    + destruct (dispatch_other_tool resp obj s F) as (obs & s1 & _ & _ & E).
      rewrite E. eauto.
  - rewrite handle_no_action by assumption. eauto.
Qed.

Lemma react_step_inv (m : option OpenAIModel) (c : option Client)
  (s s' : state) (resp : string) (o : option TravelPlan) :
  react_step m c s = (inr (resp, o), s') ->
  exists r s1,
    get_response true m c s = (inr r, s1)
    /\ resp = PyStr.or_empty r
    /\ handle_response resp s1 = (inr (resp, o), s').
Proof.
  unfold react_step, bind.
  destruct (get_response true m c s) as [[e|r] s1]; [discriminate|].
  intros H. pose proof (handle_response_resp _ _ _ _ _ H) as ->.
  eauto.
Qed.

Lemma react_step_messages (m : option OpenAIModel) (c : option Client)
  (s : state) :
  match model_call m c s with
  | (inl e, s1) => react_step m c s = (inl e, s1) /\ messages s1 = messages s
  | (inr r, _) =>
      exists tail,
        messages (snd (react_step m c s))
        = (messages s ++ Message "assistant" r :: tail)%list
        /\ at_most_one_observation tail
  end.
Proof.
  pose proof (model_call_messages m c s) as G.
  unfold react_step, bind. rewrite get_response_unfold.
  destruct (model_call m c s) as [[e|r] s1]; cbn [snd] in G; [auto|].
  destruct (print_content r) as [e|u].
  - exists []. cbn [snd]. rewrite messages_appended, G.
    split; [reflexivity | left; reflexivity].
  - destruct (handle_response_messages (PyStr.or_empty r)
                (appended s1 (Message "assistant" r))) as (tail & E & T).
    exists tail. rewrite E, messages_appended, G, <- app_assoc. auto.
Qed.

Lemma turns_roles (rest : list message) :
  turns rest -> Forall (fun msg => In (role msg) valid_roles) rest.
Proof.
  induction 1 as [|r tail rest T _ IH]; [constructor|].
  apply Forall_cons; [cbv [valid_roles role In]; auto|].
  apply Forall_app. split; [|exact IH].
  destruct T as [->|[obs ->]]; [constructor|].
  apply Forall_cons; [cbv [valid_roles role In]; auto | constructor].
Qed.

Lemma react_for_messages (m : option OpenAIModel) (c : option Client)
  (n : nat) :
  forall (last : option string) (s : state),
  exists rest,
    messages (snd (react_for n m c last s)) = (messages s ++ rest)%list
    /\ turns rest.
Proof.
  induction n as [|n IH]; intros last s.
  - exists []. split; [symmetry; apply app_nil_r | constructor].
  - cbn [react_for]. unfold bind.
    pose proof (react_step_messages m c s) as G.
    destruct (model_call m c s) as [[e|r] s1].
    + destruct G as [-> G]. exists []. cbn [snd].
      split; [rewrite app_nil_r; exact G | constructor].
    + destruct G as (tail & E & T).
      destruct (react_step m c s) as [[e|[resp [plan|]]] s2]; cbn [snd] in *.
      * exists (Message "assistant" r :: tail ++ []).
        split; [rewrite app_nil_r; exact E | constructor; [exact T|constructor]].
      * exists (Message "assistant" r :: tail ++ []).
        split; [rewrite app_nil_r; exact E | constructor; [exact T|constructor]].
      * destruct (IH (Some resp) s2) as (rest & E' & T').
        exists (Message "assistant" r :: tail ++ rest).
        split; [|constructor; assumption].
        rewrite E', E, <- app_assoc. reflexivity.
Qed.

Lemma run_react_cycle_unfold (p : TravelPlan) (max_steps : Z)
  (m : option OpenAIModel) (c : option Client) (s : state) :
  run_react_cycle p max_steps m c s
  = match
      react_for (Z.to_nat max_steps) m c None
        (appended s (revision_request p))
    with
    | (inr (inl plan), s') => (inr plan, s')
    | (inr (inr resp), s') => (inl (exhausted max_steps resp), s')
    | (inl e, s') => (inl e, s')
    end.
Proof.
  unfold run_react_cycle, bind. rewrite add_message_user.
  fold (revision_request p).
  destruct (react_for _ _ _ _ _) as [[e|[plan|resp]] s']; reflexivity.
Qed.

Lemma last_cons_default {A} (l : list A) :
  forall x d, List.last (x :: l) d = List.last l x.
Proof.
  induction l as [|y l IH]; intros x d; [reflexivity|].
  change (List.last (x :: y :: l) d) with (List.last (y :: l) d).
  rewrite !IH. reflexivity.
Qed.

Lemma react_for_elapses (m : option OpenAIModel) (c : option Client)
  (s s' : state) (resps : list string) :
  elapses m c s resps s' ->
  forall last,
    react_for (List.length resps) m c last s
    = (inr (inr (List.last (map Some resps) last)), s').
Proof.
  induction 1 as [s|s s1 s' resp resps E _ IH]; intros last; [reflexivity|].
  cbn [List.length react_for map]. unfold bind. rewrite E, IH.
  rewrite last_cons_default. reflexivity.
Qed.

Lemma react_for_returns (m : option OpenAIModel) (c : option Client)
  (n : nat) :
  forall (last : option string) (s s' : state) (plan : TravelPlan),
    react_for n m c last s = (inr (inl plan), s') ->
    exists s0 r obj arguments,
      get_response true m c s0 = (inr r, s')
      /\ PyStr.contains "ACTION:" (PyStr.or_empty r) = true
      /\ json_loads (action_string (PyStr.or_empty r)) = Some (JDict obj)
      /\ requested_tool obj = JStr "final_answer_tool"
      /\ lookup "arguments" obj = Some (JDict arguments)
      /\ TravelPlan_model_validate (final_payload arguments) = inr plan.
Proof.
  induction n as [|n IH]; intros last s s' plan; [discriminate|].
  cbn [react_for]. unfold bind.
  destruct (react_step m c s) as [[e|[resp [plan'|]]] s2] eqn:E;
    [discriminate| |apply IH].
  unfold ret. intros H. injection H as <- <-.
  destruct (react_step_inv _ _ _ _ _ _ E) as (r & s1 & G & -> & Hh).
  destruct (handle_response_returns _ _ _ _ _ Hh)
    as (-> & C & obj & arguments & J & R & A & V).
  exists s, r, obj, arguments. auto 10.
Qed.

Lemma elapses_last (m : option OpenAIModel) (c : option Client)
  (s s' : state) (resps : list string) :
  elapses m c s resps s' ->
  resps <> [] ->
  exists s0 r s1,
    elapses m c s (removelast resps) s0
    /\ get_response true m c s0 = (inr r, s1)
    /\ List.last resps EmptyString = PyStr.or_empty r
    /\ react_step m c s0 = (inr (PyStr.or_empty r, None), s').
Proof.
  induction 1 as [s|s s1 s' resp resps E H IH]; intros Hne; [contradiction|].
  destruct resps as [|resp' resps].
  - inversion H; subst.
    destruct (react_step_inv _ _ _ _ _ _ E) as (r & s2 & G & -> & _).
    exists s, r, s2. repeat split; try assumption. constructor.
  - destruct IH as (s0 & r & s2 & H0 & G & L & Hs); [discriminate|].
    exists s0, r, s2. repeat split; try assumption.
    change (removelast (resp :: resp' :: resps))
      with (resp :: removelast (resp' :: resps)).
    econstructor; eassumption.
Qed.

(** Recovery from a malformed action: when the marker is absent, or the text
    does not decode, or it decodes to a mapping that names another tool than
    the final answer, the pass appends one user message and ends without
    returning. *)
Lemma malformed_action_recovers (m : option OpenAIModel) (c : option Client)
  (s s1 : state) (r : option string) :
  get_response true m c s = (inr r, s1) ->
  let resp := PyStr.or_empty r in
  (PyStr.contains "ACTION:" resp = false ->
   react_step m c s
   = (inr (resp, None),
      appended s1 (Message "user" (Some "No action found in response."))))
  /\ (PyStr.contains "ACTION:" resp = true ->
      json_loads (action_string resp) = None ->
      react_step m c s
      = (inr (resp, None),
         appended s1
           (Message "user"
              (Some ("Invalid JSON in action string: "
                     ++ action_string resp)))))
  /\ (forall obj,
        PyStr.contains "ACTION:" resp = true ->
        json_loads (action_string resp) = Some (JDict obj) ->
        requested_tool obj <> JStr "final_answer_tool" ->
        exists obs s2,
          get_observation_string obj s1 = (inr obs, s2)
          /\ react_step m c s
             = (inr (resp, None), appended s2 (Message "user" (Some obs)))).
Proof.
  intros G resp. unfold react_step, bind. rewrite G. fold resp.
  repeat split.
  - intros C. apply handle_no_action. exact C.
  - intros C J. rewrite handle_marker by assumption. rewrite J. reflexivity.
  - intros obj C J R. rewrite handle_marker by assumption. rewrite J.
    destruct (eq_str (requested_tool obj) "final_answer_tool") eqn:F.
    + apply eq_str_true in F. contradiction.
    + destruct (dispatch_other_tool resp obj s1 F) as (obs & s2 & E & _ & D).
      eauto.
Qed.

(** A first pass whose action is not a mapping. *)
Lemma first_pass_non_mapping (m : option OpenAIModel) (c : option Client)
  (s s1 : state) (r : option string) (v : json) (steps : nat)
  (last : option string) :
  get_response true m c s = (inr r, s1) ->
  PyStr.contains "ACTION:" (PyStr.or_empty r) = true ->
  json_loads (action_string (PyStr.or_empty r)) = Some v ->
  is_dict v = false ->
  (0 < steps)%nat ->
  react_for steps m c last s
  = (inl (Exn AttributeError
            ("'" ++ type_name v ++ "' object has no attribute 'get'")), s1).
Proof.
  intros G C J D Hpos. destruct steps as [|n]; [lia|].
  cbn [react_for]. unfold bind, react_step, bind. rewrite G.
  rewrite handle_marker by assumption. rewrite J.
  rewrite dispatch_non_mapping by assumption. reflexivity.
Qed.

End AgentFacts.

Lemma date_compare_eq (a b : date) : date_compare a b = Eq <-> a = b.
Proof.
  destruct a as [y m d], b as [y' m' d']. unfold date_compare. cbn [year month day].
  split.
  - destruct (Z.compare_spec y y'); try discriminate.
    destruct (Z.compare_spec m m'); try discriminate.
    destruct (Z.compare_spec d d'); try discriminate.
    intros _. congruence.
  - intros H. injection H as -> -> ->. rewrite !Z.compare_refl. reflexivity.
Qed.

Lemma date_eqb_eq (a b : date) : date_eqb a b = true <-> a = b.
Proof.
  unfold date_eqb. rewrite <- date_compare_eq.
  destruct (date_compare a b); split; congruence.
Qed.

Lemma date_eqb_refl (a : date) : date_eqb a a = true.
Proof. apply date_eqb_eq. reflexivity. Qed.

Lemma inner_sum (l : list ActivityRecommendation) (acc : Z) :
  fold_left (fun acc r => (acc + price (activity r))%Z) l acc
  = (acc + sum_Z (map price (map activity l)))%Z.
Proof.
  revert acc. induction l as [|r l IH]; intros acc; simpl.
  - lia.
  - rewrite IH. unfold sum_Z. simpl. lia.
Qed.

Lemma sum_Z_app (a b : list Z) : sum_Z (a ++ b) = (sum_Z a + sum_Z b)%Z.
Proof. unfold sum_Z. induction a as [|x a IH]; simpl; lia. Qed.

Lemma actual_total_cost_is_sum (p : TravelPlan) :
  actual_total_cost p = sum_Z (map price (scheduled_activities p)).
Proof.
  unfold actual_total_cost, scheduled_activities.
  enough (G : forall days acc,
             fold_left
               (fun acc d =>
                  fold_left (fun acc r => (acc + price (activity r))%Z)
                    (activity_recommendations d) acc) days acc
             = (acc + sum_Z (map price
                               (flat_map
                                  (fun d => map activity
                                              (activity_recommendations d))
                                  days)))%Z)
    by (rewrite G; lia).
  induction days as [|d days IH]; intros acc; simpl.
  - unfold sum_Z. simpl. lia.
  - rewrite IH, inner_sum, map_app, sum_Z_app. lia.
Qed.

Section EvalFacts.

Context `{X : Collaborators}.
Context {World : Type}.

Local Open Scope list_scope.

Lemma eval_for_collects (vi : VacationInfo) (out : TravelPlan)
  (fb : option string) (fns : list (evaluator World)) :
  (forall f w e,
      In f fns -> fst (eval_fn f vi out fb w) = inl e ->
      is_AgentError e = true /\ console_print (exn_str e) = inr tt) ->
  forall (acc : list string) (s : eval_state World),
  exists s' entries,
    eval_for fns vi out fb acc s
    = (inr (acc ++ agent_error_messages (map snd entries)), s')
    /\ evaluated s' = evaluated s ++ entries
    /\ called_in_order vi out fb (world s) fns entries (world s').
Proof.
  induction fns as [|f fns IH]; intros Hc acc s.
  - exists s, []. cbn. rewrite !app_nil_r. repeat split. constructor.
  - cbn [eval_for].
    destruct (eval_fn f vi out fb (world s)) as [r w] eqn:E.
    assert (Hc' : forall f w e,
               In f fns -> fst (eval_fn f vi out fb w) = inl e ->
               is_AgentError e = true /\ console_print (exn_str e) = inr tt)
      by (intros; eapply Hc; [right|]; eassumption).
    destruct r as [e|u].
    + destruct (Hc f (world s) e) as [A P];
        [left; reflexivity | rewrite E; reflexivity |].
      rewrite A, P.
      destruct (IH Hc' (acc ++ [exn_str e])
                  {| world := w;
                     evaluated := evaluated s ++ [(fn_name f, inl e)] |})
        as (s' & entries & R & V & C).
      exists s', ((fn_name f, inl e) :: entries).
      rewrite R. cbn [map snd agent_error_messages flat_map world evaluated] in *.
      rewrite A.
      rewrite V, <- !app_assoc. repeat split.
      econstructor; eassumption.
    + destruct (IH Hc' acc
                  {| world := w;
                     evaluated := evaluated s ++ [(fn_name f, inr u)] |})
        as (s' & entries & R & V & C).
      exists s', ((fn_name f, inr u) :: entries).
      rewrite R. cbn [map snd agent_error_messages flat_map world evaluated] in *.
      rewrite V, <- !app_assoc. repeat split.
      econstructor; eassumption.
Qed.

Lemma called_in_order_names (vi : VacationInfo) (out : TravelPlan)
  (fb : option string) (w w' : World) (fns : list (evaluator World))
  (entries : list ((exn + string) * (exn + unit))) :
  called_in_order vi out fb w fns entries w' ->
  map fst entries = map fn_name fns.
Proof. induction 1; simpl; congruence. Qed.

Lemma names_of_named (fns : list (evaluator World)) (names : list string) :
  map fn_name fns = map inr names -> names_of fns = inr names.
Proof.
  revert names. induction fns as [|f fns IH]; intros [|n names] H;
    try discriminate; [reflexivity|].
  cbn [map] in H. injection H as Hf H. cbn [names_of].
  rewrite Hf, (IH _ H). reflexivity.
Qed.

End EvalFacts.

Ltac dispatch_case :=
  repeat match goal with
         | H : Some _ = Some _ |- _ => injection H as H; try subst
         | H : Some _ <> None |- _ => clear H
         end;
  cbn [is_dict is_str] in *;
  try discriminate; try congruence; try reflexivity;
  try apply violation_observations_distinct.

(** * The claims *)

Section AgentClaims.

Context `{X : Collaborators}.

(** Claim C2.  For every tool-call mapping, [get_observation_string] returns
    an observation and never raises, and it leaves the conversation as it
    was.  The violations are tested in a fixed order: no ["tool_name"] key;
    no ["arguments"] key; arguments that are not a mapping; a tool name that
    is not a string; a name under which no tool is registered.  Each one ends
    the call with its own observation and with the state unchanged, so no
    tool has been invoked, and the five observations are pairwise different.
    Otherwise the tool registered under the name is invoked once with the
    arguments; an exception it raises becomes an error observation that names
    the tool, and a response becomes a success observation that names the
    tool and ends with the response. *)
Theorem get_observation_string_dispatch (obj : pydict) (s : state) :
  exists obs s',
    get_observation_string obj s = (inr obs, s')
    /\ messages s' = messages s
    /\ (lookup "tool_name" obj = None ->
        obs = "OBSERVATION: No tool name specified." /\ s' = s)
    /\ (lookup "tool_name" obj <> None -> lookup "arguments" obj = None ->
        obs = "OBSERVATION: No arguments specified." /\ s' = s)
    /\ (forall t a,
          lookup "tool_name" obj = Some t -> lookup "arguments" obj = Some a ->
          is_dict a = false ->
          obs = "OBSERVATION: Arguments should be a dictionary, got "
                ++ type_repr a ++ " instead." /\ s' = s)
    /\ (forall t arguments,
          lookup "tool_name" obj = Some t ->
          lookup "arguments" obj = Some (JDict arguments) ->
          is_str t = false ->
          obs = "OBSERVATION: Tool name should be a string, got "
                ++ type_repr t ++ " instead." /\ s' = s)
    /\ (forall n arguments,
          lookup "tool_name" obj = Some (JStr n) ->
          lookup "arguments" obj = Some (JDict arguments) ->
          ~ registered n ->
          obs = "OBSERVATION: Unknown tool name '" ++ n
                ++ "' in action string." /\ s' = s)
    /\ (forall n arguments,
          lookup "tool_name" obj = Some (JStr n) ->
          lookup "arguments" obj = Some (JDict arguments) ->
          registered n ->
          exists t,
            In t ALL_TOOLS /\ tool_name t = n
            /\ invoked s' = (invoked s ++ [(n, arguments)])%list
            /\ env s' = snd (tool_fn t arguments (env s))
            /\ obs =
                 match fst (tool_fn t arguments (env s)) with
                 | inr tool_response =>
                     "OBSERVATION: Tool " ++ n
                     ++ " called successfully with response: " ++ tool_response
                 | inl e =>
                     "OBSERVATION: Error occurred while calling tool " ++ n
                     ++ ": " ++ exn_str e
                 end)
    /\ (forall a t n,
          NoDup
            [ "OBSERVATION: No tool name specified.";
              "OBSERVATION: No arguments specified.";
              "OBSERVATION: Arguments should be a dictionary, got "
              ++ type_repr a ++ " instead.";
              "OBSERVATION: Tool name should be a string, got "
              ++ type_repr t ++ " instead.";
              "OBSERVATION: Unknown tool name '" ++ n
              ++ "' in action string." ]).
Proof.
  unfold get_observation_string, mem, getitem, lift, bind, registered.
  destruct (lookup "tool_name" obj) as [t|] eqn:Ht; cbn [negb];
    [|eexists _, s; unfold ret; repeat split; intros; now dispatch_case].
  destruct (lookup "arguments" obj) as [a|] eqn:Ha; cbn [negb];
    [|eexists _, s; unfold ret; repeat split; intros; now dispatch_case].
  destruct a as [ | | | | | |arguments];
    try (eexists _, s; unfold ret; repeat split; intros; now dispatch_case).
  destruct t as [ | | | |n| | ];
    try (eexists _, s; unfold ret; repeat split; intros; now dispatch_case).
  destruct (find_tool ALL_TOOLS n) as [tl|] eqn:F.
  - destruct (find_tool_some _ _ _ F) as [Hin Hname].
    unfold try_except, call_tool, bind, ret.
    destruct (tool_fn tl arguments (env s)) as [[e|r] w] eqn:T;
      (eexists _, _; split; [reflexivity|]);
      (repeat split; intros; try now dispatch_case).
    all: dispatch_case.
    all: try (exfalso;
              match goal with H : ~ In _ _ |- _ => apply H end;
              apply in_map; exact Hin).
    all: exists tl; rewrite T; cbn [fst snd]; auto.
  - apply find_tool_none in F.
    eexists _, s; unfold ret; repeat split; intros; try now dispatch_case.
Qed.

(** Claim C1, at the input where the code departs from it.  When the text
    after the marker decodes to a JSON value that is not a mapping (a list, a
    string, a number, [null]), the first pass through the loop raises
    [AttributeError], and [run_react_cycle] ends with that error: no
    observation is appended and no further pass is made. *)
Theorem non_mapping_action_leaves_loop (m : option OpenAIModel)
  (c : option Client) (p : TravelPlan) (max_steps : Z) (s s1 : state)
  (r : option string) (v : json) :
  (0 < max_steps)%Z ->
  get_response true m c (appended s (revision_request p)) = (inr r, s1) ->
  PyStr.contains "ACTION:" (PyStr.or_empty r) = true ->
  json_loads (action_string (PyStr.or_empty r)) = Some v ->
  is_dict v = false ->
  run_react_cycle p max_steps m c s
  = (inl (Exn AttributeError
            ("'" ++ type_name v ++ "' object has no attribute 'get'")), s1).
Proof.
  intros Hpos G C J D. rewrite run_react_cycle_unfold.
  destruct (Z.to_nat max_steps) as [|n] eqn:N; [lia|].
  cbn [react_for]. unfold bind, react_step, bind. rewrite G.
  rewrite handle_marker by assumption. rewrite J.
  rewrite dispatch_non_mapping by assumption. reflexivity.
Qed.

(** Claim C3, at the input where the code departs from it.  When a final
    answer does not validate, the handler appends the user message with the
    validation error and then prints the error.  When the console refuses
    the text (it holds a closing tag that closes nothing), the error of the
    printing is raised out of the handler and [run_react_cycle] ends with it:
    the loop does not go on with the next pass. *)
Theorem final_answer_print_failure_leaves_loop (m : option OpenAIModel)
  (c : option Client) (p : TravelPlan) (max_steps : Z) (s s1 : state)
  (r : option string) (obj arguments : pydict) (e e' : exn) :
  (0 < max_steps)%Z ->
  get_response true m c (appended s (revision_request p)) = (inr r, s1) ->
  PyStr.contains "ACTION:" (PyStr.or_empty r) = true ->
  json_loads (action_string (PyStr.or_empty r)) = Some (JDict obj) ->
  requested_tool obj = JStr "final_answer_tool" ->
  lookup "arguments" obj = Some (JDict arguments) ->
  TravelPlan_model_validate (final_payload arguments) = inl e ->
  console_print ("!!! final itinerary Validation failed: " ++ exn_str e)
  = inl e' ->
  run_react_cycle p max_steps m c s
  = (inl e',
     appended s1
       (Message "user" (Some ("Error validating final answer: " ++ exn_str e)))).
Proof.
  intros Hpos G C J R A V P. rewrite run_react_cycle_unfold.
  destruct (Z.to_nat max_steps) as [|n] eqn:N; [lia|].
  cbn [react_for]. unfold bind, react_step, bind. rewrite G.
  rewrite handle_marker by assumption. rewrite J.
  rewrite (dispatch_final_answer _ obj arguments) by
    (try assumption; rewrite R; reflexivity).
  rewrite V, P. reflexivity.
Qed.

(** Claim C4, at the input where the code departs from it.  A response whose
    action decodes to a JSON value that is not a mapping is not a valid final
    answer; yet with such a response at the first pass, for [max_steps = 1]
    as for every positive [max_steps], [run_react_cycle] does not raise the
    error of exhaustion: it raises [AttributeError], whose message does not
    hold the response, and it returns no plan. *)
Theorem exhaustion_missed_on_non_mapping_action (m : option OpenAIModel)
  (c : option Client) (p : TravelPlan) (s s1 : state) (r : option string)
  (v : json) :
  get_response true m c (appended s (revision_request p)) = (inr r, s1) ->
  PyStr.contains "ACTION:" (PyStr.or_empty r) = true ->
  json_loads (action_string (PyStr.or_empty r)) = Some v ->
  is_dict v = false ->
  forall max_steps : Z,
    (0 < max_steps)%Z ->
    exists e,
      run_react_cycle p max_steps m c s = (inl e, s1)
      /\ exn_cls e = AttributeError
      /\ forall last, e <> exhausted max_steps last.
Proof.
  intros G C J D max_steps Hpos. rewrite run_react_cycle_unfold.
  rewrite (first_pass_non_mapping m c _ s1 r v (Z.to_nat max_steps) None)
    by (assumption || lia).
  eexists. split; [reflexivity|]. split; [reflexivity|].
  intros last. unfold exhausted. intros H. discriminate H.
Qed.

(** Claim C10.  The conversation only grows.  A pass leaves the earlier
    messages in place and appends nothing when the model call raises, and
    otherwise one assistant message with the model response followed by at
    most one user message.  A whole run appends the request for revision and
    then such turns; every appended message has the role ["user"] or
    ["assistant"], both among the three admitted roles. *)
Theorem conversation_append_only (m : option OpenAIModel) (c : option Client) :
  (forall s : state,
      match model_call m c s with
      | (inl _, _) => messages (snd (react_step m c s)) = messages s
      | (inr r, _) =>
          exists tail,
            messages (snd (react_step m c s))
            = (messages s ++ Message "assistant" r :: tail)%list
            /\ at_most_one_observation tail
      end)
  /\ (forall (p : TravelPlan) (max_steps : Z) (s : state),
        exists rest,
          messages (snd (run_react_cycle p max_steps m c s))
          = (messages s ++ revision_request p :: rest)%list
          /\ turns rest
          /\ Forall (fun msg => In (role msg) valid_roles)
               (revision_request p :: rest)).
Proof.
  split.
  - intros s. pose proof (react_step_messages m c s) as G.
    destruct (model_call m c s) as [[e|r] s1]; [|exact G].
    destruct G as [-> G]. exact G.
  - intros p max_steps s. rewrite run_react_cycle_unfold.
    destruct (react_for_messages m c (Z.to_nat max_steps) None
                (appended s (revision_request p))) as (rest & E & T).
    exists rest. split; [|split; [exact T|]].
    + rewrite messages_appended, <- app_assoc in E. cbn [app] in E.
      destruct (react_for _ _ _ _ _) as [[e|[plan|resp]] s']; exact E.
    + apply Forall_cons; [cbv [valid_roles role revision_request In]; auto|].
      apply turns_roles. exact T.
Qed.

End AgentClaims.

Section EvalClaims.

Context `{X : Collaborators}.
Context {World : Type}.

Local Open Scope list_scope.

(** Claim C5, amended.  For a list of evaluators each of which has a name
    and returns or raises an [AgentError] whose message the console prints,
    [get_eval_results] calls every evaluator once, in order, whether or not
    earlier ones failed, and returns results whose [failures] are the
    messages of the failures in that order, whose [success] holds exactly
    when there is no failure, and whose [eval_functions] are the names of all
    the evaluators in order. *)
Theorem get_eval_results_collects (vi : VacationInfo) (out : TravelPlan)
  (fb : option string) (fns : list (evaluator World)) (s : eval_state World)
  (names : list string) :
  (forall f w e,
      In f fns -> fst (eval_fn f vi out fb w) = inl e ->
      is_AgentError e = true /\ console_print (exn_str e) = inr tt) ->
  map fn_name fns = map inr names ->
  exists res s' entries,
    get_eval_results vi out fns fb s = (inr res, s')
    /\ evaluated s' = evaluated s ++ entries
    /\ called_in_order vi out fb (world s) fns entries (world s')
    /\ map fst entries = map fn_name fns
    /\ failures res = agent_error_messages (map snd entries)
    /\ (success res = true <-> failures res = [])
    /\ eval_functions res = names.
Proof.
  intros Hc Hn. unfold get_eval_results.
  destruct (eval_for_collects vi out fb fns Hc [] s) as (s' & entries & R & V & C).
  rewrite R, (names_of_named fns names Hn). cbn [app].
  eexists _, s', entries. split; [reflexivity|].
  cbn [success failures eval_functions].
  repeat split; try assumption.
  - eapply called_in_order_names; eassumption.
  - destruct (agent_error_messages _); [reflexivity | discriminate].
  - intros ->. reflexivity.
Qed.

End EvalClaims.

(** Claim C5 as stated, for every list of evaluators, fails on a suite whose
    second evaluator raises a [RuntimeError], as the weather and feedback
    evaluators of the repository do on a reply they cannot read: the error
    leaves [get_eval_results], no result is returned, and the third
    evaluator is never called. *)
Lemma get_eval_results_stops_at_other_error :
  let r :=
    get_eval_results (X := Scripted.collaborators) Sample.vacation
      (Sample.plan 50)
      [ @pure_evaluator unit "eval_start_end_dates_match"
          eval_start_end_dates_match;
        @pure_evaluator unit "breaks" Trip.breaks;
        @pure_evaluator unit "eval_total_cost_is_accurate"
          eval_total_cost_is_accurate ]
      None Sample.fresh in
  fst r = inl (Exn RuntimeError "Unexpected response from the model")
  /\ map fst (evaluated (snd r))
     = [inr "eval_start_end_dates_match"; inr "breaks"].
Proof. vm_compute. split; reflexivity. Qed.

(** Claim C6.  The cost-accuracy evaluator passes exactly when the prices of
    all scheduled activities, over all days, sum to the stated total cost;
    when they differ it fails with an [AgentError] whose message contains
    both the computed sum and the stated total. *)
Theorem cost_accuracy_exact (vacation_info : VacationInfo) (p : TravelPlan)
  (traveler_feedback : option string) :
  let computed := sum_Z (map price (scheduled_activities p)) in
  (eval_total_cost_is_accurate vacation_info p traveler_feedback = inr tt
   <-> computed = total_cost p)
  /\ (computed <> total_cost p ->
      exists msg,
        eval_total_cost_is_accurate vacation_info p traveler_feedback
        = inl (Exn AgentError msg)
        /\ PyStr.contains (PyStr.str_of_Z computed) msg = true
        /\ PyStr.contains (PyStr.str_of_Z (total_cost p)) msg = true).
Proof.
  intros computed. unfold eval_total_cost_is_accurate.
  rewrite actual_total_cost_is_sum. fold computed.
  destruct (Z.eqb_spec computed (total_cost p)) as [E|E]; cbn [negb].
  - split; [tauto | contradiction].
  - split; [split; [discriminate | contradiction]|].
    intros _. eexists. split; [reflexivity|]. split.
    + apply contains_app_r.
      apply (contains_middle _ EmptyString).
    + apply contains_app_r, contains_app_r, contains_app_r.
      apply contains_of_prefix.
      clear. induction (PyStr.str_of_Z (total_cost p)) as [|c s IH];
        [reflexivity|].
      simpl. destruct (ascii_dec c c); [exact IH | contradiction].
Qed.

(** Claim C7.  The dates-match evaluator fails when the start date of the
    plan differs from the arrival date or its end date from the departure
    date, fails when the start date is after the end date, and passes when
    the dates agree and the start is not after the end. *)
Theorem dates_match_evaluator (vacation_info : VacationInfo) (p : TravelPlan)
  (traveler_feedback : option string) :
  (date_of_arrival vacation_info <> start_date p
   \/ date_of_departure vacation_info <> end_date p ->
   exists msg,
     eval_start_end_dates_match vacation_info p traveler_feedback
     = inl (Exn AgentError msg))
  /\ (date_gtb (start_date p) (end_date p) = true ->
      exists msg,
        eval_start_end_dates_match vacation_info p traveler_feedback
        = inl (Exn AgentError msg))
  /\ (date_of_arrival vacation_info = start_date p ->
      date_of_departure vacation_info = end_date p ->
      date_leb (start_date p) (end_date p) = true ->
      eval_start_end_dates_match vacation_info p traveler_feedback = inr tt).
Proof.
  unfold eval_start_end_dates_match, date_leb.
  destruct (date_eqb (date_of_arrival vacation_info) (start_date p)) eqn:A;
    destruct (date_eqb (date_of_departure vacation_info) (end_date p)) eqn:D;
    cbn [negb orb].
  1: apply date_eqb_eq in A, D;
     destruct (date_gtb (start_date p) (end_date p)); repeat split;
     try (intros; eexists; reflexivity); try discriminate; try reflexivity;
     intros [H|H]; contradiction.
  all: repeat split; try (intros; eexists; reflexivity).
  all: intros Ha Hd; apply date_eqb_eq in Ha, Hd; congruence.
Qed.

(** Claim C8, amended.  Validation of a [VacationInfo] returns the value
    itself, and it succeeds exactly when the list of travelers is not empty,
    the arrival is after 2025-06-09, the departure is before 2025-06-16 and
    the budget is positive; it fails with a non-empty list of errors
    otherwise.  The order of arrival and departure is not checked. *)
Theorem VacationInfo_validation (v : VacationInfo_fields) :
  (forall v',
      VacationInfo_model_validate v = inr v' ->
      v' = v /\ VacationInfo_constraints v')
  /\ (VacationInfo_constraints v -> VacationInfo_model_validate v = inr v)
  /\ (~ VacationInfo_constraints v ->
      exists errs, VacationInfo_model_validate v = inl errs /\ errs <> []).
Proof.
  assert (D : VacationInfo_errors v = [] <-> VacationInfo_constraints v).
  { unfold VacationInfo_errors, VacationInfo_constraints.
    destruct (travelers v) as [|t ts]; cbn [List.length Nat.leb];
      [split; [discriminate | intros [H _]; contradiction]|].
    destruct (date_gtb (date_of_arrival v) (Date 2025 6 9));
      [|split; [discriminate | intros (_ & H & _); discriminate]].
    destruct (date_ltb (date_of_departure v) (Date 2025 6 16));
      [|split; [discriminate | intros (_ & _ & H & _); discriminate]].
    destruct (Z.ltb_spec 0 (budget v)) as [B|B].
    - split; [|reflexivity]. intros _. repeat split; [discriminate | exact B].
    - split; [discriminate | intros (_ & _ & _ & H); lia]. }
  unfold VacationInfo_model_validate.
  destruct (VacationInfo_errors v) as [|e errs] eqn:E.
  - pose proof (proj1 D eq_refl) as C. split; [|split].
    + intros v' H. injection H as <-. split; [reflexivity | exact C].
    + reflexivity.
    + contradiction.
  - split; [|split].
    + discriminate.
    + intros C. apply D in C. discriminate.
    + intros _. eexists. split; [reflexivity | discriminate].
Qed.

(** Claim C8 as stated fails: a value with arrival 2025-06-15 and departure
    2025-06-10 is validated. *)
Lemma VacationInfo_accepts_reversed_dates :
  ~ (forall v v' : VacationInfo,
        VacationInfo_model_validate v = inr v' ->
        date_leb (date_of_arrival v') (date_of_departure v') = true
        /\ (0 < budget v')%Z /\ travelers v' <> []).
Proof.
  intros H.
  destruct (H Sample.reversed_dates Sample.reversed_dates eq_refl) as [A _].
  discriminate A.
Qed.

(** Claim C9, amended.  [call_activities_api_mocked] returns the empty list
    for every non-empty date that does not parse or lies outside the range,
    and for every non-empty city other than AgentsVille (an empty or absent
    date or city means no filter).  [call_weather_api_mocked] returns the
    empty mapping for every city other than AgentsVille, every date that does
    not parse and every date outside the range.
    [call_activity_by_id_api_mocked] returns [None] for an id no entry of the
    calendar carries. *)
Theorem mocked_sources_empty_results (cal : list event) (wf : list forecast)
  (strp : string -> bool) :
  (forall (date : string) (city : option string)
          (ids : option (list string)),
      date <> EmptyString ->
      strp date = false \/ outside_range date = true ->
      call_activities_api_mocked cal strp (Some date) city ids = [])
  /\ (forall (date : option string) (city : string)
             (ids : option (list string)),
        city <> EmptyString -> city <> "AgentsVille" ->
        call_activities_api_mocked cal strp date (Some city) ids = [])
  /\ (forall date city : string,
        city <> "AgentsVille" \/ strp date = false
        \/ outside_range date = true ->
        call_weather_api_mocked wf strp date city = [])
  /\ (forall id : string,
        (forall e, In e cal -> event_activity_id e <> id) ->
        call_activity_by_id_api_mocked cal id = None).
Proof.
  repeat split.
  - intros date city ids Hne H. unfold call_activities_api_mocked.
    destruct (given city && negb (PyStr.or_empty city =? "AgentsVille"));
      [reflexivity|].
    destruct date as [|ch date]; [contradiction|]. cbn [given PyStr.truthy
      PyStr.or_empty andb].
    destruct (strp (String ch date)); cbn [negb];
      [|reflexivity].
    destruct H as [H|H]; [discriminate|]. rewrite H. reflexivity.
  - intros date city ids Hne H. unfold call_activities_api_mocked.
    destruct city as [|ch city]; [contradiction|].
    cbn [given PyStr.truthy PyStr.or_empty andb].
    destruct (String.eqb_spec (String ch city) "AgentsVille");
      [contradiction | reflexivity].
  - intros date city H. unfold call_weather_api_mocked.
    destruct (String.eqb_spec city "AgentsVille"); cbn [negb];
      [|reflexivity].
    destruct (strp date); cbn [negb]; [|reflexivity].
    destruct (outside_range date); [reflexivity|].
    destruct H as [H|[H|H]]; [contradiction | discriminate | discriminate].
  - intros id H. unfold call_activity_by_id_api_mocked.
    induction cal as [|e cal' IH]; [reflexivity|]. cbn [find].
    destruct (String.eqb_spec (event_activity_id e) id) as [E|E].
    + exfalso. apply (H e); [left; reflexivity | exact E].
    + apply IH. intros e' He'. apply H. right. exact He'.
Qed.

(** Claim C9 as stated fails: the empty date does not parse and the empty
    city is not supported, yet each leaves the calendar unfiltered. *)
Lemma activities_for_empty_date_or_city :
  Sample.strptime EmptyString = false
  /\ call_activities_api_mocked Sample.calendar Sample.strptime
       (Some EmptyString) (Some "AgentsVille") None = Sample.calendar
  /\ call_activities_api_mocked Sample.calendar Sample.strptime
       (Some "2025-06-10") (Some EmptyString) None = Sample.calendar
  /\ Sample.calendar <> [].
Proof. repeat split. discriminate. Qed.

(** * Further facts *)

(** ** Splitting at the first separator *)

Lemma append_nil_r (s : string) : s ++ EmptyString = s.
Proof. induction s as [|c s IH]; simpl; congruence. Qed.

Lemma append_assoc (a b c : string) : (a ++ b) ++ c = a ++ b ++ c.
Proof. induction a as [|x a IH]; simpl; congruence. Qed.

Lemma length_append (a b : string) :
  String.length (a ++ b) = (String.length a + String.length b)%nat.
Proof. induction a as [|x a IH]; simpl; congruence. Qed.

Lemma split_go_skip (sep x rest : string) :
  forall cur,
    PyStr.split_go sep (String.length x) cur (x ++ rest)
    = PyStr.split_go sep 0 cur rest.
Proof.
  induction x as [|c x IH]; intros cur; [reflexivity|].
  cbn [String.length append PyStr.split_go]. apply IH.
Qed.

Lemma split_go_first (sep pre rest : string) :
  sep <> EmptyString ->
  starts_within sep pre (sep ++ rest) = false ->
  forall cur,
    PyStr.split_go sep 0 cur (pre ++ sep ++ rest)
    = (PyStr.rev_string cur ++ pre) :: PyStr.split_go sep 0 [] rest.
Proof.
  intros Hsep. induction pre as [|c pre IH]; intros H cur.
  - destruct sep as [|c0 sep']; [contradiction|].
    cbn [append PyStr.split_go].
    change (String c0 (sep' ++ rest)) with (String c0 sep' ++ rest).
    rewrite prefix_app, append_nil_r.
    cbn [String.length Nat.sub]. rewrite Nat.sub_0_r.
    cbn [append]. rewrite split_go_skip. reflexivity.
  - cbn [starts_within] in H. apply orb_false_iff in H as [P H].
    cbn [append PyStr.split_go].
    change (String c (pre ++ sep ++ rest)) with (String c pre ++ sep ++ rest).
    rewrite P, (IH H). cbn [PyStr.rev_string].
    rewrite append_assoc. reflexivity.
Qed.

Lemma split_go_absent (sep s : string) :
  sep <> EmptyString ->
  PyStr.contains sep s = false ->
  forall cur, PyStr.split_go sep 0 cur s = [PyStr.rev_string cur ++ s].
Proof.
  intros Hsep. induction s as [|c s IH]; intros H cur.
  - cbn. rewrite append_nil_r. reflexivity.
  - cbn [PyStr.contains] in H. apply orb_false_iff in H as [P H].
    cbn [PyStr.split_go]. rewrite P, (IH H). cbn [PyStr.rev_string].
    rewrite append_assoc. reflexivity.
Qed.

Lemma split_first (sep pre rest : string) :
  sep <> EmptyString ->
  starts_within sep pre (sep ++ rest) = false ->
  PyStr.split sep (pre ++ sep ++ rest) = pre :: PyStr.split sep rest.
Proof. intros Hsep H. unfold PyStr.split. now rewrite split_go_first. Qed.

Lemma split_absent (sep s : string) :
  sep <> EmptyString ->
  PyStr.contains sep s = false -> PyStr.split sep s = [s].
Proof. intros Hsep H. unfold PyStr.split. now rewrite split_go_absent. Qed.

Section MoreAgentFacts.

Context `{X : Collaborators}.

Variable VacationInfo_model_dump_json : VacationInfo -> string.
Variable TravelPlan_model_validate_json : string -> exn + TravelPlan.

(** X1: The action of a response is the text between the first [ACTION:] marker
    and the next one (or the end of the response), stripped and repaired:
    for a response [pre ++ "ACTION:" ++ body] in which no marker begins
    before the one written and [body] holds none, and for such a response
    followed by a further marker and any text, the pass decodes
    [repair_json (strip body)]; it dispatches the decoded object, or appends
    the observation of an invalid JSON when decoding fails.  What follows a
    second marker is ignored. *)
Theorem action_text_is_first_segment (pre body : string) (s : state) :
  let action_text := repair_json (PyStr.strip body) in
  let outcome resp :=
    match json_loads action_text with
    | None =>
        (inr (resp, None),
         appended s
           (Message "user"
              (Some ("Invalid JSON in action string: " ++ action_text))))
    | Some tool_call_obj => dispatch_action resp tool_call_obj s
    end in
  (starts_within "ACTION:" pre ("ACTION:" ++ body) = false ->
   PyStr.contains "ACTION:" body = false ->
   handle_response (pre ++ "ACTION:" ++ body) s
   = outcome (pre ++ "ACTION:" ++ body))
  /\ (forall more,
        starts_within "ACTION:" pre ("ACTION:" ++ body ++ "ACTION:" ++ more)
        = false ->
        starts_within "ACTION:" body ("ACTION:" ++ more) = false ->
        handle_response (pre ++ "ACTION:" ++ body ++ "ACTION:" ++ more) s
        = outcome (pre ++ "ACTION:" ++ body ++ "ACTION:" ++ more)).
Proof.
  intros action_text outcome. split.
  - intros Hpre Hbody.
    rewrite handle_marker by apply contains_middle.
    unfold action_string.
    rewrite split_first by (discriminate || assumption).
    rewrite split_absent by (discriminate || assumption).
    reflexivity.
  - intros more Hpre Hbody.
    rewrite handle_marker by apply contains_middle.
    unfold action_string.
    rewrite split_first by (discriminate || assumption).
    rewrite split_first by (discriminate || assumption).
    reflexivity.
Qed.

Lemma chat_unrecorded (user_message : string) (m : option OpenAIModel)
  (s : state) :
  messages (snd (chat user_message false m s))
  = (messages s ++ [Message "user" (Some user_message)])%list.
Proof.
  unfold chat, bind. rewrite add_message_user.
  unfold get_response, bind, do_chat_completion, raise, ret.
  cbn [messages appended set_messages client model].
  destruct (py_or None (client s)); [|reflexivity].
  destruct (py_or m (model s)); [|reflexivity].
  destruct (chat_completions_create _ _ _ _) as [[e|resp] w]; [reflexivity|].
  destruct (error resp); reflexivity.
Qed.

Lemma fenced_returns (text : string) : exists t, fenced text = inr t.
Proof.
  unfold fenced. destruct (PyStr.contains fence text) eqn:C; [|eauto].
  destruct (split_second fence text) as [after E]; [discriminate|exact C|].
  unfold index. rewrite E.
  destruct (PyStr.split "```" after) as [|inside l] eqn:S.
  - exfalso. exact (split_go_nonempty _ _ _ _ S).
  - cbn [nth_error]. eauto.
Qed.

Lemma fenced_block (pre body post : string) :
  starts_within fence pre (fence ++ body ++ "```" ++ post) = false ->
  PyStr.contains fence (body ++ "```" ++ post) = false ->
  starts_within "```" body ("```" ++ post) = false ->
  fenced (pre ++ fence ++ body ++ "```" ++ post) = inr (PyStr.strip body).
Proof.
  intros Hpre Hrest Hbody. unfold fenced.
  rewrite (contains_middle fence pre (body ++ "```" ++ post)).
  rewrite split_first by (discriminate || assumption).
  rewrite split_absent by (discriminate || assumption).
  unfold index. cbn [nth_error].
  rewrite split_first by (discriminate || assumption).
  reflexivity.
Qed.

(** X2: [get_itinerary] sends the vacation as one user message and does
    not record the reply: the conversation grows by exactly that message.  An
    error of the chat leaves it unchanged.  The reply, stripped, is printed
    before it is parsed, and an error of the printing is raised.  Once
    printed, a reply without a json fence is validated whole; a reply
    [pre ++ fence ++ body ++ closing fence ++ post] is validated on
    [strip body] alone. *)
Theorem get_itinerary_reads_fenced_json (vacation_info : VacationInfo)
  (m : option OpenAIModel) (s : state) :
  let get := get_itinerary VacationInfo_model_dump_json
               TravelPlan_model_validate_json vacation_info m in
  let asked := chat (VacationInfo_model_dump_json vacation_info) false
                 (py_or m (model s)) s in
  messages (snd (get s))
  = (messages s
     ++ [Message "user" (Some (VacationInfo_model_dump_json vacation_info))])%list
  /\ (forall e s1, asked = (inl e, s1) -> get s = (inl e, s1))
  /\ (forall r s1,
        asked = (inr r, s1) ->
        let response := PyStr.strip (PyStr.or_empty r) in
        let text := PyStr.strip response in
        (forall e, console_print response = inl e -> get s = (inl e, s1))
        /\ (console_print response = inr tt ->
            (PyStr.contains fence text = false ->
             get s = (TravelPlan_model_validate_json text, s1))
            /\ (forall pre body post,
                  text = pre ++ fence ++ body ++ "```" ++ post ->
                  starts_within fence pre (fence ++ body ++ "```" ++ post)
                  = false ->
                  PyStr.contains fence (body ++ "```" ++ post) = false ->
                  starts_within "```" body ("```" ++ post) = false ->
                  get s
                  = (TravelPlan_model_validate_json (PyStr.strip body), s1)))).
Proof.
  intros get asked.
  assert (Hmsg : messages (snd asked)
                 = (messages s
                    ++ [Message "user"
                          (Some (VacationInfo_model_dump_json vacation_info))])%list)
    by apply chat_unrecorded.
  subst get. unfold get_itinerary, bind, lift. fold asked.
  destruct asked as [[e|r] s1]; cbn [snd] in Hmsg.
  - split; [exact Hmsg|].
    split; [intros e' s' H; injection H as <- <-; reflexivity | discriminate].
  - split; [|split; [discriminate|]].
    + destruct (console_print _); [exact Hmsg|].
      destruct (fenced_returns (PyStr.strip (PyStr.strip (PyStr.or_empty r))))
        as [t ->].
      exact Hmsg.
    + intros r' s1' E. injection E as <- <-. cbn zeta. split.
      * intros e P. rewrite P. reflexivity.
      * intros P. rewrite P. split.
        -- intros C. unfold fenced. rewrite C. reflexivity.
        -- intros pre body post T Hpre Hrest Hbody.
           rewrite T, fenced_block by assumption. reflexivity.
Qed.

End MoreAgentFacts.

Section FinalAnswerFacts.

Context `{X : Collaborators}.

(** X22: A pass whose action names ["final_answer_tool"] validates the
    value under ["final_output"] of the arguments, or the whole mapping of
    arguments when that key is absent.  If the validation succeeds the loop
    returns the validated plan, and so does [run_react_cycle]; if it fails
    the loop appends a user message with the validation error, prints the
    error, and goes on with the remaining passes when the printing returns
    (it raises the error of the printing otherwise).  Conversely, whenever
    [run_react_cycle] returns a plan, the last model response carried a
    final-answer action whose payload validated to that plan. *)
Theorem final_answer_validated_or_observed (m : option OpenAIModel)
  (c : option Client) :
  (forall (s s1 : state) (r : option string) (obj arguments : pydict)
          (n : nat) (last : option string),
      get_response true m c s = (inr r, s1) ->
      PyStr.contains "ACTION:" (PyStr.or_empty r) = true ->
      json_loads (action_string (PyStr.or_empty r)) = Some (JDict obj) ->
      requested_tool obj = JStr "final_answer_tool" ->
      lookup "arguments" obj = Some (JDict arguments) ->
      react_for (S n) m c last s
      = match TravelPlan_model_validate (final_payload arguments) with
        | inr plan => (inr (inl plan), s1)
        | inl e =>
            let observed :=
              appended s1
                (Message "user"
                   (Some ("Error validating final answer: " ++ exn_str e))) in
            match
              console_print
                ("!!! final itinerary Validation failed: " ++ exn_str e)
            with
            | inr _ => react_for n m c (Some (PyStr.or_empty r)) observed
            | inl e' => (inl e', observed)
            end
        end)
  /\ (forall (p plan : TravelPlan) (max_steps : Z) (s s1 : state)
             (r : option string) (obj arguments : pydict),
        (0 < max_steps)%Z ->
        get_response true m c (appended s (revision_request p)) = (inr r, s1) ->
        PyStr.contains "ACTION:" (PyStr.or_empty r) = true ->
        json_loads (action_string (PyStr.or_empty r)) = Some (JDict obj) ->
        requested_tool obj = JStr "final_answer_tool" ->
        lookup "arguments" obj = Some (JDict arguments) ->
        TravelPlan_model_validate (final_payload arguments) = inr plan ->
        run_react_cycle p max_steps m c s = (inr plan, s1))
  /\ (forall (p plan : TravelPlan) (max_steps : Z) (s s' : state),
        run_react_cycle p max_steps m c s = (inr plan, s') ->
        exists s0 r obj arguments,
          get_response true m c s0 = (inr r, s')
          /\ PyStr.contains "ACTION:" (PyStr.or_empty r) = true
          /\ json_loads (action_string (PyStr.or_empty r)) = Some (JDict obj)
          /\ requested_tool obj = JStr "final_answer_tool"
          /\ lookup "arguments" obj = Some (JDict arguments)
          /\ TravelPlan_model_validate (final_payload arguments) = inr plan).
Proof.
  assert (step : forall (s s1 : state) r obj arguments n last,
      get_response true m c s = (inr r, s1) ->
      PyStr.contains "ACTION:" (PyStr.or_empty r) = true ->
      json_loads (action_string (PyStr.or_empty r)) = Some (JDict obj) ->
      requested_tool obj = JStr "final_answer_tool" ->
      lookup "arguments" obj = Some (JDict arguments) ->
      react_for (S n) m c last s
      = match TravelPlan_model_validate (final_payload arguments) with
        | inr plan => (inr (inl plan), s1)
        | inl e =>
            match
              console_print
                ("!!! final itinerary Validation failed: " ++ exn_str e)
            with
            | inr _ =>
                react_for n m c (Some (PyStr.or_empty r))
                  (appended s1
                     (Message "user"
                        (Some ("Error validating final answer: "
                               ++ exn_str e))))
            | inl e' =>
                (inl e',
                 appended s1
                   (Message "user"
                      (Some ("Error validating final answer: "
                             ++ exn_str e))))
            end
        end).
  { intros s s1 r obj arguments n last G C J R A.
    cbn [react_for]. unfold bind at 1. unfold react_step, bind at 1.
    rewrite G. rewrite handle_marker by assumption. rewrite J.
    rewrite (dispatch_final_answer _ obj arguments) by
      (try assumption; rewrite R; reflexivity).
    destruct (TravelPlan_model_validate _); [|reflexivity].
    destruct (console_print _); reflexivity. }
  split; [exact step|]. split.
  - intros p plan max_steps s s1 r obj arguments Hpos G C J R A V.
    rewrite run_react_cycle_unfold.
    destruct (Z.to_nat max_steps) as [|n] eqn:N; [lia|].
    rewrite (step _ _ _ _ _ n None G C J R A), V. reflexivity.
  - intros p plan max_steps s s' H. rewrite run_react_cycle_unfold in H.
    destruct (react_for _ _ _ _ _) as [[e|[plan'|resp]] s2] eqn:E;
      try discriminate.
    injection H as <- <-.
    exact (react_for_returns _ _ _ _ _ _ _ E).
Qed.

(** X23: For every positive [max_steps], if [max_steps] passes elapse, none
    returning a plan or raising, [run_react_cycle] raises a [RuntimeError]
    whose message ends with the last value of [resp], which is the response
    of the last model call.  In particular, with [max_steps = 1] and a pass
    that elapses, the run raises this error with the response of that pass;
    and the pass does elapse when the model responds, the response is
    printed, the decoded action, if any, is a mapping, and a final answer in
    it fails validation with an error that is printed. *)
Theorem exhaustion_raises_with_last_response (m : option OpenAIModel)
  (c : option Client) (p : TravelPlan) (s : state) :
  (forall (max_steps : Z) (resps : list string) (s' : state),
      (0 < max_steps)%Z ->
      List.length resps = Z.to_nat max_steps ->
      elapses m c (appended s (revision_request p)) resps s' ->
      let resp := List.last resps EmptyString in
      let message :=
        "ReAct cycle did not complete within " ++ PyStr.str_of_Z max_steps
        ++ " steps. Last response: " ++ resp in
      run_react_cycle p max_steps m c s = (inl (Exn RuntimeError message), s')
      /\ PyStr.contains resp message = true
      /\ exists s0 r s1,
           elapses m c (appended s (revision_request p)) (removelast resps) s0
           /\ get_response true m c s0 = (inr r, s1)
           /\ resp = PyStr.or_empty r)
  /\ (forall (resp : string) (s' : state),
        react_step m c (appended s (revision_request p))
        = (inr (resp, None), s') ->
        run_react_cycle p 1 m c s
        = (inl (Exn RuntimeError
                  ("ReAct cycle did not complete within 1 steps. "
                   ++ "Last response: " ++ resp)), s'))
  /\ (forall (r : option string) (s1 : state),
        get_response true m c (appended s (revision_request p))
        = (inr r, s1) ->
        let resp := PyStr.or_empty r in
        (forall v,
            PyStr.contains "ACTION:" resp = true ->
            json_loads (action_string resp) = Some v -> is_dict v = true) ->
        (forall obj arguments,
            PyStr.contains "ACTION:" resp = true ->
            json_loads (action_string resp) = Some (JDict obj) ->
            requested_tool obj = JStr "final_answer_tool" ->
            lookup "arguments" obj = Some (JDict arguments) ->
            exists e,
              TravelPlan_model_validate (final_payload arguments) = inl e
              /\ console_print
                   ("!!! final itinerary Validation failed: " ++ exn_str e)
                 = inr tt) ->
        exists s',
          run_react_cycle p 1 m c s
          = (inl (Exn RuntimeError
                    ("ReAct cycle did not complete within 1 steps. "
                     ++ "Last response: " ++ resp)), s')).
Proof.
  assert (general : forall (max_steps : Z) (resps : list string) (s' : state),
      (0 < max_steps)%Z ->
      List.length resps = Z.to_nat max_steps ->
      elapses m c (appended s (revision_request p)) resps s' ->
      run_react_cycle p max_steps m c s
      = (inl (Exn RuntimeError
                ("ReAct cycle did not complete within "
                 ++ PyStr.str_of_Z max_steps ++ " steps. Last response: "
                 ++ List.last resps EmptyString)), s')).
  { intros max_steps resps s' Hpos L H.
    rewrite run_react_cycle_unfold, <- L, (react_for_elapses _ _ _ _ _ H).
    destruct resps as [|resp resps]; [simpl in L; lia|].
    unfold exhausted. cbn [map]. rewrite !last_cons_default.
    replace (List.last (map Some resps) (Some resp))
      with (Some (List.last resps resp)); [reflexivity|].
    clear. revert resp. induction resps as [|x l IH]; intros resp;
      [reflexivity|].
    cbn [map]. rewrite !last_cons_default. apply IH. }
  split; [|].
  { intros max_steps resps s' Hpos L H resp message. split; [|split].
    + apply general; assumption.
    + subst message.
      apply contains_app_r, contains_app_r, contains_app_r.
      apply contains_refl.
    + destruct (elapses_last _ _ _ _ _ H) as (s0 & r & s1 & H0 & G & E & _).
      * intros ->. simpl in L. lia.
      * exists s0, r, s1. auto. }
  assert (single : forall (resp : string) (s' : state),
      react_step m c (appended s (revision_request p))
      = (inr (resp, None), s') ->
      run_react_cycle p 1 m c s
      = (inl (Exn RuntimeError
                ("ReAct cycle did not complete within 1 steps. "
                 ++ "Last response: " ++ resp)), s')).
  { intros resp s' E.
    apply (general 1%Z [resp] s'); [lia | reflexivity |].
    econstructor; [exact E | constructor]. }
  split; [exact single|].
  intros r s1 G resp Hmap Hfinal.
  destruct (handle_response_elapses resp s1 Hmap Hfinal) as [s' E].
  exists s'. apply single. unfold react_step, bind. rewrite G. exact E.
Qed.

End FinalAnswerFacts.

Section LoopFacts.

Context `{X : Collaborators}.

Local Open Scope list_scope.

Lemma extends_refl (s : state) : extends s s [] [].
Proof. unfold extends. rewrite !app_nil_r. auto. Qed.

Lemma extends_trans (s s1 s2 : state) (r1 r2 : list message)
  (n1 n2 : list (string * pydict)) :
  extends s s1 r1 n1 -> extends s1 s2 r2 n2 ->
  extends s s2 (r1 ++ r2) (n1 ++ n2).
Proof.
  intros (M1 & I1 & C1 & O1) (M2 & I2 & C2 & O2). unfold extends.
  rewrite M2, M1, I2, I1, C2, C1, O2, O1, !app_assoc. auto.
Qed.

Lemma extends_appended (s : state) (msg : message) :
  extends s (appended s msg) [msg] [].
Proof. unfold extends. cbn. rewrite app_nil_r. auto. Qed.

Lemma get_observation_string_effects (obj : pydict) (s : state) :
  exists obs s' new,
    get_observation_string obj s = (inr obs, s')
    /\ extends s s' [] new
    /\ (new = []
        \/ exists n arguments,
             requested_tool obj = JStr n /\ registered n
             /\ new = [(n, arguments)]).
Proof.
  unfold get_observation_string, mem, getitem, lift, bind, ret, requested_tool.
  destruct (lookup "tool_name" obj) as [t|]; cbn [negb];
    [|eauto 8 using extends_refl].
  destruct (lookup "arguments" obj) as [a|]; cbn [negb];
    [|eauto 8 using extends_refl].
  destruct a as [ | | | | | |arguments]; eauto 8 using extends_refl.
  destruct t as [ | | | |n| | ]; eauto 8 using extends_refl.
  destruct (find_tool ALL_TOOLS n) as [tl|] eqn:F;
    [|eauto 8 using extends_refl].
  destruct (find_tool_some _ _ _ F) as [Hin Hname].
  unfold try_except, call_tool, bind.
  assert (R : registered n) by (rewrite <- Hname; apply in_map; exact Hin).
  destruct (tool_fn tl arguments (env s)) as [[e|r] w];
    (eexists _, _, [(n, arguments)]; split; [reflexivity|]; split;
     [unfold extends; cbn; rewrite app_nil_r, Hname; auto
     | right; eauto]).
Qed.

Lemma model_call_effects (m : option OpenAIModel) (c : option Client)
  (s : state) : extends s (snd (model_call m c s)) [] [].
Proof.
  unfold model_call, do_chat_completion, raise.
  destruct (py_or c (client s)); [|apply extends_refl].
  destruct (py_or m (model s)); [|apply extends_refl].
  destruct (chat_completions_create _ _ _ _) as [[e|resp] w].
  - unfold extends. cbn. rewrite !app_nil_r. auto.
  - destruct (error resp); unfold extends; cbn; rewrite !app_nil_r; auto.
Qed.

Lemma get_response_effects (m : option OpenAIModel) (c : option Client)
  (s : state) :
  match model_call m c s with
  | (inl _, _) => extends s (snd (get_response true m c s)) [] []
  | (inr r, _) =>
      extends s (snd (get_response true m c s)) [Message "assistant" r] []
  end.
Proof.
  rewrite get_response_unfold. pose proof (model_call_effects m c s) as G.
  destruct (model_call m c s) as [[e|r] s1]; cbn [snd] in *; [exact G|].
  pose proof (extends_trans _ _ _ _ _ _ _ G
                (extends_appended s1 (Message "assistant" r))) as T.
  exact T.
Qed.

Lemma dispatch_action_effects (resp : string) (v : json) (s : state) :
  exists tail new,
    extends s (snd (dispatch_action resp v s)) tail new
    /\ at_most_one_observation tail
    /\ (new = [] \/ exists entry, new = [entry] /\ dispatched entry).
Proof.
  destruct (is_dict v) eqn:D.
  2:{ rewrite dispatch_non_mapping by assumption.
      exists [], []. split; [apply extends_refl|]. split; left; reflexivity. }
  destruct v as [ | | | | | |obj]; try discriminate.
  destruct (eq_str (requested_tool obj) "final_answer_tool") eqn:F.
  - destruct (lookup "arguments" obj) as [[ | | | | | |arguments]|] eqn:A.
    7:{ rewrite (dispatch_final_answer resp obj arguments s F A).
        destruct (TravelPlan_model_validate _).
        - eexists _, []. cbn [snd]. split; [apply extends_appended|].
          split; [right; eauto | left; reflexivity].
        - exists [], []. split; [apply extends_refl|].
          split; left; reflexivity. }
    all: destruct (dispatch_final_answer_bad_arguments resp obj s F) as [obs E];
      [intros arguments; rewrite A; discriminate|];
      rewrite E; eexists _, []; (split; [apply extends_appended|]);
      (split; [right; eauto | left; reflexivity]).
  - destruct (dispatch_other_tool resp obj s F) as (obs & s' & G & _ & E).
    destruct (get_observation_string_effects obj s)
      as (obs' & s'' & new & G' & Ext & Hnew).
    rewrite G in G'. injection G' as <- <-.
    rewrite E. cbn [snd].
    exists [Message "user" (Some obs)], new. split; [|split].
    + pose proof (extends_trans _ _ _ _ _ _ _ Ext
                    (extends_appended s' (Message "user" (Some obs)))) as T.
      rewrite app_nil_r in T. exact T.
    + right. eauto.
    + destruct Hnew as [->|(n & arguments & R & Hr & ->)]; [left; reflexivity|].
      right. eexists. split; [reflexivity|]. split; [exact Hr|].
      cbn [fst]. intros ->. rewrite R in F. discriminate F.
Qed.

Lemma handle_response_effects (resp : string) (s : state) :
  exists tail new,
    extends s (snd (handle_response resp s)) tail new
    /\ at_most_one_observation tail
    /\ (new = [] \/ exists entry, new = [entry] /\ dispatched entry).
Proof.
  destruct (PyStr.contains "ACTION:" resp) eqn:C.
  - rewrite handle_marker by assumption.
    destruct (json_loads (action_string resp)) as [v|].
    + apply dispatch_action_effects.
    + eexists _, []. split; [apply extends_appended|].
      split; [right; eauto | left; reflexivity].
  - rewrite handle_no_action by assumption.
    eexists _, []. split; [apply extends_appended|].
    split; [right; eauto | left; reflexivity].
Qed.

Lemma react_step_effects (m : option OpenAIModel) (c : option Client)
  (s : state) :
  exists rest new,
    extends s (snd (react_step m c s)) rest new
    /\ (rest = []
        \/ exists r tail,
             rest = Message "assistant" r :: tail
             /\ at_most_one_observation tail)
    /\ (new = [] \/ exists entry, new = [entry] /\ dispatched entry).
Proof.
  pose proof (get_response_effects m c s) as G.
  pose proof (get_response_unfold m c s) as U.
  unfold react_step, bind.
  destruct (model_call m c s) as [[e|r] s1].
  - rewrite U. exists [], []. rewrite U in G. cbn [snd] in *. auto.
  - destruct (get_response true m c s) as [[e|r'] s2] eqn:E; cbn [snd] in G.
    + exists [Message "assistant" r], []. cbn [snd].
      split; [exact G|]. split; [|left; reflexivity].
      right. exists r, []. split; [reflexivity | left; reflexivity].
    + destruct (handle_response_effects (PyStr.or_empty r') s2)
        as (tail & new & Ext & T & N).
      exists (Message "assistant" r :: tail), new. split; [|split].
      * exact (extends_trans _ _ _ _ _ _ _ G Ext).
      * right. eauto.
      * exact N.
Qed.

Lemma at_most_one_length (tail : list message) :
  at_most_one_observation tail ->
  (List.length tail <= 1)%nat /\ assistant_count tail = 0%nat.
Proof. intros [->|[obs ->]]; cbn; auto. Qed.

Lemma assistant_count_app (a b : list message) :
  assistant_count (a ++ b) = (assistant_count a + assistant_count b)%nat.
Proof. unfold assistant_count. rewrite filter_app, length_app. reflexivity. Qed.

Lemma react_for_effects (m : option OpenAIModel) (c : option Client)
  (n : nat) :
  forall (last : option string) (s : state),
  exists rest new,
    extends s (snd (react_for n m c last s)) rest new
    /\ (List.length rest <= 2 * n)%nat
    /\ (assistant_count rest <= n)%nat
    /\ (List.length new <= n)%nat
    /\ Forall dispatched new.
Proof.
  induction n as [|n IH]; intros last s.
  - exists [], []. cbn. split; [apply extends_refl | auto].
  - cbn [react_for]. unfold bind.
    destruct (react_step_effects m c s) as (rest & new & Ext & R & N).
    assert (B : (List.length rest <= 2)%nat /\ (assistant_count rest <= 1)%nat
                /\ (List.length new <= 1)%nat /\ Forall dispatched new).
    { split; [|split; [|split]].
      - destruct R as [->|(r & tail & -> & T)]; [cbn; lia|].
        apply at_most_one_length in T. cbn [List.length]. lia.
      - destruct R as [->|(r & tail & -> & T)]; [cbn; lia|].
        apply at_most_one_length in T.
        change (Message "assistant" r :: tail)
          with ([Message "assistant" r] ++ tail)%list.
        rewrite assistant_count_app. cbn. lia.
      - destruct N as [->|(entry & -> & _)]; cbn; lia.
      - destruct N as [->|(entry & -> & D)];
          [constructor | constructor; [exact D | constructor]]. }
    destruct B as (B1 & B2 & B3 & B4).
    destruct (react_step m c s) as [[e|[resp [plan|]]] s1]; cbn [snd] in *.
    1,2: exists rest, new; repeat split; try apply Ext; try lia; exact B4.
    destruct (IH (Some resp) s1) as (rest' & new' & Ext' & L1 & L2 & L3 & F).
    exists (rest ++ rest'), (new ++ new'). split; [|split; [|split; [|split]]].
    + exact (extends_trans _ _ _ _ _ _ _ Ext Ext').
    + rewrite length_app. lia.
    + rewrite assistant_count_app. lia.
    + rewrite length_app. lia.
    + apply Forall_app. auto.
Qed.


Lemma react_for_after_elapses (m : option OpenAIModel) (c : option Client)
  (s s' : state) (resps : list string) :
  elapses m c s resps s' ->
  forall k last,
    react_for (List.length resps + k) m c last s
    = react_for k m c (List.last (map Some resps) last) s'.
Proof.
  induction 1 as [s|s s1 s' resp resps E _ IH]; intros k last; [reflexivity|].
  cbn [List.length Nat.add react_for map]. unfold bind. rewrite E, IH.
  rewrite last_cons_default. reflexivity.
Qed.

(** X3: With [max_steps <= 0] the revision loop makes no pass: it raises
    the [RuntimeError] of exhaustion with [Last response: None], no model call
    is made, and the conversation holds the request for revision as its only
    new message. *)
Theorem nonpositive_budget_raises_at_once (p : TravelPlan) (max_steps : Z)
  (m : option OpenAIModel) (c : option Client) (s : state) :
  (max_steps <= 0)%Z ->
  run_react_cycle p max_steps m c s
  = (inl (Exn RuntimeError
            ("ReAct cycle did not complete within "
             ++ PyStr.str_of_Z max_steps
             ++ " steps. Last response: None")),
     appended s (revision_request p)).
Proof.
  intros H. rewrite run_react_cycle_unfold.
  replace (Z.to_nat max_steps) with 0%nat by lia. reflexivity.
Qed.

(** X4: However a run of [run_react_cycle] ends, the conversation it leaves is
    the one it found, then the request for revision, then at most
    [max_steps] assistant messages and at most [2 * max_steps] messages in
    all. *)
Theorem run_conversation_bounded (p : TravelPlan) (max_steps : Z)
  (m : option OpenAIModel) (c : option Client) (s : state) :
  exists rest,
    messages (snd (run_react_cycle p max_steps m c s))
    = messages s ++ revision_request p :: rest
    /\ (assistant_count rest <= Z.to_nat max_steps)%nat
    /\ (List.length rest <= 2 * Z.to_nat max_steps)%nat.
Proof.
  rewrite run_react_cycle_unfold.
  destruct (react_for_effects m c (Z.to_nat max_steps) None
              (appended s (revision_request p)))
    as (rest & new & (Hm & _) & L & A & _).
  exists rest. rewrite messages_appended, <- app_assoc in Hm. cbn [app] in Hm.
  destruct (react_for _ _ _ _ _) as [[e|[plan|resp]] s']; auto.
Qed.

(** X5: However a run of [run_react_cycle] ends, it invoked at most
    [max_steps] tools, each of them registered in [ALL_TOOLS] and none of them
    [final_answer_tool] (the final answer is validated, never called); the
    [client] and [model] attributes of the agent are unchanged. *)
Theorem run_invocations_dispatched (p : TravelPlan) (max_steps : Z)
  (m : option OpenAIModel) (c : option Client) (s : state) :
  let s' := snd (run_react_cycle p max_steps m c s) in
  (exists new,
      invoked s' = invoked s ++ new
      /\ (List.length new <= Z.to_nat max_steps)%nat
      /\ Forall
           (fun entry =>
              registered (fst entry) /\ fst entry <> "final_answer_tool")
           new)
  /\ client s' = client s
  /\ model s' = model s.
Proof.
  cbn zeta. rewrite run_react_cycle_unfold.
  destruct (react_for_effects m c (Z.to_nat max_steps) None
              (appended s (revision_request p)))
    as (rest & new & (_ & Hi & Hc & Ho) & _ & _ & L & F).
  cbn [invoked client model appended set_messages] in Hi, Hc, Ho.
  destruct (react_for _ _ _ _ _) as [[e|[plan|resp]] s']; cbn [snd] in *;
    (split; [exists new; auto | auto]).
Qed.

(** X6: A run with a positive budget on an agent without a client (neither an
    argument nor an attribute) raises [ValueError] "A valid OpenAI client must
    be provided." on its first pass, and one with a client but without a model
    raises [ValueError] "A valid model must be provided."; the conversation
    then holds the request for revision as its only new message. *)
Theorem unconfigured_agent_fails_first_pass (p : TravelPlan) (max_steps : Z)
  (m : option OpenAIModel) (c : option Client) (s : state) :
  (0 < max_steps)%Z ->
  (py_or c (client s) = None ->
   run_react_cycle p max_steps m c s
   = (inl (Exn ValueError "A valid OpenAI client must be provided."),
      appended s (revision_request p)))
  /\ (py_or c (client s) <> None -> py_or m (model s) = None ->
      run_react_cycle p max_steps m c s
      = (inl (Exn ValueError "A valid model must be provided."),
         appended s (revision_request p))).
Proof.
  intros Hpos. rewrite run_react_cycle_unfold.
  destruct (Z.to_nat max_steps) as [|n] eqn:N; [lia|].
  cbn [react_for]. unfold bind at 1. unfold react_step, bind at 1.
  unfold get_response, bind, do_chat_completion, raise.
  cbn [client model appended set_messages].
  split.
  - intros ->. reflexivity.
  - intros Hc ->. destruct (py_or c (client s)); [reflexivity|contradiction].
Qed.

(** X7: An error of the model call, or of printing the response, is not
    caught by the revision loop.  When some passes have elapsed and budget
    remains: if the next model call raises, [run_react_cycle] raises that
    same error and the failed call adds nothing to the conversation; if the
    call returns a response that the console refuses to print,
    [run_react_cycle] raises the error of the printing, after the response
    has been appended as an assistant message. *)
Theorem model_failure_ends_run (p : TravelPlan) (max_steps : Z)
  (m : option OpenAIModel) (c : option Client) (s s1 : state)
  (resps : list string) :
  elapses m c (appended s (revision_request p)) resps s1 ->
  (List.length resps < Z.to_nat max_steps)%nat ->
  (forall e s2,
      model_call m c s1 = (inl e, s2) ->
      run_react_cycle p max_steps m c s = (inl e, s2)
      /\ messages s2 = messages s1)
  /\ (forall r e s2,
        model_call m c s1 = (inr r, s2) ->
        print_content r = inl e ->
        run_react_cycle p max_steps m c s
        = (inl e, appended s2 (Message "assistant" r))
        /\ messages s2 = messages s1).
Proof.
  intros H L. rewrite run_react_cycle_unfold.
  replace (Z.to_nat max_steps)
    with (List.length resps + S (Z.to_nat max_steps - List.length resps - 1))%nat
    by lia.
  rewrite (react_for_after_elapses _ _ _ _ _ H).
  cbn [react_for].
  pose proof (model_call_messages m c s1) as Hm.
  split.
  - intros e s2 G. rewrite G in Hm. split; [|exact Hm].
    unfold bind, react_step, bind. rewrite get_response_unfold, G. reflexivity.
  - intros r e s2 G P. rewrite G in Hm. split; [|exact Hm].
    unfold bind, react_step, bind. rewrite get_response_unfold, G, P.
    reflexivity.
Qed.

End LoopFacts.

(** ** The evaluators *)

Lemma dates_pass_iff (vi : VacationInfo) (p : TravelPlan)
  (fb : option string) :
  eval_start_end_dates_match vi p fb = inr tt
  <-> date_of_arrival vi = start_date p
      /\ date_of_departure vi = end_date p
      /\ date_leb (start_date p) (end_date p) = true.
Proof.
  unfold eval_start_end_dates_match, date_leb.
  destruct (date_eqb (date_of_arrival vi) (start_date p)) eqn:A;
    destruct (date_eqb (date_of_departure vi) (end_date p)) eqn:D;
    cbn [negb orb].
  1: apply date_eqb_eq in A, D;
     destruct (date_gtb (start_date p) (end_date p)); cbn [negb];
     split; try discriminate; auto; intros (_ & _ & H); discriminate H.
  all: split; [discriminate|]; intros (Ha & Hd & _);
    apply date_eqb_eq in Ha, Hd; congruence.
Qed.

Lemma cost_pass_iff (vi : VacationInfo) (p : TravelPlan) (fb : option string) :
  eval_total_cost_is_accurate vi p fb = inr tt
  <-> sum_Z (map price (scheduled_activities p)) = total_cost p.
Proof.
  unfold eval_total_cost_is_accurate. rewrite actual_total_cost_is_sum.
  destruct (Z.eqb_spec (sum_Z (map price (scheduled_activities p)))
              (total_cost p)); cbn [negb]; split; auto; try discriminate.
  contradiction.
Qed.

Lemma budget_pass_iff (vi : VacationInfo) (p : TravelPlan)
  (fb : option string) :
  eval_total_cost_is_within_budget vi p fb = inr tt
  <-> (total_cost p <= budget vi)%Z.
Proof.
  unfold eval_total_cost_is_within_budget.
  destruct (Z.ltb_spec (budget vi) (total_cost p)); split; auto;
    try discriminate; lia.
Qed.

(** ** Texts without a bracket *)

Lemma no_bracket_cons (c : ascii) (s : string) :
  PyStr.contains "[" (String c s)
  = (if ascii_dec "[" c then true else false) || PyStr.contains "[" s.
Proof.
  cbn [PyStr.contains prefix]. destruct (ascii_dec "[" c); [|reflexivity].
  destruct s; reflexivity.
Qed.

Lemma no_bracket_app (a b : string) :
  PyStr.contains "[" a = false -> PyStr.contains "[" b = false ->
  PyStr.contains "[" (a ++ b) = false.
Proof.
  intros Ha Hb. induction a as [|c a IH]; [exact Hb|].
  change (String c a ++ b) with (String c (a ++ b)).
  rewrite no_bracket_cons in *. apply orb_false_iff in Ha as [Hc Ha].
  rewrite Hc, (IH Ha). reflexivity.
Qed.

Lemma no_bracket_uint (d : Decimal.uint) :
  PyStr.contains "[" (NilEmpty.string_of_uint d) = false.
Proof.
  induction d; cbn [NilEmpty.string_of_uint]; [reflexivity|..];
    rewrite no_bracket_cons, IHd; reflexivity.
Qed.

Lemma no_bracket_str_of_Z (z : Z) :
  PyStr.contains "[" (PyStr.str_of_Z z) = false.
Proof.
  unfold PyStr.str_of_Z, NilZero.string_of_int.
  destruct (Z.to_int z) as [d|d]; destruct d; try reflexivity;
    unfold NilEmpty.string_of_int;
    repeat (rewrite no_bracket_cons; cbn [orb]);
    try apply no_bracket_uint;
    cbn [NilEmpty.string_of_uint]; rewrite no_bracket_cons, no_bracket_uint;
    reflexivity.
Qed.

Lemma no_bracket_pad (width : nat) (s : string) :
  PyStr.contains "[" s = false -> PyStr.contains "[" (pad width s) = false.
Proof.
  intros H. unfold pad. apply no_bracket_app; [|exact H].
  induction (width - String.length s)%nat as [|n IH]; [reflexivity|].
  cbn [repeat string_of_list_ascii]. rewrite no_bracket_cons, IH. reflexivity.
Qed.

Lemma no_bracket_date_str (d : date) : PyStr.contains "[" (date_str d) = false.
Proof.
  unfold date_str.
  repeat (apply no_bracket_app;
          [first [apply no_bracket_pad, no_bracket_str_of_Z | reflexivity]|]).
  apply no_bracket_pad, no_bracket_str_of_Z.
Qed.

(** The three evaluators that ask no model fail with an [AgentError] only,
    and its message holds dates and integers, no bracket. *)
Lemma pure_evaluators_raise_AgentError (vi : VacationInfo) (p : TravelPlan)
  (fb : option string) (e : exn) :
  eval_start_end_dates_match vi p fb = inl e
  \/ eval_total_cost_is_accurate vi p fb = inl e
  \/ eval_total_cost_is_within_budget vi p fb = inl e ->
  is_AgentError e = true /\ PyStr.contains "[" (exn_str e) = false.
Proof.
  unfold eval_start_end_dates_match, eval_total_cost_is_accurate,
    eval_total_cost_is_within_budget.
  intros [H|[H|H]];
    repeat match type of H with
           | (if ?b then _ else _) = _ => destruct b
           end;
    try discriminate H; injection H as <-; (split; [reflexivity|]);
    cbn [exn_str];
    repeat (apply no_bracket_app;
            [first [apply no_bracket_date_str | apply no_bracket_str_of_Z
                   | reflexivity]|]);
    first [apply no_bracket_date_str | apply no_bracket_str_of_Z].
Qed.

(** X8: [eval_total_cost_is_within_budget] passes exactly when the stated total
    cost is at most the budget; otherwise it raises an [AgentError] whose
    message carries both amounts.  When it passes together with
    [eval_total_cost_is_accurate], the prices of the scheduled activities sum
    to at most the budget. *)
Theorem within_budget_evaluator (vi : VacationInfo) (p : TravelPlan)
  (fb : option string) :
  (eval_total_cost_is_within_budget vi p fb = inr tt
   <-> (total_cost p <= budget vi)%Z)
  /\ ((budget vi < total_cost p)%Z ->
      exists msg,
        eval_total_cost_is_within_budget vi p fb = inl (Exn AgentError msg)
        /\ PyStr.contains (PyStr.str_of_Z (total_cost p)) msg = true
        /\ PyStr.contains (PyStr.str_of_Z (budget vi)) msg = true)
  /\ (eval_total_cost_is_accurate vi p fb = inr tt ->
      eval_total_cost_is_within_budget vi p fb = inr tt ->
      (sum_Z (map price (scheduled_activities p)) <= budget vi)%Z).
Proof.
  split; [apply budget_pass_iff|]. split.
  - intros H. unfold eval_total_cost_is_within_budget.
    apply Z.ltb_lt in H. rewrite H. eexists. split; [reflexivity|]. split.
    + apply contains_app_r. apply (contains_middle _ EmptyString).
    + apply contains_app_r, contains_app_r, contains_app_r, contains_refl.
  - intros A B. apply cost_pass_iff in A. apply budget_pass_iff in B. lia.
Qed.

Section SuiteFacts.

Context `{X : Collaborators}.
Context {World : Type}.

Lemma eval_for_fatal (vi : VacationInfo) (out : TravelPlan)
  (fb : option string) (before : list (evaluator World)) :
  forall (w w1 : World) (entries : list ((exn + string) * (exn + unit))),
    called_in_order vi out fb w before entries w1 ->
    Forall (fun entry =>
              match snd entry with
              | inl e =>
                  is_AgentError e = true /\ console_print (exn_str e) = inr tt
              | inr _ => True
              end) entries ->
    forall (f : evaluator World) (after : list (evaluator World))
           (e fatal : exn) (w2 : World) (acc : list string)
           (log : list ((exn + string) * (exn + unit))),
      eval_fn f vi out fb w1 = (inl e, w2) ->
      (is_AgentError e = false /\ fatal = e)
      \/ (is_AgentError e = true /\ console_print (exn_str e) = inl fatal) ->
      eval_for (before ++ f :: after) vi out fb acc
        {| world := w; evaluated := log |}
      = (inl fatal,
         {| world := w2;
            evaluated := log ++ entries ++ [(fn_name f, inl e)] |}).
Proof.
  induction 1 as [w|w w1 w' g fns r entries E _ IH];
    intros Hall f after e fatal w2 acc log Ef He.
  - cbn [app eval_for world evaluated]. rewrite Ef.
    destruct He as [[-> ->]|[-> ->]]; reflexivity.
  - inversion Hall as [|? ? Hr Hrest]; subst. cbn [snd] in Hr.
    cbn [app eval_for world evaluated]. rewrite E.
    destruct r as [e0|u].
    + destruct Hr as [-> ->].
      rewrite (IH Hrest f after e fatal w2 _ _ Ef He), <- !app_assoc.
      reflexivity.
    + rewrite (IH Hrest f after e fatal w2 _ _ Ef He), <- !app_assoc.
      reflexivity.
Qed.

(** X9: The first failure that is not a printed [AgentError] ends
    [get_eval_results].  When the evaluators before [f] passed or raised an
    [AgentError] whose message the console printed: if [f] raises another
    error, [get_eval_results] raises that error; if [f] raises an
    [AgentError] whose message the console refuses, [get_eval_results]
    raises the error of the printing.  Either way no result is built and the
    evaluators after [f] are not called. *)
Theorem fatal_evaluator_stops_suite (vi : VacationInfo) (out : TravelPlan)
  (fb : option string) (before after : list (evaluator World))
  (f : evaluator World) (s : eval_state World) (w1 w2 : World)
  (entries : list ((exn + string) * (exn + unit))) (e : exn) :
  called_in_order vi out fb (world s) before entries w1 ->
  Forall (fun entry =>
            match snd entry with
            | inl e =>
                is_AgentError e = true /\ console_print (exn_str e) = inr tt
            | inr _ => True
            end) entries ->
  eval_fn f vi out fb w1 = (inl e, w2) ->
  let stopped :=
    {| world := w2;
       evaluated := evaluated s ++ entries ++ [(fn_name f, inl e)] |} in
  (is_AgentError e = false ->
   get_eval_results vi out (before ++ f :: after) fb s = (inl e, stopped))
  /\ (forall e',
        is_AgentError e = true ->
        console_print (exn_str e) = inl e' ->
        get_eval_results vi out (before ++ f :: after) fb s
        = (inl e', stopped)).
Proof.
  intros H Hall Ef stopped. subst stopped. unfold get_eval_results.
  destruct s as [w log]. cbn [world evaluated] in *. split.
  - intros He.
    rewrite (eval_for_fatal vi out fb before w w1 entries H Hall f after e e
               w2 [] log Ef (or_introl (conj He eq_refl))).
    reflexivity.
  - intros e' He P.
    rewrite (eval_for_fatal vi out fb before w w1 entries H Hall f after e e'
               w2 [] log Ef (or_intror (conj He P))).
    reflexivity.
Qed.

(** X10: [get_eval_results] on the dates, cost-accuracy and budget evaluators
    returns a result, leaves the world as it was, and reports success exactly
    when the plan has the dates of the vacation, does not end before it
    starts, states the sum of the prices of its activities as its total cost,
    and that total is within the budget. *)
Theorem pure_suite_success (vi : VacationInfo) (p : TravelPlan)
  (fb : option string) (s : eval_state World) :
  let suite : list (evaluator World) :=
    [ pure_evaluator "eval_start_end_dates_match" eval_start_end_dates_match;
      pure_evaluator "eval_total_cost_is_accurate" eval_total_cost_is_accurate;
      pure_evaluator "eval_total_cost_is_within_budget"
        eval_total_cost_is_within_budget ] in
  exists res s',
    get_eval_results vi p suite fb s = (inr res, s')
    /\ world s' = world s
    /\ (success res = true
        <-> date_of_arrival vi = start_date p
            /\ date_of_departure vi = end_date p
            /\ date_leb (start_date p) (end_date p) = true
            /\ sum_Z (map price (scheduled_activities p)) = total_cost p
            /\ (total_cost p <= budget vi)%Z).
Proof.
  cbn zeta. unfold get_eval_results.
  cbn [eval_for names_of pure_evaluator eval_fn fn_name world evaluated].
  pose proof (dates_pass_iff vi p fb) as D.
  pose proof (cost_pass_iff vi p fb) as C.
  pose proof (budget_pass_iff vi p fb) as B.
  destruct (eval_start_end_dates_match vi p fb) as [e1|u1] eqn:E1;
    destruct (eval_total_cost_is_accurate vi p fb) as [e2|u2] eqn:E2;
    destruct (eval_total_cost_is_within_budget vi p fb) as [e3|u3] eqn:E3;
    try destruct u1; try destruct u2; try destruct u3;
    repeat match goal with
      | H : eval_start_end_dates_match vi p fb = inl ?e |- _ =>
          destruct (pure_evaluators_raise_AgentError vi p fb e
                      (or_introl H)) as [-> ->%console_print_plain];
          clear H
      | H : eval_total_cost_is_accurate vi p fb = inl ?e |- _ =>
          destruct (pure_evaluators_raise_AgentError vi p fb e
                      (or_intror (or_introl H)))
            as [-> ->%console_print_plain];
          clear H
      | H : eval_total_cost_is_within_budget vi p fb = inl ?e |- _ =>
          destruct (pure_evaluators_raise_AgentError vi p fb e
                      (or_intror (or_intror H)))
            as [-> ->%console_print_plain];
          clear H
      end;
    eexists _, _; (split; [reflexivity|]); (split; [reflexivity|]);
    cbn [success List.length Nat.eqb app];
    assert (T : @inr exn unit tt = inr tt) by reflexivity;
    intuition (try discriminate; try congruence).
Qed.

End SuiteFacts.

Section DictionaryFacts.

Local Open Scope list_scope.

(** ** Dictionaries *)

Lemma dict_set_fresh {V} (k : string) (v : V) (d : list (string * V)) :
  ~ In k (map fst d) -> dict_set k v d = d ++ [(k, v)].
Proof.
  induction d as [|[k' v'] d IH]; intros H; [reflexivity|].
  cbn [dict_set]. cbn [map fst In] in H.
  destruct (String.eqb_spec k' k) as [E|E]; [tauto|].
  rewrite IH by tauto. reflexivity.
Qed.

Lemma dict_get_in {V} (d : list (string * V)) (e : string * V) :
  NoDup (map fst d) -> In e d -> dict_get (fst e) d = Some (snd e).
Proof.
  induction d as [|[k v] d IH]; intros N H; [contradiction|].
  cbn [map fst] in N. inversion N as [|? ? Hk Hd]; subst.
  cbn [dict_get]. destruct H as [<-|H].
  - cbn [fst snd]. rewrite String.eqb_refl. reflexivity.
  - destruct (String.eqb_spec k (fst e)) as [E|E]; [|auto].
    exfalso. apply Hk. rewrite E. apply in_map. exact H.
Qed.

Lemma bump_keys (k : string) (n : nat) (d : list (string * nat)) :
  map fst (bump k n d) = map fst d.
Proof.
  unfold bump. rewrite map_map. apply map_ext.
  intros e. destruct (fst e =? k)%string; reflexivity.
Qed.

Lemma bump_absent (k : string) (n : nat) (d : list (string * nat)) :
  ~ In k (map fst d) -> bump k n d = d.
Proof.
  unfold bump. induction d as [|e d IH]; intros H; [reflexivity|].
  cbn [map In] in *. destruct (String.eqb_spec (fst e) k); [tauto|].
  rewrite IH by tauto. reflexivity.
Qed.

Lemma bump_zero (k : string) (d : list (string * nat)) : bump k 0 d = d.
Proof.
  unfold bump. induction d as [|[k' v] d IH]; [reflexivity|].
  cbn [map fst snd]. rewrite IH, Nat.add_0_r.
  destruct (k' =? k)%string; reflexivity.
Qed.

Lemma bump_bump (k : string) (a b : nat) (d : list (string * nat)) :
  bump k a (bump k b d) = bump k (b + a) d.
Proof.
  unfold bump. rewrite map_map. apply map_ext. intros [k' v]. cbn [fst snd].
  destruct (String.eqb_spec k' k) as [E|E]; cbn [fst snd].
  - rewrite E, String.eqb_refl. f_equal. lia.
  - destruct (String.eqb_spec k' k); [contradiction | reflexivity].
Qed.

Lemma dict_incr_bump (k : string) (d : list (string * nat)) :
  NoDup (map fst d) -> dict_incr k d = bump k 1 d.
Proof.
  unfold dict_incr. induction d as [|[k' v] d IH]; intros N; [reflexivity|].
  cbn [map fst] in N. inversion N as [|? ? Hk Hd]; subst.
  cbn [dict_get]. unfold bump. cbn [map fst snd].
  destruct (String.eqb_spec k' k) as [E|E].
  - cbn [dict_set]. rewrite E, String.eqb_refl.
    fold (bump k 1 d). rewrite bump_absent by (rewrite <- E; exact Hk).
    rewrite Nat.add_1_r. reflexivity.
  - fold (bump k 1 d). rewrite <- (IH Hd).
    destruct (dict_get k d); [|reflexivity].
    cbn [dict_set]. destruct (String.eqb_spec k' k); [contradiction|].
    reflexivity.
Qed.

Lemma length_filter_map {A B} (g : A -> B) (f : B -> bool) (l : list A) :
  List.length (filter (fun x => f (g x)) l)
  = List.length (filter f (map g l)).
Proof.
  induction l as [|x l IH]; [reflexivity|]. cbn [filter map].
  destruct (f (g x)); cbn [List.length]; congruence.
Qed.

Lemma filter_map_swap {A B} (g : A -> B) (f : B -> bool) (l : list A) :
  filter f (map g l) = map g (filter (fun x => f (g x)) l).
Proof.
  induction l as [|x l IH]; [reflexivity|]. cbn [filter map].
  destruct (f (g x)); cbn [map]; congruence.
Qed.

(** ** The interests evaluator *)

Lemma hits_of_day (k : string) (ints : list Interest)
  (recs : list ActivityRecommendation) :
  forall counts,
    NoDup (map fst counts) ->
    fold_left
      (fun counts r =>
         if intersects ints (related_interests (activity r))
         then dict_incr k counts else counts)
      recs counts
    = bump k
        (List.length
           (filter (fun a => intersects ints (related_interests a))
              (map activity recs)))
        counts.
Proof.
  induction recs as [|r recs IH]; intros counts N.
  - cbn. rewrite bump_zero. reflexivity.
  - cbn [fold_left map filter].
    destruct (intersects ints (related_interests (activity r))).
    + rewrite dict_incr_bump by exact N.
      rewrite IH by (rewrite bump_keys; exact N).
      rewrite bump_bump. reflexivity.
    + apply IH. exact N.
Qed.

Lemma hits_of_plan (k : string) (ints : list Interest) (p : TravelPlan) :
  forall counts,
    NoDup (map fst counts) ->
    fold_left
      (fun counts d =>
         fold_left
           (fun counts r =>
              if intersects ints (related_interests (activity r))
              then dict_incr k counts else counts)
           (activity_recommendations d) counts)
      (itinerary_days p) counts
    = bump k (List.length (matching_activities ints p)) counts.
Proof.
  unfold matching_activities, scheduled_activities.
  induction (itinerary_days p) as [|d days IH]; intros counts N.
  - cbn. rewrite bump_zero. reflexivity.
  - cbn [fold_left flat_map]. rewrite hits_of_day by exact N.
    rewrite IH by (rewrite bump_keys; exact N).
    rewrite bump_bump, filter_app, length_app. reflexivity.
Qed.

Lemma bump_each (h : string -> nat) (suf : list (string * list Interest)) :
  NoDup (map fst suf) ->
  forall counts,
    fold_left (fun counts e => bump (fst e) (h (fst e)) counts) suf counts
    = map (fun x =>
             if existsb (String.eqb (fst x)) (map fst suf)
             then (fst x, (snd x + h (fst x))%nat) else x)
        counts.
Proof.
  induction suf as [|e suf IH]; intros N counts.
  - cbn. symmetry. apply map_id.
  - cbn [map] in N. inversion N as [|? ? Hk Hd]; subst.
    cbn [fold_left]. rewrite (IH Hd). unfold bump. rewrite map_map.
    apply map_ext. intros [k v]. cbn [fst snd map existsb].
    destruct (String.eqb_spec k (fst e)) as [E|E]; cbn [fst snd orb].
    + destruct (existsb (String.eqb k) (map fst suf)) eqn:Ex; [|congruence].
      exfalso. apply Hk. apply existsb_exists in Ex as (y & Hy & Ey).
      apply String.eqb_eq in Ey. congruence.
    + reflexivity.
Qed.

Lemma count_hits_spec (ti : list (string * list Interest)) (p : TravelPlan) :
  NoDup (map fst ti) ->
  count_hits ti p (map (fun e => (fst e, 0%nat)) ti)
  = map (fun e => (fst e, List.length (matching_activities (snd e) p))) ti.
Proof.
  intros N. unfold count_hits.
  set (h := fun k =>
              List.length
                (matching_activities
                   (match dict_get k ti with
                    | Some ints => ints
                    | None => []
                    end) p)).
  assert (G : forall (suf : list (string * list Interest))
                     (counts : list (string * nat)),
             NoDup (map fst counts) ->
             fold_left
               (fun counts entry =>
                  fold_left
                    (fun counts d =>
                       fold_left
                         (fun counts r =>
                            if intersects
                                 (match dict_get (fst entry) ti with
                                  | Some ints => ints
                                  | None => []
                                  end)
                                 (related_interests (activity r))
                            then dict_incr (fst entry) counts else counts)
                         (activity_recommendations d) counts)
                    (itinerary_days p) counts)
               suf counts
             = fold_left (fun counts e => bump (fst e) (h (fst e)) counts)
                 suf counts).
  { induction suf as [|e suf IH]; intros counts Nc; [reflexivity|].
    cbn [fold_left]. rewrite hits_of_plan by exact Nc.
    apply IH. rewrite bump_keys. exact Nc. }
  rewrite G by (rewrite map_map; exact N).
  rewrite bump_each by exact N. rewrite map_map.
  apply map_ext_in. intros e He. cbn [fst snd].
  replace (existsb (String.eqb (fst e)) (map fst ti)) with true.
  - unfold h. rewrite (dict_get_in ti e N He). reflexivity.
  - symmetry. apply existsb_exists. exists (fst e).
    split; [apply in_map; exact He | apply String.eqb_refl].
Qed.

Lemma traveler_dicts_distinct (ts : list Traveler) :
  NoDup (map name ts) ->
  traveler_dicts ts
  = (map (fun t => (name t, interests t)) ts,
     map (fun t => (name t, 0%nat)) ts).
Proof.
  unfold traveler_dicts.
  enough (G : forall d1 d2,
             map fst d2 = map fst d1 ->
             NoDup (map fst d1 ++ map name ts) ->
             fold_left
               (fun d traveler =>
                  (dict_set (name traveler) (interests traveler) (fst d),
                   dict_set (name traveler) 0%nat (snd d)))
               ts (d1, d2)
             = (d1 ++ map (fun t => (name t, interests t)) ts,
                d2 ++ map (fun t => (name t, 0%nat)) ts))
    by (intros N; apply (G [] [] eq_refl N)).
  induction ts as [|t ts IH]; intros d1 d2 K N.
  - cbn. rewrite !app_nil_r. reflexivity.
  - cbn [fold_left fst snd map] in *.
    assert (F : ~ In (name t) (map fst d1)).
    { apply NoDup_remove_2 in N. intros H. apply N. apply in_or_app. auto. }
    rewrite (dict_set_fresh _ _ d1 F).
    rewrite (dict_set_fresh _ _ d2) by (rewrite K; exact F).
    rewrite IH.
    + rewrite <- !app_assoc. reflexivity.
    + rewrite !map_app, K. reflexivity.
    + rewrite map_app, <- app_assoc. exact N.
Qed.

Lemma filter_nil_iff {A} (f : A -> bool) (l : list A) :
  filter f l = [] <-> forall x, In x l -> f x = false.
Proof.
  induction l as [|x l IH]; cbn [filter In]; [tauto|].
  destruct (f x) eqn:E.
  - split; [discriminate|]. intros H. rewrite (H x) in E by auto.
    discriminate.
  - rewrite IH. split.
    + intros H y [<-|Hy]; auto.
    + intros H y Hy. apply H. auto.
Qed.

Section ReportFacts.

Variable str_of_list : list string -> string.

(** X11: For travelers with distinct names,
    [eval_itinerary_satisfies_interests] passes exactly when every traveler
    shares an interest with some scheduled activity; otherwise it raises an
    [AgentError] that lists the names of the travelers without a match, in the
    order of the vacation. *)
Theorem interests_evaluator (vi : VacationInfo) (p : TravelPlan)
  (fb : option string) :
  NoDup (map name (travelers vi)) ->
  (eval_itinerary_satisfies_interests str_of_list vi p fb = inr tt
   <-> unmatched vi p = [])
  /\ (unmatched vi p <> [] ->
      eval_itinerary_satisfies_interests str_of_list vi p fb
      = inl (Exn AgentError
               ("Travelers " ++ str_of_list (map name (unmatched vi p))
                ++ " has no matches with the itinerary."))).
Proof.
  intros N. unfold eval_itinerary_satisfies_interests.
  rewrite (traveler_dicts_distinct _ N). cbn [fst snd].
  replace (map (fun t => (name t, 0%nat)) (travelers vi))
    with (map (fun e : string * list Interest => (fst e, 0%nat))
            (map (fun t => (name t, interests t)) (travelers vi)))
    by (rewrite map_map; reflexivity).
  rewrite count_hits_spec by (rewrite map_map; exact N).
  rewrite map_map, filter_map_swap, map_map. cbn [fst snd].
  replace (filter
             (fun x => (List.length (matching_activities (interests x) p) =? 0)%nat)
             (travelers vi))
    with (unmatched vi p)
    by (unfold unmatched; apply filter_ext; intros t;
        destruct (matching_activities (interests t) p); reflexivity).
  destruct (unmatched vi p) as [|t l]; cbn [map].
  - split; [tauto | contradiction].
  - split; [split; discriminate | reflexivity].
Qed.

Variable ACTIVITY_CALENDAR : list event.
Variable Activity_of_event : event -> exn + Activity.
Variable datetime_eq : datetime -> datetime -> bool.

Hypothesis calendar_validates :
  forall ev, In ev ACTIVITY_CALENDAR -> exists a, Activity_of_event ev = inr a.

Lemma match_events_spec (recs : list ActivityRecommendation) :
  forall acc,
    match_events ACTIVITY_CALENDAR Activity_of_event datetime_eq recs acc
    = inr (fst acc
           ++ map activity_id
                (filter (is_missing ACTIVITY_CALENDAR) (map activity recs)),
           snd acc
           ++ map activity_id
                (filter
                   (is_mismatching ACTIVITY_CALENDAR Activity_of_event
                      datetime_eq)
                   (map activity recs))).
Proof.
  induction recs as [|r recs IH]; intros acc.
  - cbn. rewrite !app_nil_r. destruct acc; reflexivity.
  - cbn [match_events map filter]. unfold is_missing, is_mismatching.
    destruct (call_activity_by_id_api_mocked ACTIVITY_CALENDAR
                (activity_id (activity r))) as [ev|] eqn:F.
    + destruct (calendar_validates ev) as [a Ha].
      { unfold call_activity_by_id_api_mocked in F.
        apply find_some in F. tauto. }
      rewrite Ha.
      destruct (Activity_eqb datetime_eq a (activity r)); cbn [negb].
      * rewrite IH. reflexivity.
      * rewrite IH. cbn [fst snd map]. rewrite <- app_assoc. reflexivity.
    + rewrite IH. cbn [fst snd map]. rewrite <- app_assoc. reflexivity.
Qed.

Lemma match_days_spec (days : list ItineraryDay) :
  forall acc,
    match_days ACTIVITY_CALENDAR Activity_of_event datetime_eq days acc
    = inr (fst acc
           ++ map activity_id
                (filter (is_missing ACTIVITY_CALENDAR)
                   (flat_map (fun d => map activity (activity_recommendations d))
                      days)),
           snd acc
           ++ map activity_id
                (filter
                   (is_mismatching ACTIVITY_CALENDAR Activity_of_event
                      datetime_eq)
                   (flat_map (fun d => map activity (activity_recommendations d))
                      days))).
Proof.
  induction days as [|d days IH]; intros acc.
  - cbn. rewrite !app_nil_r. destruct acc; reflexivity.
  - cbn [match_days flat_map]. rewrite match_events_spec, IH. cbn [fst snd].
    rewrite !filter_app, !map_app, <- !app_assoc. reflexivity.
Qed.

(** X12: When every entry of the calendar reads as an activity,
    [eval_itinerary_events_match_actual_events] passes exactly when every
    scheduled activity has an id the calendar holds and is equal, by the
    [==] of pydantic on the fields with the [==] of [datetime] on the two
    times, to the activity read from the first entry with that id; otherwise
    it raises an [AgentError] that lists the ids that are missing and the
    ids that do not match, each in the order of the itinerary. *)
Theorem events_match_evaluator (vi : VacationInfo) (p : TravelPlan)
  (fb : option string) :
  let check :=
    eval_itinerary_events_match_actual_events str_of_list ACTIVITY_CALENDAR
      Activity_of_event datetime_eq vi p fb in
  let missing :=
    map activity_id
      (filter (is_missing ACTIVITY_CALENDAR) (scheduled_activities p)) in
  let mismatching :=
    map activity_id
      (filter (is_mismatching ACTIVITY_CALENDAR Activity_of_event datetime_eq)
         (scheduled_activities p)) in
  (check = inr tt
   <-> forall a,
         In a (scheduled_activities p) ->
         exists ev reference,
           call_activity_by_id_api_mocked ACTIVITY_CALENDAR (activity_id a)
           = Some ev
           /\ Activity_of_event ev = inr reference
           /\ Activity_eqb datetime_eq reference a = true)
  /\ (missing <> [] \/ mismatching <> [] ->
      check
      = inl (Exn AgentError
               ("Event IDs missing: " ++ str_of_list missing ++ nl
                ++ "Event IDs not matching: " ++ str_of_list mismatching))).
Proof.
  cbn zeta. unfold eval_itinerary_events_match_actual_events.
  rewrite match_days_spec. cbn [fst snd app].
  fold (scheduled_activities p).
  assert (R : forall a,
             is_missing ACTIVITY_CALENDAR a = false
             /\ is_mismatching ACTIVITY_CALENDAR Activity_of_event
                  datetime_eq a = false
             <-> exists ev reference,
                   call_activity_by_id_api_mocked ACTIVITY_CALENDAR
                     (activity_id a) = Some ev
                   /\ Activity_of_event ev = inr reference
                   /\ Activity_eqb datetime_eq reference a = true).
  { intros a. unfold is_missing, is_mismatching.
    destruct (call_activity_by_id_api_mocked ACTIVITY_CALENDAR (activity_id a))
      as [ev|] eqn:F.
    - destruct (calendar_validates ev) as [r Hr].
      { unfold call_activity_by_id_api_mocked in F.
        apply find_some in F. tauto. }
      rewrite Hr. split.
      + intros [_ H]. exists ev, r. split; [reflexivity|].
        split; [exact Hr|]. apply negb_false_iff in H. exact H.
      + intros (ev' & r' & E & H & Q). injection E as <-. rewrite Hr in H.
        injection H as <-. split; [reflexivity|].
        apply negb_false_iff. exact Q.
    - split; [intros [H _]; discriminate H
             | intros (ev & r & E & _); discriminate E]. }
  destruct (filter (is_missing ACTIVITY_CALENDAR) (scheduled_activities p))
    as [|a1 l1] eqn:F1;
    destruct (filter (is_mismatching ACTIVITY_CALENDAR Activity_of_event
                        datetime_eq)
                (scheduled_activities p)) as [|a2 l2] eqn:F2; cbn [map].
  - split; [|intros [H|H]; contradiction].
    split; [|reflexivity]. intros _ a Ha. apply R. split.
    + exact (proj1 (filter_nil_iff _ _) F1 a Ha).
    + exact (proj1 (filter_nil_iff _ _) F2 a Ha).
  - split; [|reflexivity]. split; [discriminate|]. intros H. exfalso.
    assert (Hin : In a2 (filter (is_mismatching ACTIVITY_CALENDAR
                                   Activity_of_event datetime_eq)
                           (scheduled_activities p)))
      by (rewrite F2; left; reflexivity).
    apply filter_In in Hin as [Hin Hf].
    apply H, R in Hin. destruct Hin as [_ Hm]. congruence.
  - split; [|reflexivity]. split; [discriminate|]. intros H. exfalso.
    assert (Hin : In a1 (filter (is_missing ACTIVITY_CALENDAR)
                           (scheduled_activities p)))
      by (rewrite F1; left; reflexivity).
    apply filter_In in Hin as [Hin Hf].
    apply H, R in Hin. destruct Hin as [Hm _]. congruence.
  - split; [|reflexivity]. split; [discriminate|]. intros H. exfalso.
    assert (Hin : In a1 (filter (is_missing ACTIVITY_CALENDAR)
                           (scheduled_activities p)))
      by (rewrite F1; left; reflexivity).
    apply filter_In in Hin as [Hin Hf].
    apply H, R in Hin. destruct Hin as [Hm _]. congruence.
Qed.

End ReportFacts.

End DictionaryFacts.

(** ** The tools and the mocked sources *)

Lemma prefix_app_l (p a b : string) :
  prefix p a = true -> prefix p (a ++ b) = true.
Proof.
  revert a. induction p as [|c p IH]; intros a H; [destruct (a ++ b); reflexivity|].
  destruct a as [|c' a]; [discriminate|]. cbn [append prefix] in *.
  destruct (ascii_dec c c'); [auto | discriminate].
Qed.

Lemma contains_app_l (sub a b : string) :
  PyStr.contains sub a = true -> PyStr.contains sub (a ++ b) = true.
Proof.
  induction a as [|c a IH]; cbn [PyStr.contains append]; intros H.
  - rewrite orb_false_r in H. apply contains_of_prefix.
    apply (prefix_app_l sub EmptyString b H).
  - apply orb_true_iff in H as [H|H].
    + change (String c (a ++ b)) with (String c a ++ b).
      rewrite (prefix_app_l _ _ _ H). reflexivity.
    + rewrite (IH H). apply orb_true_r.
Qed.

Lemma append_assoc' (a b c : string) : (a ++ b) ++ c = a ++ b ++ c.
Proof. induction a as [|x a IH]; simpl; congruence. Qed.

Lemma descriptions_from (fns : list (string * option string)) :
  forall acc,
    fold_left
      (fun resp fn =>
         resp ++ "* `" ++ fst fn ++ "`: "
         ++ (if given (snd fn) then PyStr.or_empty (snd fn)
             else "No description provided.")
         ++ nl) fns acc
    = acc ++ ToolBodies.get_tool_descriptions_string fns.
Proof.
  unfold ToolBodies.get_tool_descriptions_string.
  induction fns as [|fn fns IH]; intros acc.
  - cbn [fold_left]. induction acc; cbn; congruence.
  - cbn [fold_left]. rewrite IH.
    rewrite (IH (EmptyString ++ _)). cbn [append].
    rewrite append_assoc'. reflexivity.
Qed.

Lemma descriptions_app (a b : list (string * option string)) :
  ToolBodies.get_tool_descriptions_string (a ++ b)
  = ToolBodies.get_tool_descriptions_string a
    ++ ToolBodies.get_tool_descriptions_string b.
Proof.
  unfold ToolBodies.get_tool_descriptions_string at 1.
  rewrite fold_left_app. apply descriptions_from.
Qed.

(** X13: [get_tool_descriptions_string] of a concatenation is the
    concatenation of the descriptions, and the description of a list holds,
    for every function of the list, the line with its name and its docstring
    (["No description provided."] when the docstring is missing or empty). *)
Theorem tool_descriptions_list_every_tool (fns : list (string * option string)) :
  (forall a b,
      ToolBodies.get_tool_descriptions_string (a ++ b)
      = ToolBodies.get_tool_descriptions_string a
        ++ ToolBodies.get_tool_descriptions_string b)
  /\ (forall name doc,
         In (name, doc) fns ->
         PyStr.contains
           ("* `" ++ name ++ "`: "
            ++ match doc with
               | Some d => if PyStr.truthy d then d else "No description provided."
               | None => "No description provided."
               end ++ nl)
           (ToolBodies.get_tool_descriptions_string fns) = true).
Proof.
  split; [exact descriptions_app|].
  intros name doc H. apply in_split in H as (l1 & l2 & ->).
  rewrite descriptions_app. apply contains_app_r.
  change ((name, doc) :: l2) with ([(name, doc)] ++ l2)%list.
  rewrite descriptions_app. apply contains_app_l.
  unfold ToolBodies.get_tool_descriptions_string. cbn [fold_left fst snd append].
  replace (if given doc then PyStr.or_empty doc else "No description provided.")
    with (match doc with
          | Some d => if PyStr.truthy d then d else "No description provided."
          | None => "No description provided."
          end) by (destruct doc; reflexivity).
  apply contains_refl.
Qed.

Lemma find_hd_filter {A : Type} (f : A -> bool) (l : list A) :
  find f l = hd_error (filter f l).
Proof.
  induction l as [|x l IH]; [reflexivity|]. cbn [find filter].
  destruct (f x); [reflexivity | exact IH].
Qed.

Lemma dump_all_spec (validate : event -> exn + Activity)
  (dump : Activity -> pydict) (resp : list event) :
  match ToolBodies.dump_all validate dump resp with
  | inr ds =>
      Forall2 (fun ev d => exists a, validate ev = inr a /\ d = dump a) resp ds
  | inl e =>
      exists before ev after,
        resp = (before ++ ev :: after)%list
        /\ validate ev = inl e
        /\ Forall (fun ev' => exists a, validate ev' = inr a) before
  end.
Proof.
  induction resp as [|ev resp IH]; cbn [ToolBodies.dump_all]; [constructor|].
  destruct (validate ev) as [e|a] eqn:V.
  - exists [], ev, resp. repeat split; [exact V | constructor].
  - destruct (ToolBodies.dump_all validate dump resp) as [e|ds].
    + destruct IH as (before & ev' & after & -> & V' & F).
      exists (ev :: before), ev', after. split; [reflexivity|].
      split; [exact V'|]. constructor; eauto.
    + constructor; eauto.
Qed.

(** X14: [get_activities_by_date_tool] returns the empty list, without
    validating anything, for a city that is given and is not AgentsVille and
    for a given date that does not parse or lies outside the range.  When it
    returns, its results are, one for one and in order, the dumps of the
    validated entries the activity source returns; when it raises, the error is
    that of the first entry that does not validate. *)
Theorem get_activities_by_date_tool_results (cal : list event)
  (strp : string -> bool) (validate : event -> exn + Activity)
  (dump : Activity -> pydict) (date city : string) :
  let found :=
    call_activities_api_mocked cal strp (Some date) (Some city) None in
  let tool := ToolBodies.get_activities_by_date_tool cal strp validate dump in
  ((city <> EmptyString /\ city <> "AgentsVille")
   \/ (date <> EmptyString /\ (strp date = false \/ outside_range date = true))
   -> tool date city = inr [])
  /\ (forall ds,
         tool date city = inr ds ->
         Forall2 (fun ev d => exists a, validate ev = inr a /\ d = dump a)
           found ds)
  /\ (forall e,
         tool date city = inl e ->
         exists before ev after,
           found = (before ++ ev :: after)%list
           /\ validate ev = inl e
           /\ Forall (fun ev' => exists a, validate ev' = inr a) before).
Proof.
  cbv zeta. unfold ToolBodies.get_activities_by_date_tool.
  split; [|split].
  - intros H. unfold call_activities_api_mocked. cbn [given PyStr.or_empty].
    assert (T : forall s : string, s <> EmptyString -> PyStr.truthy s = true)
      by (intros [|? ?] ?; [contradiction | reflexivity]).
    destruct H as [(C & C')|(D & H)].
    + rewrite (T _ C). apply String.eqb_neq in C'. rewrite C'. reflexivity.
    + rewrite (T _ D).
      destruct (PyStr.truthy city && negb (city =? "AgentsVille")%string);
        [reflexivity|].
      destruct H as [H|H]; rewrite H; [reflexivity|].
      cbn [andb negb]. destruct (strp date); reflexivity.
  - intros ds H. pose proof (dump_all_spec validate dump
      (call_activities_api_mocked cal strp (Some date) (Some city) None)) as S.
    rewrite H in S. exact S.
  - intros e H. pose proof (dump_all_spec validate dump
      (call_activities_api_mocked cal strp (Some date) (Some city) None)) as S.
    rewrite H in S. exact S.
Qed.

(** X15: For a date that is given, parses and lies in the range, and a
    city that is absent, empty or AgentsVille, [call_activities_api_mocked]
    returns exactly the entries of the calendar whose start time begins with
    the date and, when ids are given, whose id is among them. *)
Theorem activities_query_sound_and_complete (cal : list event)
  (strp : string -> bool) (date : string) (city : option string)
  (ids : option (list string)) (ev : event) :
  date <> EmptyString ->
  strp date = true ->
  outside_range date = false ->
  (given city = false \/ city = Some "AgentsVille") ->
  In ev (call_activities_api_mocked cal strp (Some date) city ids)
  <-> In ev cal
      /\ PyStr.startswith (event_start_time ev) date = true
      /\ (given_ids ids = true ->
          exists l, ids = Some l /\ In (event_activity_id ev) l).
Proof.
  intros D P R C. unfold call_activities_api_mocked.
  assert (G : given (Some date) = true)
    by (destruct date; [contradiction | reflexivity]).
  rewrite G. cbn [PyStr.or_empty andb]. rewrite P, R. cbn [negb].
  assert (CC : given city
               && negb (match city with Some s => s | None => EmptyString end
                        =? "AgentsVille")%string = false).
  { destruct C as [C| ->]; [rewrite C; reflexivity|]. reflexivity. }
  change (match city with Some s => s | None => EmptyString end)
    with (PyStr.or_empty city) in CC.
  rewrite CC.
  destruct (given_ids ids) eqn:GI.
  - rewrite filter_In, filter_In. split.
    + intros ((I & S) & E). repeat split; auto. intros _.
      destruct ids as [l|]; [|discriminate]. exists l. split; [reflexivity|].
      apply existsb_exists in E as (x & Ix & Ex).
      apply String.eqb_eq in Ex. subst x. exact Ix.
    + intros (I & S & E). repeat split; auto.
      destruct (E eq_refl) as (l & -> & Il).
      apply existsb_exists. exists (event_activity_id ev).
      split; [exact Il | apply String.eqb_refl].
  - rewrite filter_In. split.
    + intros (I & S). repeat split; auto. discriminate.
    + intros (I & S & _). auto.
Qed.

(** X16: [call_activity_by_id_api_mocked] returns the first result of the
    query of [call_activities_api_mocked] for that one id; an entry it returns
    is in the calendar and carries the id, and it returns [None] exactly when
    no entry of the calendar carries the id. *)
Theorem activity_by_id_is_first_of_query (cal : list event)
  (strp : string -> bool) (activity_id : string) :
  call_activity_by_id_api_mocked cal activity_id
  = hd_error
      (call_activities_api_mocked cal strp None None (Some [activity_id]))
  /\ (forall ev,
         call_activity_by_id_api_mocked cal activity_id = Some ev ->
         In ev cal /\ event_activity_id ev = activity_id)
  /\ (call_activity_by_id_api_mocked cal activity_id = None <->
      forall ev, In ev cal -> event_activity_id ev <> activity_id).
Proof.
  unfold call_activity_by_id_api_mocked, call_activities_api_mocked.
  cbn [given given_ids andb]. split; [|split].
  - rewrite find_hd_filter. f_equal. apply filter_ext. intros ev.
    cbn [existsb]. rewrite orb_false_r. reflexivity.
  - intros ev H. apply find_some in H as (I & E).
    apply String.eqb_eq in E. auto.
  - split.
    + intros H ev I E. pose proof (find_none _ _ H ev I) as N.
      cbn beta in N. rewrite E, String.eqb_refl in N. discriminate.
    + intros H. destruct (find _ cal) as [ev|] eqn:F; [|reflexivity].
      apply find_some in F as (I & E). apply String.eqb_eq in E.
      destruct (H ev I E).
Qed.

Lemma find_split {A : Type} (f : A -> bool) (l : list A) (x : A) :
  find f l = Some x ->
  exists before after,
    l = (before ++ x :: after)%list
    /\ f x = true
    /\ Forall (fun y => f y = false) before.
Proof.
  induction l as [|y l IH]; cbn [find]; [discriminate|].
  destruct (f y) eqn:Y.
  - intros [= ->]. exists [], l. repeat split; [exact Y | constructor].
  - intros H. destruct (IH H) as (before & after & -> & X & F).
    exists (y :: before), after. repeat split; [exact X|].
    constructor; assumption.
Qed.

(** X17: A forecast [call_weather_api_mocked] returns that is not the empty
    mapping is the first entry of [WEATHER_FORECAST] for the date asked: its
    ["date"] is that date, the city was AgentsVille, and the date parses and
    lies in the range. *)
Theorem weather_report_is_for_the_date (wf : list forecast)
  (strp : string -> bool) (date city : string) :
  call_weather_api_mocked wf strp date city <> [] ->
  city = "AgentsVille"
  /\ strp date = true
  /\ outside_range date = false
  /\ lookup "date" (call_weather_api_mocked wf strp date city)
     = Some (JStr date)
  /\ exists f before after,
       wf = (before ++ f :: after)%list
       /\ call_weather_api_mocked wf strp date city = forecast_dict f
       /\ Forall (fun f' => forecast_date f' <> date) before.
Proof.
  unfold call_weather_api_mocked.
  destruct (city =? "AgentsVille")%string eqn:C; cbn [negb]; [|congruence].
  destruct (strp date) eqn:P; cbn [negb]; [|congruence].
  destruct (outside_range date) eqn:R; [congruence|].
  destruct (find _ wf) as [f|] eqn:F; [|congruence].
  intros _. apply String.eqb_eq in C.
  apply find_split in F as (before & after & -> & E & B).
  apply String.eqb_eq in E.
  repeat split; auto.
  - unfold forecast_dict. cbn. rewrite E. reflexivity.
  - exists f, before, after. repeat split.
    eapply Forall_impl; [|exact B]. cbn beta. intros f' N.
    apply String.eqb_neq. exact N.
Qed.

(** ** The window of a vacation *)

Lemma date_ltb_lex (a b : date) :
  date_ltb a b = true <->
  (year a < year b
   \/ (year a = year b
       /\ (month a < month b \/ (month a = month b /\ day a < day b))))%Z.
Proof.
  unfold date_ltb, date_compare.
  destruct (Z.compare_spec (year a) (year b));
    destruct (Z.compare_spec (month a) (month b));
    destruct (Z.compare_spec (day a) (day b));
    split; intros; try discriminate; try reflexivity; lia.
Qed.

(** X18: A vacation that [VacationInfo] validates and that does not end
    before it starts lies in June 2025: both dates are in year 2025 and month
    6, with days from 10 to 15, the arrival first. *)
Theorem validated_vacation_window (v v' : VacationInfo) :
  VacationInfo_model_validate v = inr v' ->
  date_leb (date_of_arrival v') (date_of_departure v') = true ->
  v' = v
  /\ year (date_of_arrival v') = 2025%Z
  /\ year (date_of_departure v') = 2025%Z
  /\ month (date_of_arrival v') = 6%Z
  /\ month (date_of_departure v') = 6%Z
  /\ (10 <= day (date_of_arrival v'))%Z
  /\ (day (date_of_arrival v') <= day (date_of_departure v'))%Z
  /\ (day (date_of_departure v') <= 15)%Z.
Proof.
  unfold VacationInfo_model_validate, VacationInfo_errors.
  destruct (1 <=? List.length (travelers v))%nat; [|discriminate].
  destruct (date_gtb (date_of_arrival v) (Date 2025 6 9)) eqn:A; [|discriminate].
  destruct (date_ltb (date_of_departure v) (Date 2025 6 16)) eqn:D;
    [|discriminate].
  destruct (0 <? budget v)%Z; [|discriminate].
  cbn [app]. intros [= <-] L. split; [reflexivity|].
  unfold date_leb, date_gtb in *. apply negb_true_iff in L.
  apply date_ltb_lex in A, D. cbn [year month day] in A, D.
  assert (N : ~ (year (date_of_departure v) < year (date_of_arrival v)
     \/ (year (date_of_departure v) = year (date_of_arrival v)
         /\ (month (date_of_departure v) < month (date_of_arrival v)
             \/ (month (date_of_departure v) = month (date_of_arrival v)
                 /\ day (date_of_departure v) < day (date_of_arrival v)))))%Z).
  { intros N. apply date_ltb_lex in N. congruence. }
  lia.
Qed.

(** ** The evaluators that ask a model *)

Section JudgeFacts.

Context `{X : Collaborators}.

Variable dedent : string -> string.
Variable module_client : Client.
Variable ACTIVITY_AND_WEATHER_ARE_COMPATIBLE_SYSTEM_PROMPT : string.
Variable FEEDBACK_SYSTEM_PROMPT : string.
Variable str_of_list : list string -> string.

Local Open Scope list_scope.

Lemma is_compatible_yes (reply : string) :
  PyStr.contains "IS_COMPATIBLE" reply = true ->
  is_compatible (Some reply) = inr true.
Proof. intros H. unfold is_compatible. cbn [PyStr.or_empty]. rewrite H. reflexivity. Qed.

Lemma is_compatible_no (reply : string) :
  PyStr.contains "IS_COMPATIBLE" reply = false ->
  PyStr.contains "IS_COMPATIBILE" reply = false ->
  PyStr.contains "IS_INCOMPATIBLE" reply = true ->
  is_compatible (Some reply) = inr false.
Proof.
  intros H1 H2 H3. unfold is_compatible. cbn [PyStr.or_empty].
  rewrite H1, H2, H3. reflexivity.
Qed.

Lemma judge_recommendations_spec (judged : Activity -> string -> bool)
  (cond : string) (recs : list ActivityRecommendation) :
  (forall r, In r recs -> forall w, exists reply w',
      chat_completions_create module_client GPT_41_NANO
        
        [ Message "system"
            (Some ACTIVITY_AND_WEATHER_ARE_COMPATIBLE_SYSTEM_PROMPT);
          Message "user"
            (Some ("Activity: " ++ activity_name (activity r) ++ nl
                   ++ "Description: " ++ description (activity r) ++ nl
                   ++ "Weather Condition: " ++ cond)%string) ]
        w
      = (inr {| error := None; choice_content := Some reply |}, w')
      /\ if judged (activity r) cond
         then PyStr.contains "IS_COMPATIBLE" reply = true
         else PyStr.contains "IS_COMPATIBLE" reply = false
              /\ PyStr.contains "IS_COMPATIBILE" reply = false
              /\ PyStr.contains "IS_INCOMPATIBLE" reply = true) ->
  forall acc s, exists w,
    judge_recommendations module_client
      ACTIVITY_AND_WEATHER_ARE_COMPATIBLE_SYSTEM_PROMPT cond recs acc s
    = (inr (acc ++ map activity_name
              (filter (fun a => negb (judged a cond)) (map activity recs))),
       set_env s w).
Proof.
  induction recs as [|r recs IH]; intros H acc s.
  - exists (env s). cbn. rewrite app_nil_r. destruct s; reflexivity.
  - destruct (H r (or_introl eq_refl) (env s)) as (reply & w' & C & J).
    cbn [judge_recommendations]. unfold bind at 1.
    unfold do_chat_completion. rewrite C.
    cbn [error choice_content]. unfold bind at 1, lift.
    assert (V : is_compatible (Some reply) = inr (judged (activity r) cond)).
    { destruct (judged (activity r) cond).
      - apply is_compatible_yes, J.
      - destruct J as (J1 & J2 & J3). apply is_compatible_no; assumption. }
    rewrite V.
    destruct (IH (fun r' I => H r' (or_intror I))
                (if judged (activity r) cond then acc
                 else acc ++ [activity_name (activity r)])
                (set_env s w')) as (w & E).
    rewrite E. exists w. cbn [map filter].
    destruct (judged (activity r) cond); cbn [negb map].
    + reflexivity.
    + rewrite <- app_assoc. reflexivity.
Qed.

Lemma judge_days_spec (judged : Activity -> string -> bool)
  (days : list ItineraryDay) :
  (forall d r, In d days -> In r (activity_recommendations d) ->
    forall w, exists reply w',
      chat_completions_create module_client GPT_41_NANO
        
        [ Message "system"
            (Some ACTIVITY_AND_WEATHER_ARE_COMPATIBLE_SYSTEM_PROMPT);
          Message "user"
            (Some ("Activity: " ++ activity_name (activity r) ++ nl
                   ++ "Description: " ++ description (activity r) ++ nl
                   ++ "Weather Condition: " ++ condition (weather d))%string) ]
        w
      = (inr {| error := None; choice_content := Some reply |}, w')
      /\ if judged (activity r) (condition (weather d))
         then PyStr.contains "IS_COMPATIBLE" reply = true
         else PyStr.contains "IS_COMPATIBLE" reply = false
              /\ PyStr.contains "IS_COMPATIBILE" reply = false
              /\ PyStr.contains "IS_INCOMPATIBLE" reply = true) ->
  forall acc s, exists w,
    judge_days module_client
      ACTIVITY_AND_WEATHER_ARE_COMPATIBLE_SYSTEM_PROMPT days acc s
    = (inr (acc ++ flat_map
              (fun d =>
                 map activity_name
                   (filter (fun a => negb (judged a (condition (weather d))))
                      (map activity (activity_recommendations d))))
              days), set_env s w).
Proof.
  induction days as [|d days IH]; intros H acc s.
  - exists (env s). cbn. rewrite app_nil_r. destruct s; reflexivity.
  - cbn [judge_days]. unfold bind at 1.
    destruct (judge_recommendations_spec judged (condition (weather d))
                (activity_recommendations d)
                (fun r I => H d r (or_introl eq_refl) I) acc s) as (w1 & E1).
    rewrite E1.
    destruct (IH (fun d' r I => H d' r (or_intror I))
                (acc ++ map activity_name
                   (filter (fun a => negb (judged a (condition (weather d))))
                      (map activity (activity_recommendations d))))
                (set_env s w1)) as (w & E).
    rewrite E. exists w.
    cbn [flat_map]. rewrite app_assoc. reflexivity.
Qed.

(** X19: When the model answers every question of
    [eval_activities_and_weather_are_compatible] with a readable verdict (a
    reply that holds [IS_COMPATIBLE], or one that holds [IS_INCOMPATIBLE] and
    neither [IS_COMPATIBLE] nor [IS_COMPATIBILE]), the evaluator passes
    exactly when no activity is rejected, and otherwise raises an [AgentError]
    that lists the names of the rejected activities in the order of the
    itinerary; the conversation of the caller is not touched. *)
Theorem weather_evaluator_reports_rejected (judged : Activity -> string -> bool)
  (vi : VacationInfo) (p : TravelPlan) (fb : option string) (s : state) :
  (forall d r, In d (itinerary_days p) -> In r (activity_recommendations d) ->
    forall w, exists reply w',
      chat_completions_create module_client GPT_41_NANO
        [ Message "system"
            (Some ACTIVITY_AND_WEATHER_ARE_COMPATIBLE_SYSTEM_PROMPT);
          Message "user"
            (Some ("Activity: " ++ activity_name (activity r) ++ nl
                   ++ "Description: " ++ description (activity r) ++ nl
                   ++ "Weather Condition: " ++ condition (weather d))%string) ]
        w
      = (inr {| error := None; choice_content := Some reply |}, w')
      /\ if judged (activity r) (condition (weather d))
         then PyStr.contains "IS_COMPATIBLE" reply = true
         else PyStr.contains "IS_COMPATIBLE" reply = false
              /\ PyStr.contains "IS_COMPATIBILE" reply = false
              /\ PyStr.contains "IS_INCOMPATIBLE" reply = true) ->
  let names :=
    flat_map
      (fun d =>
         map activity_name
           (filter (fun a => negb (judged a (condition (weather d))))
              (map activity (activity_recommendations d))))
      (itinerary_days p) in
  exists w,
    eval_activities_and_weather_are_compatible module_client
      ACTIVITY_AND_WEATHER_ARE_COMPATIBLE_SYSTEM_PROMPT str_of_list vi p fb s
    = (match names with
       | [] => inr tt
       | _ :: _ =>
           inl (Exn AgentError
                  ("Activities that may be ruined by inclement weather: "
                   ++ str_of_list names))
       end, set_env s w).
Proof.
  intros H names. unfold eval_activities_and_weather_are_compatible.
  unfold bind at 1.
  destruct (judge_days_spec judged (itinerary_days p) H [] s) as (w & E).
  rewrite E. cbn [app]. exists w. fold names.
  destruct names; reflexivity.
Qed.

Lemma judge_recommendations_unreadable (cond : string)
  (recs : list ActivityRecommendation) (acc : list string) (s : state) :
  (forall msgs w, exists reply w',
      chat_completions_create module_client GPT_41_NANO msgs w
      = (inr {| error := None; choice_content := reply |}, w')
      /\ PyStr.contains "IS_COMPATIBLE" (PyStr.or_empty reply) = false
      /\ PyStr.contains "IS_COMPATIBILE" (PyStr.or_empty reply) = false
      /\ PyStr.contains "IS_INCOMPATIBLE" (PyStr.or_empty reply) = false
      /\ PyStr.contains "IS_INCOMPATIBILE" (PyStr.or_empty reply) = false) ->
  recs <> [] ->
  exists e w,
    judge_recommendations module_client
      ACTIVITY_AND_WEATHER_ARE_COMPATIBLE_SYSTEM_PROMPT cond recs acc s
    = (inl e, set_env s w)
    /\ exn_cls e = RuntimeError.
Proof.
  intros H N. destruct recs as [|r recs]; [contradiction|].
  cbn [judge_recommendations]. unfold bind at 1, do_chat_completion.
  destruct (H [ Message "system"
            (Some ACTIVITY_AND_WEATHER_ARE_COMPATIBLE_SYSTEM_PROMPT);
          Message "user"
            (Some ("Activity: " ++ activity_name (activity r) ++ nl
                   ++ "Description: " ++ description (activity r) ++ nl
                   ++ "Weather Condition: " ++ cond)%string) ] (env s))
    as (reply & w' & C & H1 & H2 & H3 & H4).
  rewrite C. cbn [error choice_content].
  unfold bind at 1, lift, is_compatible. rewrite H1, H2, H3, H4.
  cbn [orb]. eexists _, w'. split; reflexivity.
Qed.

(** X20: When the replies of the model hold none of the four verdict words
    and the plan schedules an activity,
    [eval_activities_and_weather_are_compatible] raises a [RuntimeError], which
    is not an [AgentError]. *)
Theorem weather_evaluator_unreadable_verdict (vi : VacationInfo)
  (p : TravelPlan) (fb : option string) (s : state) :
  (forall msgs w, exists reply w',
      chat_completions_create module_client GPT_41_NANO msgs w
      = (inr {| error := None; choice_content := reply |}, w')
      /\ PyStr.contains "IS_COMPATIBLE" (PyStr.or_empty reply) = false
      /\ PyStr.contains "IS_COMPATIBILE" (PyStr.or_empty reply) = false
      /\ PyStr.contains "IS_INCOMPATIBLE" (PyStr.or_empty reply) = false
      /\ PyStr.contains "IS_INCOMPATIBILE" (PyStr.or_empty reply) = false) ->
  scheduled_activities p <> [] ->
  exists e w,
    eval_activities_and_weather_are_compatible module_client
      ACTIVITY_AND_WEATHER_ARE_COMPATIBLE_SYSTEM_PROMPT str_of_list vi p fb s
    = (inl e, set_env s w)
    /\ exn_cls e = RuntimeError
    /\ is_AgentError e = false.
Proof.
  intros H N. unfold eval_activities_and_weather_are_compatible.
  unfold bind at 1.
  assert (J : forall days acc s0,
             flat_map (fun d => map activity (activity_recommendations d)) days
             <> [] ->
             exists e w,
               judge_days module_client
                 ACTIVITY_AND_WEATHER_ARE_COMPATIBLE_SYSTEM_PROMPT days acc s0
               = (inl e, set_env s0 w) /\ exn_cls e = RuntimeError).
  { induction days as [|d days IH]; intros acc s0 N0; [contradiction N0; reflexivity|].
    cbn [judge_days]. unfold bind at 1.
    destruct (activity_recommendations d) as [|r recs] eqn:R.
    - cbn [judge_recommendations]. unfold ret.
      cbn [flat_map] in N0. rewrite R in N0. cbn [map app] in N0.
      apply IH. exact N0.
    - destruct (judge_recommendations_unreadable (condition (weather d))
                  (r :: recs) acc s0 H ltac:(discriminate)) as (e & w & E & C).
      rewrite E. exists e, w. split; [reflexivity | exact C]. }
  destruct (J (itinerary_days p) [] s N) as (e & w & E & C).
  rewrite E. exists e, w. repeat split; [exact C|].
  destruct e as [c m]. cbn in C. subst c. reflexivity.
Qed.

(** X21: [eval_traveler_feedback_is_incorporated] asks one question in a
    conversation of its own (the system prompt, then the feedback and the
    plan) and leaves the caller's conversation as it was.  The reply is
    recorded and printed, and an error of the printing is raised.  It passes
    exactly when the reply is printed and holds both [FINAL OUTPUT:] and
    [FULLY_INCORPORATED]; a printed reply with [FINAL OUTPUT:] and without
    [FULLY_INCORPORATED] raises an [AgentError], a printed reply without
    [FINAL OUTPUT:] a [RuntimeError], and a reply without content a
    [TypeError]. *)
Theorem feedback_evaluator_verdict (vi : VacationInfo) (p : TravelPlan)
  (fb : option string) (s : state) (reply : option string) (w : Env) :
  FEEDBACK_SYSTEM_PROMPT <> EmptyString ->
  chat_completions_create module_client GPT_41
    [ Message "system" (Some (PyStr.strip (dedent FEEDBACK_SYSTEM_PROMPT)));
      Message "user"
        (Some ("Traveler Feedback: " ++ PyStr.str_of_opt fb ++ nl
               ++ "    Revised Travel Plan: "
               ++ TravelPlan_model_dump_json p ++ nl ++ "    ")%string) ]
    (env s)
  = (inr {| error := None; choice_content := reply |}, w) ->
  exists r,
    eval_traveler_feedback_is_incorporated dedent module_client
      FEEDBACK_SYSTEM_PROMPT vi p fb s = (r, set_env s w)
    /\ (r = inr tt <->
        exists resp,
          reply = Some resp
          /\ console_print resp = inr tt
          /\ PyStr.contains "FINAL OUTPUT:" resp = true
          /\ PyStr.contains "FULLY_INCORPORATED" resp = true)
    /\ (forall resp e,
          reply = Some resp -> console_print resp = inl e -> r = inl e)
    /\ (forall resp,
          reply = Some resp -> console_print resp = inr tt ->
          PyStr.contains "FINAL OUTPUT:" resp = true ->
          PyStr.contains "FULLY_INCORPORATED" resp = false ->
          exists msg, r = inl (Exn AgentError msg))
    /\ (forall resp,
          reply = Some resp -> console_print resp = inr tt ->
          PyStr.contains "FINAL OUTPUT:" resp = false ->
          exists msg, r = inl (Exn RuntimeError msg))
    /\ (reply = None ->
        r = inl (Exn TypeError "argument of type 'NoneType' is not iterable")).
Proof.
  intros N C. unfold eval_traveler_feedback_is_incorporated, ChatAgent_init.
  assert (G : given (Some FEEDBACK_SYSTEM_PROMPT) = true)
    by (destruct FEEDBACK_SYSTEM_PROMPT; [contradiction | reflexivity]).
  rewrite G. cbn [PyStr.or_empty]. unfold reset, add_message at 1.
  cbn [valid_roles existsb String.eqb Ascii.eqb Bool.eqb orb negb andb].
  unfold chat, bind at 1, add_message at 1.
  cbn [valid_roles existsb String.eqb Ascii.eqb Bool.eqb orb negb andb].
  unfold get_response, bind at 1, do_chat_completion.
  cbn [appended set_messages messages model client env py_or app].
  rewrite C. cbn [error choice_content].
  unfold bind at 1, add_message.
  cbn [valid_roles existsb String.eqb Ascii.eqb Bool.eqb orb negb andb].
  unfold ret, print_content.
  cbn [appended set_messages set_env messages model client env invoked].
  destruct reply as [resp|].
  - destruct (console_print resp) as [e|[]] eqn:P.
    + eexists. split; [reflexivity|]. repeat split.
      * discriminate.
      * intros (r' & [= <-] & P' & _). congruence.
      * intros r' e' [= <-] P'. congruence.
      * intros r' [= <-] P'. congruence.
      * intros r' [= <-] P'. congruence.
      * discriminate.
    + destruct (PyStr.contains "FINAL OUTPUT:" resp) eqn:F; cbn [negb].
      * destruct (PyStr.contains "FULLY_INCORPORATED" resp) eqn:I; cbn [negb].
        -- eexists. split; [reflexivity|]. repeat split.
           ++ eauto 6.
           ++ intros r' e' [= <-] P'. congruence.
           ++ intros r' [= <-] _ _ I'. congruence.
           ++ intros r' [= <-] _ F'. congruence.
           ++ discriminate.
        -- eexists. split; [reflexivity|]. repeat split.
           ++ discriminate.
           ++ intros (r' & [= <-] & _ & _ & I'). congruence.
           ++ intros r' e' [= <-] P'. congruence.
           ++ eauto.
           ++ intros r' [= <-] _ F'. congruence.
           ++ discriminate.
      * eexists. split; [reflexivity|]. repeat split.
        -- discriminate.
        -- intros (r' & [= <-] & _ & F' & _). congruence.
        -- intros r' e' [= <-] P'. congruence.
        -- intros r' [= <-] _ F'. congruence.
        -- eauto.
        -- discriminate.
  - eexists. split; [reflexivity|]. repeat split; try discriminate.
    intros (r' & [=] & _).
Qed.

End JudgeFacts.

(** * Runs on concrete inputs *)

#[local] Existing Instance Scripted.collaborators.

(** The dispatcher on an empty request, on a request for a tool that is not
    registered, and on a request for the calculator. *)
Lemma get_observation_string_dispatch_witness :
  (exists obs s',
      get_observation_string (X := Scripted.collaborators) []
        (Scripted.agent [])
      = (inr obs, s')
      /\ obs = "OBSERVATION: No tool name specified."
      /\ s' = Scripted.agent [])
  /\ (exists obs s',
        get_observation_string (X := Scripted.collaborators)
          [("tool_name", JStr "nonexistent_tool"); ("arguments", JDict [])]
          (Scripted.agent [])
        = (inr obs, s')
        /\ obs = "OBSERVATION: Unknown tool name 'nonexistent_tool' "
                 ++ "in action string."
        /\ s' = Scripted.agent [])
  /\ (exists obs s',
        get_observation_string (X := Scripted.collaborators)
          [("tool_name", JStr "calculator_tool");
           ("arguments", JDict [("input_expression", JStr "1+1")])]
          (Scripted.agent [])
        = (inr obs, s')
        /\ obs = "OBSERVATION: Tool calculator_tool called successfully "
                 ++ "with response: 2.0"
        /\ invoked s'
           = [("calculator_tool", [("input_expression", JStr "1+1")])]).
Proof.
  split; [|split].
  - destruct (get_observation_string_dispatch (X := Scripted.collaborators)
                [] (Scripted.agent []))
      as (obs & s' & E & _ & N & _).
    exists obs, s'. split; [exact E|]. apply N. reflexivity.
  - destruct (get_observation_string_dispatch (X := Scripted.collaborators)
                [("tool_name", JStr "nonexistent_tool");
                 ("arguments", JDict [])]
                (Scripted.agent []))
      as (obs & s' & E & _ & _ & _ & _ & _ & U & _).
    exists obs, s'. split; [exact E|].
    apply (U "nonexistent_tool" []); [reflexivity | reflexivity |].
    cbv. intros [H|[H|[H|[H|[]]]]]; discriminate H.
  - destruct (get_observation_string_dispatch (X := Scripted.collaborators)
                [("tool_name", JStr "calculator_tool");
                 ("arguments", JDict [("input_expression", JStr "1+1")])]
                (Scripted.agent []))
      as (obs & s' & E & _ & _ & _ & _ & _ & _ & R & _).
    exists obs, s'. split; [exact E|].
    destruct (R "calculator_tool" [("input_expression", JStr "1+1")]
                eq_refl eq_refl)
      as (t & Hin & Hname & Hinv & _ & Hobs).
    { left. reflexivity. }
    split; [|exact Hinv].
    destruct Hin as [<-|[<-|[<-|[<-|[]]]]]; try discriminate Hname.
    exact Hobs.
Defined.

(** A scripted run whose first response carries a list as its action. *)
Lemma non_mapping_action_leaves_loop_witness :
  exists s1,
    run_react_cycle (X := Scripted.collaborators)
      (Scripted.empty_plan "AgentsVille") 3 None None
      (Scripted.agent [Some Scripted.response_list])
    = (inl (Exn AttributeError "'list' object has no attribute 'get'"), s1).
Proof.
  eexists.
  apply (non_mapping_action_leaves_loop (X := Scripted.collaborators)
           None None (Scripted.empty_plan "AgentsVille") 3
           (Scripted.agent [Some Scripted.response_list]) _
           (Some Scripted.response_list) (JList [JInt 1; JInt 2]));
    [lia | reflexivity | reflexivity | reflexivity | reflexivity].
Defined.

(** A scripted run whose first response is a final answer with a
    [total_cost] that is the text of a closing tag: the validation error
    quotes it, the console refuses to print the error, and the run ends with
    the error of the console. *)
Lemma final_answer_print_failure_leaves_loop_witness :
  exists s1,
    run_react_cycle (X := Scripted.collaborators)
      (Scripted.empty_plan "AgentsVille") 3 None None
      (Scripted.agent [Some Scripted.response_tag_final])
    = (inl (Exn (OtherError "MarkupError")
              "closing tag doesn't match any open tag"), s1)
    /\ List.last (messages s1) (Message "system" None)
       = Message "user"
           (Some ("Error validating final answer: 1 validation error for "
                  ++ "TravelPlan: total_cost, input_value='[/b]'")).
Proof.
  eexists. split.
  - eapply (final_answer_print_failure_leaves_loop
              (X := Scripted.collaborators) None None
             (Scripted.empty_plan "AgentsVille") 3
             (Scripted.agent [Some Scripted.response_tag_final]) _
             (Some Scripted.response_tag_final)
             [("tool_name", JStr "final_answer_tool");
              ("arguments", JDict [("total_cost", JStr "[/b]")])]
             [("total_cost", JStr "[/b]")]);
      [lia | reflexivity | reflexivity | reflexivity | reflexivity
      | reflexivity | reflexivity | reflexivity].
  - reflexivity.
Defined.

(** A scripted run with [max_steps = 1] whose only response carries a list
    as its action: the error is not the error of exhaustion. *)
Lemma exhaustion_missed_on_non_mapping_action_witness :
  exists e s1,
    run_react_cycle (X := Scripted.collaborators)
      (Scripted.empty_plan "AgentsVille") 1 None None
      (Scripted.agent [Some Scripted.response_list])
    = (inl e, s1)
    /\ exn_cls e = AttributeError
    /\ e <> exhausted 1 (Some Scripted.response_list).
Proof.
  destruct (exhaustion_missed_on_non_mapping_action
              (X := Scripted.collaborators) None None
              (Scripted.empty_plan "AgentsVille")
              (Scripted.agent [Some Scripted.response_list])
              (snd (get_response (X := Scripted.collaborators) true None None
                      (appended (Scripted.agent [Some Scripted.response_list])
                         (revision_request
                            (Scripted.empty_plan "AgentsVille")))))
              (Some Scripted.response_list) (JList [JInt 1; JInt 2])
              eq_refl eq_refl eq_refl eq_refl 1%Z ltac:(lia))
    as (e & E & A & N).
  exists e. eexists. split; [exact E|]. split; [exact A | apply N].
Defined.

(** Scripted runs: a final answer that validates, and one that does not. *)
Lemma final_answer_validated_or_observed_witness :
  (exists s1,
      run_react_cycle (X := Scripted.collaborators)
        (Scripted.empty_plan "Elsewhere") 3 None None
        (Scripted.agent [Some Scripted.response_final])
      = (inr (Scripted.empty_plan "AgentsVille"), s1))
  /\ (exists s2,
        react_for (X := Scripted.collaborators) 1 None None None
          (Scripted.agent [Some Scripted.response_bad_final])
        = (inr (inr (Some Scripted.response_bad_final)), s2)
        /\ List.last (messages s2) (Message "system" None)
           = Message "user"
               (Some ("Error validating final answer: "
                      ++ "1 validation error for TravelPlan")))
  /\ (exists s0 r obj arguments,
        get_response (X := Scripted.collaborators) true None None s0
        = (inr r,
           snd (run_react_cycle (Scripted.empty_plan "Elsewhere") 3 None None
                  (Scripted.agent [Some Scripted.response_final])))
        /\ PyStr.contains "ACTION:" (PyStr.or_empty r) = true
        /\ json_loads (action_string (PyStr.or_empty r)) = Some (JDict obj)
        /\ requested_tool obj = JStr "final_answer_tool"
        /\ lookup "arguments" obj = Some (JDict arguments)
        /\ TravelPlan_model_validate (final_payload arguments)
           = inr (Scripted.empty_plan "AgentsVille")).
Proof.
  split; [|split].
  - eexists.
    eapply (proj1 (proj2 (final_answer_validated_or_observed
                            (X := Scripted.collaborators) None None)));
      [lia | reflexivity | reflexivity | reflexivity | reflexivity
      | reflexivity | reflexivity].
  - eexists.
    rewrite (proj1 (final_answer_validated_or_observed
                      (X := Scripted.collaborators) None None)
               (Scripted.agent [Some Scripted.response_bad_final]) _
               (Some Scripted.response_bad_final) _ _ 0 None
               eq_refl eq_refl eq_refl eq_refl eq_refl).
    split; reflexivity.
  - apply (proj2 (proj2 (final_answer_validated_or_observed
                           (X := Scripted.collaborators) None None))
             (Scripted.empty_plan "Elsewhere")
             (Scripted.empty_plan "AgentsVille") 3%Z
             (Scripted.agent [Some Scripted.response_final])).
    vm_compute. reflexivity.
Defined.

(** Scripted runs that use up one and two passes: no action, a final answer
    that does not validate, and an unknown tool. *)
Lemma exhaustion_raises_with_last_response_witness :
  (exists s',
      run_react_cycle (Scripted.empty_plan "AgentsVille") 1 None None
        (Scripted.agent [Some Scripted.response_no_action])
      = (inl (Exn RuntimeError
                ("ReAct cycle did not complete within 1 steps. "
                 ++ "Last response: THOUGHT: still thinking.")), s'))
  /\ (exists s',
        run_react_cycle (Scripted.empty_plan "AgentsVille") 1 None None
          (Scripted.agent [Some Scripted.response_bad_final])
        = (inl (Exn RuntimeError
                  ("ReAct cycle did not complete within 1 steps. "
                   ++ "Last response: " ++ Scripted.response_bad_final)), s'))
  /\ (exists s',
        run_react_cycle (Scripted.empty_plan "AgentsVille") 2 None None
          (Scripted.agent [Some Scripted.response_no_action;
                           Some Scripted.response_unknown_tool])
        = (inl (Exn RuntimeError
                  ("ReAct cycle did not complete within 2 steps. "
                   ++ "Last response: " ++ Scripted.response_unknown_tool)),
           s')).
Proof.
  split; [|split].
  - refine (proj2 (proj2 (exhaustion_raises_with_last_response None None
                            (Scripted.empty_plan "AgentsVille")
                            (Scripted.agent
                               [Some Scripted.response_no_action])))
              (Some Scripted.response_no_action) _ eq_refl _ _).
    + intros v C. discriminate C.
    + intros obj arguments C. discriminate C.
  - eexists.
    apply (proj1 (proj2 (exhaustion_raises_with_last_response None None
                           (Scripted.empty_plan "AgentsVille")
                           (Scripted.agent
                              [Some Scripted.response_bad_final])))).
    lazy. reflexivity.
  - eexists.
    refine (proj1 (proj1 (exhaustion_raises_with_last_response None None
                            (Scripted.empty_plan "AgentsVille")
                            (Scripted.agent
                               [Some Scripted.response_no_action;
                                Some Scripted.response_unknown_tool]))
                     2%Z
                     [Scripted.response_no_action;
                      Scripted.response_unknown_tool] _ _ _ _)).
    + lia.
    + reflexivity.
    + econstructor; [lazy; reflexivity|].
      econstructor; [lazy; reflexivity|]. constructor.
Defined.

(** A suite of three evaluators, the second and third of which fail. *)
Lemma get_eval_results_collects_witness :
  exists res s' entries,
    get_eval_results (X := Scripted.collaborators) Sample.vacation
      (Sample.plan 50) Sample.suite None Sample.fresh = (inr res, s')
    /\ evaluated s' = entries
    /\ map fst entries
       = [inr "eval_start_end_dates_match"; inr "always_fails";
          inr "eval_total_cost_is_accurate"]
    /\ failures res = agent_error_messages (map snd entries)
    /\ (success res = true <-> failures res = [])
    /\ eval_functions res
       = ["eval_start_end_dates_match"; "always_fails";
          "eval_total_cost_is_accurate"].
Proof.
  destruct (get_eval_results_collects (X := Scripted.collaborators)
              Sample.vacation (Sample.plan 50) None
              Sample.suite Sample.fresh
              ["eval_start_end_dates_match"; "always_fails";
               "eval_total_cost_is_accurate"])
    as (res & s' & entries & E & V & _ & N & F & S & G).
  - intros f w e [<-|[<-|[<-|[]]]] H; vm_compute in H;
      try discriminate H; injection H as <-; split; reflexivity.
  - reflexivity.
  - exists res, s', entries.
    split; [exact E|]. split; [exact V|]. split; [exact N|].
    split; [exact F|]. split; [exact S | exact G].
Defined.

(** Activities worth 55 against a stated total of 50. *)
Lemma cost_accuracy_exact_witness :
  exists msg,
    eval_total_cost_is_accurate Sample.vacation (Sample.plan 50) None
    = inl (Exn AgentError msg)
    /\ PyStr.contains "55" msg = true
    /\ PyStr.contains "50" msg = true.
Proof.
  apply (proj2 (cost_accuracy_exact Sample.vacation (Sample.plan 50) None)).
  vm_compute. discriminate.
Defined.

(** Matching dates pass; a vacation with other dates fails, and so does a
    plan that ends before it starts. *)
Lemma dates_match_evaluator_witness :
  eval_start_end_dates_match Sample.vacation (Sample.plan 55) None = inr tt
  /\ (exists msg,
        eval_start_end_dates_match Sample.reversed_dates (Sample.plan 55) None
        = inl (Exn AgentError msg))
  /\ (exists msg,
        eval_start_end_dates_match Sample.reversed_dates
          Sample.backwards_plan None
        = inl (Exn AgentError msg)).
Proof.
  split; [|split].
  - apply (proj2 (proj2 (dates_match_evaluator Sample.vacation
                           (Sample.plan 55) None))); reflexivity.
  - apply (proj1 (dates_match_evaluator Sample.reversed_dates
                    (Sample.plan 55) None)).
    left. discriminate.
  - apply (proj1 (proj2 (dates_match_evaluator Sample.reversed_dates
                           Sample.backwards_plan None))).
    reflexivity.
Defined.

(** The sample vacation is validated and meets the constraints; one without
    a budget is refused. *)
Lemma VacationInfo_validation_witness :
  VacationInfo_constraints Sample.vacation
  /\ VacationInfo_model_validate Sample.vacation = inr Sample.vacation
  /\ (exists errs,
        VacationInfo_model_validate Sample.no_budget = inl errs
        /\ errs <> []).
Proof.
  assert (C : VacationInfo_constraints Sample.vacation).
  { apply (proj1 (VacationInfo_validation Sample.vacation) Sample.vacation).
    reflexivity. }
  split; [exact C|]. split.
  - apply (proj1 (proj2 (VacationInfo_validation Sample.vacation))). exact C.
  - apply (proj2 (proj2 (VacationInfo_validation Sample.no_budget))).
    intros (_ & _ & _ & B). vm_compute in B. discriminate B.
Defined.

(** Queries outside what the mocked sources support. *)
Lemma mocked_sources_empty_results_witness :
  call_activities_api_mocked Sample.calendar Sample.strptime
    (Some "tomorrow") (Some "AgentsVille") None = []
  /\ call_activities_api_mocked Sample.calendar Sample.strptime
       (Some "2025-06-16") None None = []
  /\ call_activities_api_mocked Sample.calendar Sample.strptime
       (Some "2025-06-10") (Some "Paris") None = []
  /\ call_weather_api_mocked Sample.forecasts Sample.strptime
       "2025-06-09" "AgentsVille" = []
  /\ call_activity_by_id_api_mocked Sample.calendar "event-9" = None.
Proof.
  pose proof (mocked_sources_empty_results Sample.calendar Sample.forecasts
                Sample.strptime) as (A & B & W & I).
  split; [apply A; [discriminate | left; reflexivity]|].
  split; [apply A; [discriminate | right; reflexivity]|].
  split; [apply B; discriminate|].
  split; [apply W; right; right; reflexivity|].
  apply I. intros e [<-|[]]. discriminate.
Defined.

(** A scripted run of two passes: the calculator is called and its response
    is fed back, then the final answer is returned. *)
Example run_calculator_then_final :
  let r :=
    run_react_cycle (X := Scripted.collaborators)
      (Scripted.empty_plan "Elsewhere") 10 None None
      (Scripted.agent [Some Scripted.response_calculator;
                       Some Scripted.response_final]) in
  fst r = inr (Scripted.empty_plan "AgentsVille")
  /\ nth_error (messages (snd r)) 3
     = Some (Message "user"
               (Some ("OBSERVATION: Tool calculator_tool called successfully "
                      ++ "with response: 2.0")))
  /\ invoked (snd r)
     = [("calculator_tool", [("input_expression", JStr "1+1")])]
  /\ List.length (messages (snd r)) = 5%nat.
Proof. vm_compute. repeat split. Qed.

(** A run whose model call fails: the error of the call leaves the loop and
    the conversation holds only the request for revision. *)
Example run_model_failure :
  let r :=
    run_react_cycle (X := Scripted.collaborators)
      (Scripted.empty_plan "Elsewhere") 10 None None (Scripted.agent []) in
  fst r = inl (Exn (OtherError "APIConnectionError") "Connection error.")
  /\ List.length (messages (snd r)) = 2%nat.
Proof. vm_compute. split; reflexivity. Qed.

(** * Further runs on concrete inputs *)

(** A response with one action, and the same response with a second marker
    after it: the calculator request is what is dispatched. *)
Lemma action_text_is_first_segment_witness :
  handle_response (X := Scripted.collaborators) Scripted.response_calculator
    (Scripted.agent [])
  = dispatch_action (X := Scripted.collaborators) Scripted.response_calculator
      (JDict [("tool_name", JStr "calculator_tool");
              ("arguments", JDict [("input_expression", JStr "1+1")])])
      (Scripted.agent [])
  /\ handle_response (X := Scripted.collaborators)
       (Scripted.response_calculator ++ "ACTION: {}") (Scripted.agent [])
     = dispatch_action (X := Scripted.collaborators)
         (Scripted.response_calculator ++ "ACTION: {}")
         (JDict [("tool_name", JStr "calculator_tool");
                 ("arguments", JDict [("input_expression", JStr "1+1")])])
         (Scripted.agent []).
Proof.
  split.
  - exact (proj1 (action_text_is_first_segment (X := Scripted.collaborators)
                    "THOUGHT: add. " (" " ++ Scripted.text_calculator)
                    (Scripted.agent []))
             eq_refl eq_refl).
  - exact (proj2 (action_text_is_first_segment (X := Scripted.collaborators)
                    "THOUGHT: add. " (" " ++ Scripted.text_calculator)
                    (Scripted.agent []))
             " {}" eq_refl eq_refl).
Defined.

(** A reply that wraps the empty object in a fenced block. *)
Lemma get_itinerary_reads_fenced_json_witness :
  exists s1,
    get_itinerary (X := Scripted.collaborators) (fun _ => "{}")
      Trip.validate_json Sample.vacation None
      (Scripted.agent [Some Trip.fenced_reply])
    = (inr (Scripted.empty_plan "AgentsVille"), s1)
    /\ messages s1
       = [Message "system" (Some "You are a helpful assistant.");
          Message "user" (Some "{}")].
Proof.
  eexists. split.
  - apply (proj2 (proj2 (proj2 (proj2 (get_itinerary_reads_fenced_json
                     (X := Scripted.collaborators) (fun _ => "{}")
                     Trip.validate_json Sample.vacation None
                     (Scripted.agent [Some Trip.fenced_reply])))
             (Some Trip.fenced_reply) _ eq_refl) eq_refl)
            ("Here is the plan:" ++ nl) (nl ++ "{}" ++ nl) EmptyString);
      reflexivity.
  - reflexivity.
Defined.

(** A run with a budget of zero passes. *)
Lemma nonpositive_budget_raises_at_once_witness :
  run_react_cycle (X := Scripted.collaborators)
    (Scripted.empty_plan "AgentsVille") 0 None None
    (Scripted.agent [Some Scripted.response_final])
  = (inl (Exn RuntimeError
            ("ReAct cycle did not complete within 0 steps. "
             ++ "Last response: None")),
     appended (Scripted.agent [Some Scripted.response_final])
       (revision_request (Scripted.empty_plan "AgentsVille"))).
Proof.
  apply (nonpositive_budget_raises_at_once (X := Scripted.collaborators)
           (Scripted.empty_plan "AgentsVille") 0 None None
           (Scripted.agent [Some Scripted.response_final])).
  lia.
Defined.

(** A revision agent built without a client, and one built with a client but
    without a model. *)
Lemma unconfigured_agent_fails_first_pass_witness :
  fst (run_react_cycle (X := Scripted.collaborators)
         (Scripted.empty_plan "AgentsVille") 15 (Some GPT_41) None
         (@Build_state Scripted.collaborators None None [] []
            [Some Scripted.response_final]))
  = inl (Exn ValueError "A valid OpenAI client must be provided.")
  /\ fst (run_react_cycle (X := Scripted.collaborators)
            (Scripted.empty_plan "AgentsVille") 15 None (Some tt)
            (@Build_state Scripted.collaborators None None [] []
               [Some Scripted.response_final]))
     = inl (Exn ValueError "A valid model must be provided.").
Proof.
  split.
  - rewrite (proj1 (unconfigured_agent_fails_first_pass
                      (X := Scripted.collaborators)
                      (Scripted.empty_plan "AgentsVille") 15 (Some GPT_41) None
                      (@Build_state Scripted.collaborators None None [] []
                         [Some Scripted.response_final])
                      ltac:(lia)) eq_refl).
    reflexivity.
  - rewrite (proj2 (unconfigured_agent_fails_first_pass
                      (X := Scripted.collaborators)
                      (Scripted.empty_plan "AgentsVille") 15 None (Some tt)
                      (@Build_state Scripted.collaborators None None [] []
                         [Some Scripted.response_final])
                      ltac:(lia)) ltac:(discriminate) eq_refl).
    reflexivity.
Defined.

(** Scripted runs whose first pass elapses: the second model call fails, or
    it returns a response the console refuses to print. *)
Lemma model_failure_ends_run_witness :
  (exists s2,
      run_react_cycle (X := Scripted.collaborators)
        (Scripted.empty_plan "AgentsVille") 3 None None
        (Scripted.agent [Some Scripted.response_no_action])
      = (inl (Exn (OtherError "APIConnectionError") "Connection error."), s2)
      /\ List.length (messages s2) = 4%nat)
  /\ (exists s2,
        run_react_cycle (X := Scripted.collaborators)
          (Scripted.empty_plan "AgentsVille") 3 None None
          (Scripted.agent [Some Scripted.response_no_action;
                           Some "see [/docs]"])
        = (inl (Exn (OtherError "MarkupError")
                  "closing tag doesn't match any open tag"), s2)
        /\ List.last (messages s2) (Message "system" None)
           = Message "assistant" (Some "see [/docs]")).
Proof.
  split.
  - edestruct (model_failure_ends_run (X := Scripted.collaborators)
                 (Scripted.empty_plan "AgentsVille") 3 None None
                 (Scripted.agent [Some Scripted.response_no_action]))
      as [A _].
    + eapply elapses_cons; [lazy; reflexivity | apply elapses_nil].
    + cbn. lia.
    + edestruct A as [E _]; [lazy; reflexivity|].
      eexists. split; [exact E | reflexivity].
  - edestruct (model_failure_ends_run (X := Scripted.collaborators)
                 (Scripted.empty_plan "AgentsVille") 3 None None
                 (Scripted.agent [Some Scripted.response_no_action;
                                  Some "see [/docs]"]))
      as [_ B].
    + eapply elapses_cons; [lazy; reflexivity | apply elapses_nil].
    + cbn. lia.
    + edestruct B as [E _]; [lazy; reflexivity | lazy; reflexivity|].
      eexists. split; [exact E | reflexivity].
Defined.

(** The dates check passes, then an evaluator fails with a [RuntimeError],
    or with an [AgentError] whose message the console refuses: the cost
    check after it is not called. *)
Lemma fatal_evaluator_stops_suite_witness :
  get_eval_results (X := Scripted.collaborators) Sample.vacation
    (Sample.plan 50)
    ([@pure_evaluator unit "eval_start_end_dates_match"
        eval_start_end_dates_match]
     ++ @pure_evaluator unit "breaks" Trip.breaks
     :: [@pure_evaluator unit "eval_total_cost_is_accurate"
           eval_total_cost_is_accurate])%list
    None Sample.fresh
  = (inl (Exn RuntimeError "Unexpected response from the model"),
     {| world := tt;
        evaluated :=
          [(inr "eval_start_end_dates_match", inr tt);
           (inr "breaks",
            inl (Exn RuntimeError "Unexpected response from the model"))] |})
  /\ get_eval_results (X := Scripted.collaborators) Sample.vacation
       (Sample.plan 50)
       ([@pure_evaluator unit "eval_start_end_dates_match"
           eval_start_end_dates_match]
        ++ @pure_evaluator unit "always_fails"
             (Sample.always_fails "see [/docs]")
        :: [@pure_evaluator unit "eval_total_cost_is_accurate"
              eval_total_cost_is_accurate])%list
       None Sample.fresh
     = (inl (Exn (OtherError "MarkupError")
               "closing tag doesn't match any open tag"),
        {| world := tt;
           evaluated :=
             [(inr "eval_start_end_dates_match", inr tt);
              (inr "always_fails", inl (Exn AgentError "see [/docs]"))] |}).
Proof.
  split.
  - refine (proj1 (fatal_evaluator_stops_suite (X := Scripted.collaborators)
                    Sample.vacation (Sample.plan 50) None
                    [@pure_evaluator unit "eval_start_end_dates_match"
                       eval_start_end_dates_match]
                    [@pure_evaluator unit "eval_total_cost_is_accurate"
                       eval_total_cost_is_accurate]
                    (@pure_evaluator unit "breaks" Trip.breaks)
                    Sample.fresh tt tt
                    [(inr "eval_start_end_dates_match", inr tt)]
                    (Exn RuntimeError "Unexpected response from the model")
                    _ _ _) _).
    + eapply called_cons; [reflexivity | apply called_nil].
    + constructor; [exact I | constructor].
    + reflexivity.
    + reflexivity.
  - refine (proj2 (fatal_evaluator_stops_suite (X := Scripted.collaborators)
                    Sample.vacation (Sample.plan 50) None
                    [@pure_evaluator unit "eval_start_end_dates_match"
                       eval_start_end_dates_match]
                    [@pure_evaluator unit "eval_total_cost_is_accurate"
                       eval_total_cost_is_accurate]
                    (@pure_evaluator unit "always_fails"
                       (Sample.always_fails "see [/docs]"))
                    Sample.fresh tt tt
                    [(inr "eval_start_end_dates_match", inr tt)]
                    (Exn AgentError "see [/docs]")
                    _ _ _) _ _ _).
    + eapply called_cons; [reflexivity | apply called_nil].
    + constructor; [exact I | constructor].
    + reflexivity.
    + reflexivity.
    + reflexivity.
Defined.

(** Alice has a match in the sample plan and Bob has none. *)
Lemma interests_evaluator_witness :
  eval_itinerary_satisfies_interests Trip.str_of_list Sample.vacation
    (Sample.plan 55) None = inr tt
  /\ eval_itinerary_satisfies_interests Trip.str_of_list Trip.vacation
       (Sample.plan 55) None
     = inl (Exn AgentError
              "Travelers ['Bob'] has no matches with the itinerary.").
Proof.
  split.
  - apply (proj1 (interests_evaluator Trip.str_of_list Sample.vacation
                    (Sample.plan 55) None
                    ltac:(repeat constructor; simpl; intuition discriminate))).
    reflexivity.
  - apply (proj2 (interests_evaluator Trip.str_of_list Trip.vacation
                    (Sample.plan 55) None
                    ltac:(repeat constructor; simpl; intuition discriminate))).
    discriminate.
Defined.

(** Against the sample calendar, the plan with the museum tour and the picnic
    names an event the calendar does not hold, and the plan whose museum tour
    has its times in UTC does not match the entry, whose times are naive. *)
Lemma events_match_evaluator_witness :
  eval_itinerary_events_match_actual_events Trip.str_of_list Sample.calendar
    Trip.Activity_of_event Trip.datetime_eq Sample.vacation Trip.plan None
  = inl (Exn AgentError
           ("Event IDs missing: ['event-3']" ++ nl
            ++ "Event IDs not matching: []"))
  /\ eval_itinerary_events_match_actual_events Trip.str_of_list
       Sample.calendar Trip.Activity_of_event Trip.datetime_eq
       Sample.vacation Trip.plan_utc None
     = inl (Exn AgentError
              ("Event IDs missing: []" ++ nl
               ++ "Event IDs not matching: ['event-1']")).
Proof.
  split.
  - apply (proj2 (events_match_evaluator Trip.str_of_list Sample.calendar
                    Trip.Activity_of_event Trip.datetime_eq
                    ltac:(intros ev [<-|[]]; eexists; reflexivity)
                    Sample.vacation Trip.plan None)).
    left. discriminate.
  - apply (proj2 (events_match_evaluator Trip.str_of_list Sample.calendar
                    Trip.Activity_of_event Trip.datetime_eq
                    ltac:(intros ev [<-|[]]; eexists; reflexivity)
                    Sample.vacation Trip.plan_utc None)).
    right. discriminate.
Defined.

(** The sample calendar on 10 June 2025. *)
Lemma activities_query_sound_and_complete_witness :
  forallb
    (fun ev => PyStr.startswith (event_start_time ev) "2025-06-10")
    (call_activities_api_mocked Sample.calendar Sample.strptime
       (Some "2025-06-10") (Some "AgentsVille") None) = true
  /\ exists ev,
       In ev (call_activities_api_mocked Sample.calendar Sample.strptime
                (Some "2025-06-10") (Some "AgentsVille") None)
       /\ event_activity_id ev = "event-1".
Proof.
  split; [reflexivity|].
  eexists. split.
  - apply (proj2 (activities_query_sound_and_complete Sample.calendar
                    Sample.strptime "2025-06-10" (Some "AgentsVille") None _
                    ltac:(discriminate) eq_refl eq_refl
                    (or_intror eq_refl))).
    split; [left; reflexivity|]. split; [reflexivity | discriminate].
  - reflexivity.
Defined.

(** The sample forecast for 10 June 2025. *)
Lemma weather_report_is_for_the_date_witness :
  lookup "date"
    (call_weather_api_mocked Sample.forecasts Sample.strptime "2025-06-10"
       "AgentsVille")
  = Some (JStr "2025-06-10").
Proof.
  apply (weather_report_is_for_the_date Sample.forecasts Sample.strptime
           "2025-06-10" "AgentsVille").
  discriminate.
Defined.

(** The sample vacation lies in the window. *)
Lemma validated_vacation_window_witness :
  (10 <= day (date_of_arrival Sample.vacation))%Z
  /\ (day (date_of_departure Sample.vacation) <= 15)%Z.
Proof.
  destruct (validated_vacation_window Sample.vacation Sample.vacation
              eq_refl eq_refl) as (_ & _ & _ & _ & _ & A & _ & D).
  split; [exact A | exact D].
Defined.

(** A stated cost of 131 against a budget of 130. *)
Lemma within_budget_evaluator_witness :
  exists msg,
    eval_total_cost_is_within_budget Sample.vacation (Sample.plan 131) None
    = inl (Exn AgentError msg)
    /\ PyStr.contains "131" msg = true
    /\ PyStr.contains "130" msg = true.
Proof.
  apply (proj1 (proj2 (within_budget_evaluator Sample.vacation
                         (Sample.plan 131) None))).
  reflexivity.
Defined.

(** A judge that rejects what is asked about rain, on the plan with a museum
    tour on a sunny day and a picnic on a rainy one. *)
Lemma weather_evaluator_reports_rejected_witness :
  exists s',
    eval_activities_and_weather_are_compatible
      (X := Oracle.collaborators Oracle.weather_judge) tt "Judge the weather."
      Trip.str_of_list Sample.vacation Trip.plan None
      (Oracle.agent Oracle.weather_judge)
    = (inl (Exn AgentError
              ("Activities that may be ruined by inclement weather: "
               ++ "['Picnic']")), s').
Proof.
  destruct (weather_evaluator_reports_rejected
              (X := Oracle.collaborators Oracle.weather_judge) tt
              "Judge the weather." Trip.str_of_list
              (fun _ cond => negb (PyStr.contains "rain" cond))
              Sample.vacation Trip.plan None
              (Oracle.agent Oracle.weather_judge)) as [w E].
  - intros d r [<-|[<-|[]]] [<-|[]] []; eexists; exists tt;
      (split; [reflexivity|]); vm_compute; repeat split.
  - eexists. exact E.
Defined.

(** A service whose replies carry no content, on the same plan. *)
Lemma weather_evaluator_unreadable_verdict_witness :
  exists e s',
    eval_activities_and_weather_are_compatible
      (X := Oracle.collaborators Oracle.silent) tt "Judge the weather."
      Trip.str_of_list Sample.vacation Trip.plan None
      (Oracle.agent Oracle.silent)
    = (inl e, s')
    /\ exn_cls e = RuntimeError.
Proof.
  destruct (weather_evaluator_unreadable_verdict
              (X := Oracle.collaborators Oracle.silent) tt
              "Judge the weather." Trip.str_of_list
              Sample.vacation Trip.plan None (Oracle.agent Oracle.silent))
    as (e & w & E & C & _).
  - intros msgs []. exists None, tt. repeat split.
  - discriminate.
  - exists e. eexists. split; [exact E | exact C].
Defined.

(** Replies of the feedback judge: a verdict of full incorporation, another
    verdict, a reply the console refuses to print, and a reply without
    content. *)
Lemma feedback_evaluator_verdict_witness :
  (exists s',
      eval_traveler_feedback_is_incorporated (X := Scripted.collaborators)
        (fun s => s) tt "You are an expert." Sample.vacation (Sample.plan 55)
        (Some "More art.")
        (Scripted.agent [Some "FINAL OUTPUT: FULLY_INCORPORATED"])
      = (inr tt, s'))
  /\ (exists msg s',
        eval_traveler_feedback_is_incorporated (X := Scripted.collaborators)
          (fun s => s) tt "You are an expert." Sample.vacation
          (Sample.plan 55) (Some "More art.")
          (Scripted.agent [Some "FINAL OUTPUT: NOT_INCORPORATED"])
        = (inl (Exn AgentError msg), s'))
  /\ (exists s',
        eval_traveler_feedback_is_incorporated (X := Scripted.collaborators)
          (fun s => s) tt "You are an expert." Sample.vacation
          (Sample.plan 55) (Some "More art.")
          (Scripted.agent [Some "FINAL OUTPUT: FULLY_INCORPORATED [/x]"])
        = (inl (Exn (OtherError "MarkupError")
                  "closing tag doesn't match any open tag"), s'))
  /\ (exists s',
        eval_traveler_feedback_is_incorporated (X := Scripted.collaborators)
          (fun s => s) tt "You are an expert." Sample.vacation
          (Sample.plan 55) (Some "More art.") (Scripted.agent [None])
        = (inl (Exn TypeError "argument of type 'NoneType' is not iterable"),
           s')).
Proof.
  split; [|split; [|split]].
  - destruct (feedback_evaluator_verdict (X := Scripted.collaborators)
                (fun s => s) tt "You are an expert." Sample.vacation
                (Sample.plan 55) (Some "More art.")
                (Scripted.agent [Some "FINAL OUTPUT: FULLY_INCORPORATED"])
                (Some "FINAL OUTPUT: FULLY_INCORPORATED") []
                ltac:(discriminate) eq_refl) as (r & E & P & _).
    eexists. rewrite E. f_equal. apply P. eexists. repeat split.
  - destruct (feedback_evaluator_verdict (X := Scripted.collaborators)
                (fun s => s) tt "You are an expert." Sample.vacation
                (Sample.plan 55) (Some "More art.")
                (Scripted.agent [Some "FINAL OUTPUT: NOT_INCORPORATED"])
                (Some "FINAL OUTPUT: NOT_INCORPORATED") []
                ltac:(discriminate) eq_refl) as (r & E & _ & _ & A & _).
    destruct (A _ eq_refl eq_refl eq_refl eq_refl) as [msg ->].
    exists msg. eexists. exact E.
  - destruct (feedback_evaluator_verdict (X := Scripted.collaborators)
                (fun s => s) tt "You are an expert." Sample.vacation
                (Sample.plan 55) (Some "More art.")
                (Scripted.agent [Some "FINAL OUTPUT: FULLY_INCORPORATED [/x]"])
                (Some "FINAL OUTPUT: FULLY_INCORPORATED [/x]") []
                ltac:(discriminate) eq_refl) as (r & E & _ & M & _).
    rewrite (M _ _ eq_refl eq_refl) in E. eexists. exact E.
  - destruct (feedback_evaluator_verdict (X := Scripted.collaborators)
                (fun s => s) tt "You are an expert." Sample.vacation
                (Sample.plan 55) (Some "More art.") (Scripted.agent [None])
                None [] ltac:(discriminate) eq_refl)
      as (r & E & _ & _ & _ & _ & T).
    rewrite (T eq_refl) in E. eexists. exact E.
Defined.
